(** * ScheduleMaker: a shallow embedding of [ScheduleMaker.py]

    The course-schedule generator reads a Markdown file of learning
    objectives, strips comments, splits the text into sessions, walks the
    calendar of the term to date and number the sessions, renders every
    session to HTML and writes one table.  This file embeds those steps as
    Rocq functions and proves properties of them. *)

From Stdlib Require Import ZArith Ascii String List Lia Bool DecimalString.
From Stdlib Require Import ZifyBool.
From stdpp Require Import base option list sorting gmap strings.

Local Open Scope Z_scope.
Local Open Scope list_scope.

(** ** Python values

    A Python [str] is a sequence of characters; the text functions of the
    program work on it position by position, so it is a list here. *)

Abbreviation str := (list ascii).

Definition lit (s : string) : str := list_ascii_of_string s.

Definition NEWLINE : ascii := ascii_of_nat 10.
Definition QUOTE : ascii := ascii_of_nat 34.

Module Py.

(** [s.split(sep)] for a separator of one character: never empty, the
    pieces hold no separator. *)
Fixpoint split (sep : ascii) (s : str) : list str :=
  match s with
  | [] => [[]]
  | c :: s' =>
      if decide (c = sep) then [] :: split sep s'
      else match split sep s' with
           | l :: ls => (c :: l) :: ls
           | [] => [[c]]
           end
  end.

(** [sep.join(pieces)]. *)
Fixpoint join (sep : str) (pieces : list str) : str :=
  match pieces with
  | [] => []
  | [l] => l
  | l :: ls => l ++ sep ++ join sep ls
  end.

(** [s.startswith(p)]. *)
Fixpoint startswith (p s : str) : bool :=
  match p, s with
  | [], _ => true
  | _ :: _, [] => false
  | a :: p', b :: s' => if decide (a = b) then startswith p' s' else false
  end.

(** [p in s] on strings: [p] occurs in [s] as a contiguous run. *)
Fixpoint contains (p s : str) : bool :=
  startswith p s ||
  match s with
  | [] => false
  | _ :: s' => contains p s'
  end.

(** The scan of [s.replace(old, new)]: [skip] characters of a match
    already replaced are still to be passed over. *)
Fixpoint replace_scan (old new : str) (skip : nat) (s : str) : str :=
  match s with
  | [] => []
  | c :: s' =>
      match skip with
      | S k => replace_scan old new k s'
      | O =>
          if startswith old s
          then new ++ replace_scan old new (Nat.pred (length old)) s'
          else c :: replace_scan old new O s'
      end
  end.

(** [s.replace(old, new)] for a non-empty [old]: the occurrences are
    taken from the left and do not overlap. *)
Definition replace (old new s : str) : str := replace_scan old new O s.

(** [s.replace(old, new, 1)]: the leftmost occurrence only. *)
Fixpoint replace_first (old new s : str) : str :=
  match s with
  | [] => []
  | c :: s' =>
      if startswith old s then new ++ drop (length old) s
      else c :: replace_first old new s'
  end.

(** The characters [str.strip()] removes, among the first 128. *)
Definition isspace (c : ascii) : bool :=
  let n := nat_of_ascii c in
  ((9 <=? n)%nat && (n <=? 13)%nat) || ((28 <=? n)%nat && (n <=? 32)%nat).

Fixpoint lstrip (s : str) : str :=
  match s with
  | [] => []
  | c :: s' => if isspace c then lstrip s' else s
  end.

(** [s.strip()]. *)
Definition strip (s : str) : str := rev (lstrip (rev (lstrip s))).

End Py.

(** ** Module constants *)

Definition COMMENT_BEGIN_INDICATOR : str := lit "^!!! BEGIN COMMENT".
Definition COMMEND_END_INDICATOR : str := lit "^!!! END COMMENT".
Definition COMMENT_INDICATOR : str := lit "!!!".

(** [re.match(COMMEND_END_INDICATOR, line)]: the pattern is a caret and
    literal characters, and [re.match] tries position 0 only, so it
    succeeds when the line starts with the text after the caret. *)
Definition re_match_COMMEND_END (line : str) : bool :=
  Py.startswith (lit "!!! END COMMENT") line.

(** ** Comment Stripper: [ScheduleMaker.strip_comments]

    The method reads [self.raw_data] and nothing else of the maker; the
    text is its argument here. *)

(** The [for line in lines] loop, with its two variables. *)
Fixpoint strip_comments_loop (i_am_inside_a_comment : bool)
    (lines_to_keep : list str) (lines : list str) : list str :=
  match lines with
  | [] => lines_to_keep
  | line :: rest =>
      if i_am_inside_a_comment then
        if re_match_COMMEND_END line
        then strip_comments_loop false lines_to_keep rest
        else strip_comments_loop true lines_to_keep rest
      else
        if Py.contains COMMENT_BEGIN_INDICATOR line
        then strip_comments_loop true lines_to_keep rest
        else if negb (Py.contains COMMENT_INDICATOR line)
        then strip_comments_loop false (lines_to_keep ++ [line]) rest
        else strip_comments_loop false lines_to_keep rest
  end.

Definition strip_comments (raw_data : str) : str :=
  let lines := Py.split NEWLINE raw_data in
  Py.join [NEWLINE] (strip_comments_loop false [] lines).

(** ** Dates: the part of [datetime.date] the program uses

    A date is held as its proleptic Gregorian ordinal ([date.toordinal()]):
    day 1 is 0001-01-01 and [date.max], 9999-12-31, is day 3652059.  The
    conversions follow the standard library's [_ymd2ord] and [_ord2ymd]. *)

Module datetime.

Definition MINYEAR : Z := 1.
Definition MAXYEAR : Z := 9999.
Definition MAXORDINAL : Z := 3652059.

Definition is_leap (year : Z) : bool :=
  (year mod 4 =? 0) && (negb (year mod 100 =? 0) || (year mod 400 =? 0)).

Definition DAYS_IN_MONTH : list Z :=
  [31; 28; 31; 30; 31; 30; 31; 31; 30; 31; 30; 31].

Definition days_in_month (year month : Z) : Z :=
  if (month =? 2) && is_leap year then 29
  else default 0 (DAYS_IN_MONTH !! Z.to_nat (month - 1)).

Definition days_before_year (year : Z) : Z :=
  let y := year - 1 in y * 365 + y / 4 - y / 100 + y / 400.

Definition days_before_month (year month : Z) : Z :=
  foldr Z.add 0 (take (Z.to_nat (month - 1)) DAYS_IN_MONTH)
  + (if (month >? 2) && is_leap year then 1 else 0).

Definition ymd2ord (year month day : Z) : Z :=
  days_before_year year + days_before_month year month + day.

(** [datetime.date(year, month, day)]; [None] stands for the [ValueError]
    of a date that does not exist. *)
Definition date (year month day : Z) : option Z :=
  if (MINYEAR <=? year) && (year <=? MAXYEAR)
     && (1 <=? month) && (month <=? 12)
     && (1 <=? day) && (day <=? days_in_month year month)
  then Some (ymd2ord year month day)
  else None.

Definition ord2ymd (n0 : Z) : Z * Z * Z :=
  let n := n0 - 1 in
  let n400 := n / 146097 in
  let n := n mod 146097 in
  let year := n400 * 400 + 1 in
  let n100 := n / 36524 in
  let n := n mod 36524 in
  let n4 := n / 1461 in
  let n := n mod 1461 in
  let n1 := n / 365 in
  let n := n mod 365 in
  let year := year + n100 * 100 + n4 * 4 + n1 in
  if (n1 =? 4) || (n100 =? 4) then (year - 1, 12, 31)
  else
    let leapyear := (n1 =? 3) && (negb (n4 =? 24) || (n100 =? 3)) in
    let month := Z.shiftr (n + 50) 5 in
    let preceding :=
      days_before_month 1 month
      + (if (month >? 2) && leapyear then 1 else 0) in
    if preceding >? n then
      let month := month - 1 in
      let preceding :=
        preceding - (default 0 (DAYS_IN_MONTH !! Z.to_nat (month - 1))
                     + (if (month =? 2) && leapyear then 1 else 0)) in
      (year, month, n - preceding + 1)
    else (year, month, n - preceding + 1).

Definition month (d : Z) : Z := (ord2ymd d).1.2.
Definition day (d : Z) : Z := (ord2ymd d).2.

(** [d.isoweekday()]: Monday is 1, Sunday is 7. *)
Definition isoweekday (d : Z) : Z := (d + 6) mod 7 + 1.

(** [d + datetime.timedelta(1)]; [None] stands for the [OverflowError]
    past [date.max]. *)
Definition add_one_day (d : Z) : option Z :=
  if d + 1 <=? MAXORDINAL then Some (d + 1) else None.

Definition MONTH_NAMES : list str :=
  map lit ["January"; "February"; "March"; "April"; "May"; "June"; "July";
           "August"; "September"; "October"; "November";
           "December"]%string.

(** [d.strftime('%B')] in the default locale. *)
Definition strftime_B (d : Z) : str :=
  default [] (MONTH_NAMES !! Z.to_nat (month d - 1)).

End datetime.

(** [str(n)] for an [int]. *)
Definition str_of_int (n : Z) : str :=
  lit (DecimalString.NilZero.string_of_int (Z.to_int n)).

(** ['{:02}'.format(n)] for an [int]: at least two characters, padded with
    zeros after the sign. *)
Definition format_02 (n : Z) : str :=
  if (0 <=? n) && (n <? 10) then lit "0" ++ str_of_int n else str_of_int n.

(** ** Exceptions and results *)

Inductive exn :=
| AssertionError (msg : str)
| AttributeError
| FileNotFoundError
| IndexError
| KeyError (key : str)
| NameError (name : str)
| OverflowError
| TypeError
| ValueError
| ZeroDivisionError.

(** What a call gives back: a value, an exception, or [Unfinished] when the
    step budget of a modelled loop is used up (shown below never to
    happen for the one [while] loop of the program). *)
Inductive Res (A : Type) :=
| Return (a : A)
| Raise (e : exn)
| Unfinished.

Arguments Return {A} a.
Arguments Raise {A} e.
Arguments Unfinished {A}.

(** Methods mutate the object they are called on and may raise: a
    computation takes the state and gives the result and the state it
    leaves behind, also when it raises. *)
Definition M (St A : Type) : Type := St -> Res A * St.

Definition ret {St A} (a : A) : M St A := fun s => (Return a, s).

Definition raise {St A} (e : exn) : M St A := fun s => (Raise e, s).

Definition bind {St A B} (m : M St A) (k : A -> M St B) : M St B :=
  fun s =>
    match m s with
    | (Return a, s') => k a s'
    | (Raise e, s') => (Raise e, s')
    | (Unfinished, s') => (Unfinished, s')
    end.

Definition get {St} : M St St := fun s => (Return s, s).

Definition modify {St} (f : St -> St) : M St unit := fun s => (Return tt, f s).

(** A pure result as a computation. *)
Definition lift_res {St A} (r : Res A) : M St A := fun s => (r, s).

(** Reading an attribute that holds [None] or was never set, and then
    using it, raises [AttributeError]; a missing list index raises
    [IndexError]. *)
Definition attr {St A} (o : option A) : M St A :=
  match o with Some a => ret a | None => raise AttributeError end.

Definition item {St A} (o : option A) : M St A :=
  match o with Some a => ret a | None => raise IndexError end.

Notation "'let*' x ':=' m 'in' k" := (bind m (fun x => k))
  (at level 10, x name, m at level 100, k at level 200, only parsing).
Notation "m >> k" := (bind m (fun _ => k))
  (at level 100, k at level 200, right associativity, only parsing).

(** [for k in range(n): body(k)]. *)
Fixpoint for_range_from {St} (k n : nat) (body : nat -> M St unit) : M St unit :=
  match n with
  | O => ret tt
  | S n' => body k >> for_range_from (S k) n' body
  end.

Definition for_range {St} (n : nat) (body : nat -> M St unit) : M St unit :=
  for_range_from O n body.

(** ** [string.Template.substitute]

    The template is scanned from the left; [$$] is a dollar sign, [$name]
    and [${name}] are replaced by the value of the keyword [name], a name
    with no value raises [KeyError] and any other [$] raises [ValueError].
    Values are not scanned again. *)

Module Template.

Definition is_digit (c : ascii) : bool :=
  let n := nat_of_ascii c in (48 <=? n)%nat && (n <=? 57)%nat.

Definition is_idstart (c : ascii) : bool :=
  let n := nat_of_ascii c in
  (n =? 95)%nat || ((97 <=? n)%nat && (n <=? 122)%nat)
  || ((65 <=? n)%nat && (n <=? 90)%nat).

Definition is_idchar (c : ascii) : bool := is_idstart c || is_digit c.

Definition DOLLAR : ascii := ascii_of_nat 36.
Definition LBRACE : ascii := ascii_of_nat 123.
Definition RBRACE : ascii := ascii_of_nat 125.

Inductive state :=
| Text
| Dollar
| Named (name : str)
| Braced (name : str).

Fixpoint lookup (kws : list (str * str)) (name : str) : Res str :=
  match kws with
  | [] => Raise (KeyError name)
  | (k, v) :: kws' => if decide (k = name) then Return v else lookup kws' name
  end.

Definition prepend (v : str) (r : Res str) : Res str :=
  match r with
  | Return s => Return (v ++ s)
  | Raise e => Raise e
  | Unfinished => Unfinished
  end.

Definition then_prepend (v : Res str) (r : Res str) : Res str :=
  match v with
  | Return s => prepend s r
  | Raise e => Raise e
  | Unfinished => Unfinished
  end.

Fixpoint scan (kws : list (str * str)) (st : state) (s : str) : Res str :=
  match s with
  | [] =>
      match st with
      | Text => Return []
      | Named name => lookup kws name
      | Dollar | Braced _ => Raise ValueError
      end
  | c :: s' =>
      match st with
      | Text =>
          if decide (c = DOLLAR) then scan kws Dollar s'
          else prepend [c] (scan kws Text s')
      | Dollar =>
          if decide (c = DOLLAR) then prepend [DOLLAR] (scan kws Text s')
          else if is_idstart c then scan kws (Named [c]) s'
          else if decide (c = LBRACE) then scan kws (Braced []) s'
          else Raise ValueError
      | Named name =>
          if is_idchar c then scan kws (Named (name ++ [c])) s'
          else then_prepend (lookup kws name)
                 (if decide (c = DOLLAR) then scan kws Dollar s'
                  else prepend [c] (scan kws Text s'))
      | Braced name =>
          if (match name with [] => is_idstart c | _ => is_idchar c end)
          then scan kws (Braced (name ++ [c])) s'
          else if bool_decide (c = RBRACE) && negb (bool_decide (name = []))
          then then_prepend (lookup kws name) (scan kws Text s')
          else Raise ValueError
      end
  end.

Definition substitute (template : str) (kws : list (str * str)) : Res str :=
  scan kws Text template.

End Template.

(** A template text written with a backquote wherever the source has a
    double quote. *)
Definition tpl (s : string) : str :=
  map (fun c => if decide (c = ascii_of_nat 96) then QUOTE else c) (lit s).

(** ** Libraries outside the repository

    [markdown.markdown] and BeautifulSoup's [prettify] are taken as given
    functions on text. *)

Class Libraries := {
  markdown_markdown : str -> str;
  bs4_prettify : str -> str
}.

(** ** Data model *)

Inductive SessionType :=
| REGULAR
| NO_CLASS
| EVENING_EXAM
| IN_CLASS_EXAM
| PROJECT
| OTHER.

Global Instance SessionType_eq_dec : EqDecision SessionType.
Proof. solve_decision. Defined.

Definition SESSION_INDICATOR : str := lit "^.*Session[ ]*[0-9]*:".
Definition EXAM_INDICATOR : str := lit "Exam ".

Definition EVENING_EXAM_TEMPLATE : str :=
  lit "
      <div class=evening_exam>
        <p>
          The regular in-class session on $REGULAR_DAY
          is an OPTIONAL review session.
          The test itself is
            <span class=exam_date_time>
              $EXAM_DAY
              evening from 7:30 p.m. to 9:30 p.m.
              (with an additional 30-minute grace period)
            </span>
            <span class=exam_rooms> in rooms TBA.</span>
        </p>
      </div>
      ".

Definition SHOW_TOPICS : bool := false.

(** A [ValueError] for a result that does not exist. *)
Definition or_ValueError {St A} (o : option A) : M St A :=
  match o with Some a => ret a | None => raise ValueError end.

Definition or_TypeError {St A} (o : option A) : M St A :=
  match o with Some a => ret a | None => raise TypeError end.

(** [str(x)] for a value that is a string or [None]. *)
Definition str_of_optional (o : option str) : str :=
  match o with Some s => s | None => lit "None" end.

Module ScheduleDate.

Record t := mk {
  datetime_date : Z;
  message : option str
}.

(** [ScheduleDate(year, day, month, message)]: the second and third
    arguments go to [datetime.date] in the order they come. *)
Definition init {St} (year day month : Z) (message : option str) : M St t :=
  let* d := or_ValueError (datetime.date year day month) in
  ret (mk d message).

(** [__eq__] against a [datetime.date]: the dates are compared. *)
Definition eq (self : t) (date : Z) : bool :=
  bool_decide (datetime_date self = date).

End ScheduleDate.

(** [date in dates] and [dates.index(date)] on a list of [ScheduleDate]s:
    both compare with [ScheduleDate.__eq__], the index is the first hit. *)
Definition date_in (date : Z) (dates : list ScheduleDate.t) : bool :=
  existsb (fun sd => ScheduleDate.eq sd date) dates.

Fixpoint date_index (dates : list ScheduleDate.t) (date : Z) : option nat :=
  match dates with
  | [] => None
  | sd :: dates' =>
      if ScheduleDate.eq sd date then Some O
      else S <$> date_index dates' date
  end.

Module TermInfo.

Record t := mk {
  term : str;
  start_date : Z;
  end_date : Z;
  days_of_week : list Z;
  weekdays_of_week : list str;
  dates_to_skip : list ScheduleDate.t;
  evening_exams : list ScheduleDate.t;
  start_session_number : Z;
  learning_objectives_filename : str;
  schedule_table_filename : str;
  number_of_sessions : Z
}.

Definition init {St} (term : str) : M St t :=
  let* start_date := or_ValueError (datetime.date 2017 8 28) in
  let* end_date := or_ValueError (datetime.date 2017 11 9) in
  let* skip1 := ScheduleDate.init 2017 8 28 (Some (lit "No class")) in
  let* skip2 := ScheduleDate.init 2017 8 30 (Some (lit "No class")) in
  let* skip3 := ScheduleDate.init 2017 10 12 (Some (lit "Fall break")) in
  let* exam1_msg := lift_res (Template.substitute EVENING_EXAM_TEMPLATE
                 [(lit "REGULAR_DAY", lit "Thursday");
                  (lit "EXAM_DAY", lit "Thursday")]) in
  let exam2_msg := exam1_msg in
  let* exam1 := ScheduleDate.init 2017 9 14 (Some exam1_msg) in
  let* exam2 := ScheduleDate.init 2017 10 5 (Some exam2_msg) in
  let csse120_folder := lit "/Users/david/classes/120/" in
  let term_folder := csse120_folder ++ lit "Public/" ++ term ++ lit "/" in
  let le_folder := term_folder ++ lit "LearningObjectives/" in
  let le_file := term ++ lit "-LearningObjectives.md" in
  let st_folder := term_folder in
  let st_file := lit "index.html" in
  ret {| term := term;
         start_date := start_date;
         end_date := end_date;
         days_of_week := [1; 3; 4];
         weekdays_of_week := [lit "Monday"; lit "Wednesday"; lit "Thursday"];
         dates_to_skip := [skip1; skip2; skip3];
         evening_exams := [exam1; exam2];
         start_session_number := 1;
         learning_objectives_filename := le_folder ++ le_file;
         schedule_table_filename := st_folder ++ st_file;
         number_of_sessions := 30 |}.

End TermInfo.

(** ** Sessions *)

Inductive SessionClass :=
| IsClassSession
| IsNoClassSession.

Global Instance SessionClass_eq_dec : EqDecision SessionClass.
Proof. solve_decision. Defined.

Module Session.

(** The attributes of a session object; [None] in [preparation_link],
    [topics_html] and [html] is an attribute not set yet. *)
Record t := mk {
  class : SessionClass;
  datetime_date : option Z;
  title : option str;
  session_number : option Z;
  topics : option str;
  session_type : option SessionType;
  message : option str;
  preparation_link : option str;
  topics_html : option str;
  html : option str
}.

(** [Session.__init__]: the [message] argument is dropped, the attribute
    starts as [None]. *)
Definition init (class : SessionClass) (datetime_date : option Z)
    (title : option str) (session_number : option Z) (topics : option str)
    (session_type : option SessionType) (message : option str) : t :=
  mk class datetime_date title session_number topics session_type None
     None None None.

Definition set_datetime_date (v : option Z) (s : t) : t :=
  mk (class s) v (title s) (session_number s) (topics s) (session_type s)
     (message s) (preparation_link s) (topics_html s) (html s).

Definition set_session_number (v : option Z) (s : t) : t :=
  mk (class s) (datetime_date s) (title s) v (topics s) (session_type s)
     (message s) (preparation_link s) (topics_html s) (html s).

Definition set_session_type (v : option SessionType) (s : t) : t :=
  mk (class s) (datetime_date s) (title s) (session_number s) (topics s) v
     (message s) (preparation_link s) (topics_html s) (html s).

Definition set_message (v : option str) (s : t) : t :=
  mk (class s) (datetime_date s) (title s) (session_number s) (topics s)
     (session_type s) v (preparation_link s) (topics_html s) (html s).

Definition set_preparation_link (v : option str) (s : t) : t :=
  mk (class s) (datetime_date s) (title s) (session_number s) (topics s)
     (session_type s) (message s) v (topics_html s) (html s).

Definition set_topics_html (v : option str) (s : t) : t :=
  mk (class s) (datetime_date s) (title s) (session_number s) (topics s)
     (session_type s) (message s) (preparation_link s) v (html s).

Definition set_topics (v : option str) (s : t) : t :=
  mk (class s) (datetime_date s) (title s) (session_number s) v
     (session_type s) (message s) (preparation_link s) (topics_html s)
     (html s).

Definition set_html (v : option str) (s : t) : t :=
  mk (class s) (datetime_date s) (title s) (session_number s) (topics s)
     (session_type s) (message s) (preparation_link s) (topics_html s) v.

Definition date_as_string : M t str :=
  let* self := get in
  let* d := attr (datetime_date self) in
  ret (datetime.strftime_B d ++ lit " " ++ str_of_int (datetime.day d)).

End Session.

Module NoClassSession.

Definition NO_CLASS_TEMPLATE : str :=
  tpl "
        <div class=`no_class_title`>$SessionTitle</div>
        <div class=`session_date`>$SessionDate</div>".

Definition init (schedule_date : ScheduleDate.t) : Session.t :=
  Session.init IsNoClassSession
    (Some (ScheduleDate.datetime_date schedule_date))
    (ScheduleDate.message schedule_date)
    None None (Some NO_CLASS) None.

Definition make_html : M Session.t unit :=
  let* self := get in
  let* date := Session.date_as_string in
  let* html := lift_res (Template.substitute NO_CLASS_TEMPLATE
            [(lit "SessionTitle", str_of_optional (Session.title self));
             (lit "SessionDate", date)]) in
  modify (Session.set_html (Some html)).

End NoClassSession.

Module ClassSession.

Definition SESSION_TEMPLATE : str :=
  tpl "
        <div class=session_identifier>
          <span class=`session_preparation`>$SessionPreparationLink</span>
          <span class=`for_session`>for session</span>
          <span class=`session_number`>$SessionNumber</span>
          <span class=`session_date`>($SessionDate)</span>
        </div>
        <div class=`session_title`> $SessionTitle </div>
        ".

Definition SESSION_TOPICS_TEMPLATE : str :=
  lit "
        <div class=session_topics>$SessionTopics
        </div>".

Definition TOPICS_INDENT : str := lit "              ".

(** [LINK_TO_PREP] around its one replacement field [{:02}]. *)
Definition LINK_TO_PREP_before : str := tpl "<a href=`Sessions/Session".
Definition LINK_TO_PREP_after : str := tpl "/index.html`>Preparation</a>".

(** [LINK_TO_PREP.format(n)]: formatting [None] with [02] is a
    [TypeError]. *)
Definition LINK_TO_PREP_format {St} (n : option Z) : M St str :=
  let* n := or_TypeError n in
  ret (LINK_TO_PREP_before ++ format_02 n ++ LINK_TO_PREP_after).

Definition find_session_type (topics : str) : option SessionType := None.

Definition init (title topics : str) : Session.t :=
  let session_type := find_session_type topics in
  Session.init IsClassSession None (Some title) None (Some topics)
    session_type None.

Definition add_exam_info : M Session.t unit :=
  let* self := get in
  let* html := attr (Session.html self) in
  let* message := or_TypeError (Session.message self) in
  modify (Session.set_html (Some (html ++ message))).

(** The body starts by reading the name [gfm], which no import binds. *)
Definition make_topics_html : M Session.t unit :=
  raise (NameError (lit "gfm")).

(** [make_html], with the module constant [SHOW_TOPICS] as a parameter.
    The [print] of the title goes to standard output, which is not part
    of the state here. *)
Definition make_html_when `{Libraries} (show_topics : bool)
    : M Session.t unit :=
  let* self := get in
  let* preparation_link := LINK_TO_PREP_format (Session.session_number self) in
  modify (Session.set_preparation_link (Some preparation_link)) >>
  let* self_title := attr (Session.title self) in
  let title :=
    markdown_markdown
      (Py.replace (lit "/") (lit "<br>" ++ [NEWLINE]) self_title) in
  let* number := or_TypeError (Session.session_number self) in
  let* date := Session.date_as_string in
  let* html := lift_res (Template.substitute SESSION_TEMPLATE
            [(lit "SessionPreparationLink", preparation_link);
             (lit "SessionNumber", str_of_int number);
             (lit "SessionDate", date);
             (lit "SessionTitle", title)]) in
  modify (Session.set_html (Some html)) >>
  (if decide (Session.session_type self = Some EVENING_EXAM)
   then add_exam_info else ret tt) >>
  if show_topics then
    let* topics := attr (Session.topics self) in
    if bool_decide (Py.strip topics <> []) then
      make_topics_html >>
      let* self := get in
      let* topics_html := attr (Session.topics_html self) in
      let* html := attr (Session.html self) in
      let* block := lift_res (Template.substitute SESSION_TOPICS_TEMPLATE
                 [(lit "SessionTopics", topics_html)]) in
      modify (Session.set_html (Some (html ++ block)))
    else ret tt
  else ret tt.

Definition make_html `{Libraries} : M Session.t unit :=
  make_html_when SHOW_TOPICS.

End ClassSession.

(** [session.make_html()]: the method of the object's class. *)
Definition Session_make_html `{Libraries} : M Session.t unit :=
  let* self := get in
  match Session.class self with
  | IsClassSession => ClassSession.make_html
  | IsNoClassSession => NoClassSession.make_html
  end.

Module ScheduleHeader.

Definition HEADER_TEMPLATE : str :=
  tpl "<!DOCTYPE HTML>
<html>
<head>
    <meta charset=`UTF-8`>
    <link rel=`stylesheet` type=`text/css` href=`http://fonts.googleapis.com/css?family=Open+Sans`>
    <link rel=`stylesheet` type=`text/css` href=`styles/style.css`>
    <link rel=`stylesheet` type=`text/css` href=`styles/navigation_bar.css`>
    <link rel=`stylesheet` type=`text/css` href=`styles/home_page.css`>
    <link rel=`stylesheet` type=`text/css` href=`styles/schedule_page.css`>

    <title> CSSE 120 Home Page </title>
</head>

<body>

<nav>
  <img src=`../Images/girls_who_code2_90x60.png` alt=`Girls coding together`/>
  <div>
    <p>
      <span class=`course_number`> CSSE 120</span>
      <br>
      <span class=`course_title`>Introduction to Software Development</span>
      <br>
      <span class=`course_term`>Fall term, 2017-18 (aka 201810)</span>
    </p>
  </div>
  <a href=`Syllabus_CourseInformation/syllabus.html`>SYLLABUS</a>
  <a href=`Resources/CSSE120_Setup`>SETUP</a>
  <a href=`../Resources/Piazza`>PIAZZA (Q&A)</a>
  <a href=`../Resources/Python`>PYTHON</a>
  <a href=`../Resources/Graphics`>GRAPHICS</a>
  <a href=`../Resources/Robotics`>ROBOTICS</a>
</nav>

<section class=`course_schedule`>
<table>
  <caption>What to do, When</caption>
  <thead>
    <tr>${THs_FOR_CLASSDAYS}
    </tr>
  </thead>
  <tbody>".

Definition GOOGLE_FONT : str :=
  lit "http://fonts.googleapis.com/css?family=Open+Sans".

Definition TH_FOR_DAY_OF_WEEK_TEMPLATE : str :=
  lit "
      <th class=schedule_caption> $DAY </th>".

(** The loop [for weekday in weekdays_of_week: THs += ...]. *)
Fixpoint make_THs {St} (THs : str) (weekdays : list str) : M St str :=
  match weekdays with
  | [] => ret THs
  | weekday :: rest =>
      let* th := lift_res (Template.substitute TH_FOR_DAY_OF_WEEK_TEMPLATE
              [(lit "DAY", weekday)]) in
      make_THs (THs ++ th) rest
  end.

(** [ScheduleHeader(weekdays_of_week).html]. *)
Definition init {St} (weekdays_of_week : list str) : M St str :=
  let* THs := make_THs [] weekdays_of_week in
  lift_res (Template.substitute HEADER_TEMPLATE
    [(lit "GOOGLE_FONT", GOOGLE_FONT); (lit "THs_FOR_CLASSDAYS", THs)]).

End ScheduleHeader.

Module ScheduleTable.

Definition ROW_START : str := lit "
    <tr>".
Definition ROW_END : str := lit "
    </tr>".
Definition ITEM_START : str := lit "

      <td>".
Definition ITEM_END : str := lit "
      </td>".

End ScheduleTable.

Module ScheduleTrailer.

Definition TRAILER : str :=
  lit "
</table>
</section>
</body>
</html>".

Definition FINAL_EXAM : str :=
  lit "
  </tbody>
  <tfoot>
    <tr>
      <th colspan=3>
    PROJECT DEMOs and FINAL EXAM during exam week, times TBD.
     </th>
     </tr>
  </tfoot>".

(** [ScheduleTrailer().html]. *)
Definition init : str := FINAL_EXAM ++ TRAILER.

End ScheduleTrailer.

Module ExamTopic.

Definition EVENING_EXAM_TEMPLATE : str :=
  tpl "
<ul class=`topic evening_exam`>
  <li class=`topic evening_exam`>
    The regular in-class session on $RegularClassDay
    is an OPTIONAL review session.
  </li>
  <li class=`topic exam_day_time_rooms`>
    The test itself is
    <span class=exam_date_time>
      $ExamDay evening from 7:30 p.m. to 9:30 p.m.
      (with an additional 30-minute grace period)
    </span>
    <span class=exam_rooms>
    in rooms TBA.
    </span>
    <ul>
      <li>
        So NOT $RegularClassDay, NOT daytime.
      </li>
    </ul>
  </li>
  <li class=`topic exam_requirement`>
    You MUST have completed this test's PRACTICE project
    <span class=`parenthetical`>
      (including its paper-and-pencil exercise)
    </span>
    BEFORE you take this test.
    <ul>
      <li>
        It is your ADMISSION TICKET to the test.
      </li>
      <li>
        Talk to your instructor if that poses a problem for you.
      </li>
    </ul>
  </li>
</ul>
".

End ExamTopic.

(** ** Regular expressions of the program

    Each pattern is matched by a function written for it. *)

Fixpoint drop_while (p : ascii -> bool) (s : str) : str :=
  match s with
  | [] => []
  | c :: s' => if p c then drop_while p s' else s
  end.

Definition SPACE : ascii := ascii_of_nat 32.
Definition COLON : ascii := ascii_of_nat 58.
Definition FULL_STOP : ascii := ascii_of_nat 46.

(** [Session[ ]*[0-9]*:] at the head of [s]; the result is the text after
    the match.  Both stars take all they can, and giving a character back
    never helps: the next one wanted is the colon. *)
Definition match_Session_marker (s : str) : option str :=
  if Py.startswith (lit "Session") s then
    match
      drop_while Template.is_digit
        (drop_while (fun c => bool_decide (c = SPACE)) (drop 7 s))
    with
    | c :: rest => if decide (c = COLON) then Some rest else None
    | [] => None
    end
  else None.

(** [^.*Session[ ]*[0-9]*:] on one line, from its start: the greedy [.*]
    makes the match end at the last marker of the line. *)
Fixpoint match_SESSION_INDICATOR (line : str) : option str :=
  match line with
  | [] => match_Session_marker []
  | _ :: line' =>
      match match_SESSION_INDICATOR line' with
      | Some rest => Some rest
      | None => match_Session_marker line
      end
  end.

(** The pieces of [re.split(SESSION_INDICATOR, data, flags=re.MULTILINE)],
    line by line: with [re.MULTILINE] a match starts at the start of a line
    and, the dot not matching a newline, ends in the same line; [current]
    is the piece being collected. *)
Fixpoint re_split_loop (current : str) (lines : list str) : list str :=
  match lines with
  | [] => [current]
  | line :: rest =>
      match rest with
      | [] =>
          match match_SESSION_INDICATOR line with
          | Some after => [current; after]
          | None => [current ++ line]
          end
      | _ :: _ =>
          match match_SESSION_INDICATOR line with
          | Some after => current :: re_split_loop (after ++ [NEWLINE]) rest
          | None => re_split_loop (current ++ line ++ [NEWLINE]) rest
          end
      end
  end.

Definition re_split_SESSION_INDICATOR (data : str) : list str :=
  re_split_loop [] (Py.split NEWLINE data).

(** [Test [0-9]\.] and [Sprint [0-9]] at the head of [s]. *)
Definition match_Test (s : str) : bool :=
  Py.startswith (lit "Test ") s &&
  match drop 5 s with
  | d :: c :: _ => Template.is_digit d && bool_decide (c = FULL_STOP)
  | _ => false
  end.

Definition match_Sprint (s : str) : bool :=
  Py.startswith (lit "Sprint ") s &&
  match drop 7 s with
  | d :: _ => Template.is_digit d
  | _ => false
  end.

(** [re.match] of a pattern [P] between two dot-stars, with [re.DOTALL]:
    [P] matches somewhere in [s]. *)
Fixpoint re_match_anywhere (at_head : str -> bool) (s : str) : bool :=
  at_head s ||
  match s with
  | [] => false
  | _ :: s' => re_match_anywhere at_head s'
  end.

(** The [re.sub] on the group [Test [0-9]\.] with the group and then
    [for_tests] as replacement, for a [for_tests] without backslashes:
    every match, 7 characters long, is followed by [for_tests]. *)
Fixpoint re_sub_Test (for_tests : str) (skip : nat) (s : str) : str :=
  match s with
  | [] => []
  | c :: s' =>
      match skip with
      | S k =>
          c :: (if decide (k = O) then for_tests else [])
            ++ re_sub_Test for_tests k s'
      | O =>
          if match_Test s then c :: re_sub_Test for_tests 6 s'
          else c :: re_sub_Test for_tests O s'
      end
  end.

(** The [re.sub] that re-indents a line: the pattern is a caret and a
    group of spaces, the replacement is the group twice, so the leading
    spaces are doubled. *)
Fixpoint double_leading_spaces (line : str) : str :=
  match line with
  | c :: line' =>
      if decide (c = SPACE) then c :: c :: double_leading_spaces line'
      else line
  | [] => []
  end.

(** [lst.insert(i, x)] for [i >= 0]: past the end it appends. *)
Definition list_insert_at {A} (i : nat) (x : A) (l : list A) : list A :=
  take i l ++ x :: drop i l.

(** [for k in range(n)] with a local variable carried along. *)
Fixpoint for_range_acc {St A} (k n : nat) (acc : A)
    (body : nat -> A -> M St A) : M St A :=
  match n with
  | O => ret acc
  | S n' =>
      let* acc' := body k acc in
      for_range_acc (S k) n' acc' body
  end.

(** ** The parenthetical rewriting of [make_html_from_topics] *)

Definition DOUBLE_OPEN_PARENTHESES : str :=
  lit "!!!START_CANNOT_OCCUR_I_HOPE!!!".
Definition DOUBLE_CLOSE_PARENTHESES : str :=
  lit "!!!END_CANNOT_OCCUR_I_HOPE!!!".

(** The seven [html = html.replace(...)] statements, in order. *)
Definition parenthetical_rewriting (html : str) : str :=
  let html := Py.replace (lit "((") DOUBLE_OPEN_PARENTHESES html in
  let html := Py.replace (lit "))") DOUBLE_CLOSE_PARENTHESES html in
  let html := Py.replace (lit "(") (lit "<span class=parenthetical>(") html in
  let html := Py.replace (lit ")") (lit ")</span>") html in
  let html := Py.replace (lit "</span>.") (lit ".</span>") html in
  let html := Py.replace DOUBLE_OPEN_PARENTHESES (lit "(") html in
  let html := Py.replace DOUBLE_CLOSE_PARENTHESES (lit ")") html in
  html.

(** ** [ScheduleMaker] *)

Module ScheduleMaker.

(** The attributes of the maker; [sessions] and [html] do not exist
    until a method sets them. *)
Record t := mk {
  term_info : TermInfo.t;
  raw_data : option str;
  topics_by_session : option (list str);
  sessions : option (list Session.t);
  html : option str
}.

(** The maker and the files it reads and writes, by path. *)
Record World := mkWorld {
  self : t;
  files : gmap str str
}.

Definition init (term_info : TermInfo.t) : t :=
  mk term_info None None None None.

Definition set_raw_data (v : option str) (w : World) : World :=
  let s := self w in
  mkWorld (mk (term_info s) v (topics_by_session s) (sessions s) (html s))
          (files w).

Definition set_topics_by_session (v : option (list str)) (w : World)
    : World :=
  let s := self w in
  mkWorld (mk (term_info s) (raw_data s) v (sessions s) (html s)) (files w).

Definition set_sessions (v : option (list Session.t)) (w : World) : World :=
  let s := self w in
  mkWorld (mk (term_info s) (raw_data s) (topics_by_session s) v (html s))
          (files w).

Definition set_html (v : option str) (w : World) : World :=
  let s := self w in
  mkWorld (mk (term_info s) (raw_data s) (topics_by_session s) (sessions s) v)
          (files w).

Definition write_file (path content : str) (w : World) : World :=
  mkWorld (self w) (<[path := content]> (files w)).

(** A method call on the session object at index [k] of [self.sessions]:
    the object is changed in place, also when the call raises. *)
Definition on_session {A} (k : nat) (m : M Session.t A) : M World A :=
  let* w := get in
  let* ss := attr (sessions (self w)) in
  let* session := item (ss !! k) in
  let r := m session in
  modify (set_sessions (Some (<[k := r.2]> ss))) >>
  lift_res r.1.

Definition get_raw_data : M World unit :=
  let* w := get in
  let filename :=
    TermInfo.learning_objectives_filename (term_info (self w)) in
  match files w !! filename with
  | Some content => modify (set_raw_data (Some content))
  | None => raise FileNotFoundError
  end.

(** The body of the loop [for k in range(len(self.topics_by_session))]. *)
Definition split_into_sessions_body (k : nat) : M World unit :=
  let* w := get in
  let* topics_by_session := attr (topics_by_session (self w)) in
  let* chunk := item (topics_by_session !! k) in
  let lines := Py.split NEWLINE chunk in
  let* title := item (lines !! O) in
  let topics := Py.join [NEWLINE] (drop 1 lines) in
  modify (set_topics_by_session (Some (<[k := topics]> topics_by_session))) >>
  let session := ClassSession.init title topics in
  let* w := get in
  let* sessions := attr (sessions (self w)) in
  modify (set_sessions (Some (sessions ++ [session]))).

Definition split_into_sessions : M World unit :=
  let* w := get in
  let* raw_data := attr (raw_data (self w)) in
  let data := strip_comments raw_data in
  modify (set_topics_by_session (Some (re_split_SESSION_INDICATOR data))) >>
  let* w := get in
  let* pieces := attr (topics_by_session (self w)) in
  modify (set_topics_by_session (Some (drop 1 pieces))) >>
  let* w := get in
  let* topics_by_session := attr (topics_by_session (self w)) in
  (if bool_decide (Z.of_nat (length topics_by_session)
                   = TermInfo.number_of_sessions (term_info (self w)))
   then ret tt
   else raise (AssertionError
                 (lit "Number of topics != number of sessions"))) >>
  modify (set_sessions (Some [])) >>
  for_range (length topics_by_session) split_into_sessions_body.

(** One pass of the [while True] loop for a [date] not after the end of
    the term, up to the step to the next day: the new [session_number]
    and [session_index]. *)
Definition walk_date (date session_number : Z) (session_index : nat)
    : M World (Z * nat) :=
  let* w := get in
  let term_info := term_info (self w) in
  if bool_decide (datetime.isoweekday date ∈ TermInfo.days_of_week term_info)
  then
    let* session_number :=
      if date_in date (TermInfo.dates_to_skip term_info) then
        let* index :=
          or_ValueError (date_index (TermInfo.dates_to_skip term_info) date) in
        let* schedule_date :=
          item (TermInfo.dates_to_skip term_info !! index) in
        let session := NoClassSession.init schedule_date in
        let* sessions := attr (sessions (self w)) in
        modify (set_sessions
                  (Some (list_insert_at session_index session sessions))) >>
        ret session_number
      else
        on_session session_index
          (modify (Session.set_datetime_date (Some date))) >>
        on_session session_index
          (modify (Session.set_session_number (Some session_number))) >>
        let session_number := session_number + 1 in
        (if date_in date (TermInfo.evening_exams term_info) then
           let evening_exams := TermInfo.evening_exams term_info in
           on_session session_index
             (modify (Session.set_session_type (Some EVENING_EXAM))) >>
           let* index := or_ValueError (date_index evening_exams date) in
           let* exam := item (evening_exams !! index) in
           on_session session_index
             (modify (Session.set_message (ScheduleDate.message exam)))
         else ret tt) >>
        ret session_number
    in
    ret (session_number, S session_index)
  else ret (session_number, session_index).

(** The [while True] loop; [fuel] bounds the number of passes. *)
Fixpoint walk (fuel : nat) (date session_number : Z) (session_index : nat)
    : M World unit :=
  match fuel with
  | O => lift_res Unfinished
  | S fuel' =>
      let* w := get in
      if date >? TermInfo.end_date (term_info (self w)) then ret tt
      else
        let* next := walk_date date session_number session_index in
        let* date := match datetime.add_one_day date with
                     | Some d => ret d
                     | None => raise OverflowError
                     end in
        walk fuel' date next.1 next.2
  end.

Definition add_dates_numbers_and_NoClassSessions : M World unit :=
  let* w := get in
  let term_info := term_info (self w) in
  let date := TermInfo.start_date term_info in
  let session_number := TermInfo.start_session_number term_info in
  let session_index := O in
  walk (Z.to_nat (TermInfo.end_date term_info - date) + 2)
       date session_number session_index.

(** The body of the loop [for k in range(len(self.sessions))]: the new
    value of [sessions_html]. *)
Definition make_html_table_body (days_in_week : Z) (k : nat)
    (sessions_html : str) : M World str :=
  let* sessions_html :=
    if bool_decide (days_in_week = 0) then raise ZeroDivisionError
    else if bool_decide (Z.of_nat k mod days_in_week = 0)
    then ret (sessions_html ++ ScheduleTable.ROW_START)
    else ret sessions_html in
  let* w := get in
  let* sessions := attr (sessions (self w)) in
  let* session := item (sessions !! k) in
  let* session_html := attr (Session.html session) in
  let sessions_html :=
    sessions_html
    ++ (ScheduleTable.ITEM_START ++ session_html ++ ScheduleTable.ITEM_END) in
  if bool_decide (Z.of_nat k mod days_in_week = days_in_week - 1)
  then ret (sessions_html ++ ScheduleTable.ROW_END)
  else ret sessions_html.

Definition make_html_table : M World unit :=
  let* w := get in
  let days_in_week :=
    Z.of_nat (length (TermInfo.days_of_week (term_info (self w)))) in
  let* sessions := attr (sessions (self w)) in
  let* sessions_html :=
    for_range_acc O (length sessions) []
      (make_html_table_body days_in_week) in
  let* header :=
    ScheduleHeader.init (TermInfo.weekdays_of_week (term_info (self w))) in
  modify (set_html (Some (header ++ sessions_html ++ ScheduleTrailer.init))).

Definition write_html (html : str) : M World unit :=
  let* w := get in
  modify (write_file
            (TermInfo.schedule_table_filename (term_info (self w))) html).

Definition make_schedule `{Libraries} : M World unit :=
  get_raw_data >>
  split_into_sessions >>
  add_dates_numbers_and_NoClassSessions >>
  (let* w := get in
   let* sessions := attr (sessions (self w)) in
   for_range (length sessions) (fun k => on_session k Session_make_html)) >>
  make_html_table >>
  let* w := get in
  let* html := attr (html (self w)) in
  write_html html.

Definition make_html_from_topics `{Libraries} {St}
    (topics_for_session : str) : M St str :=
  let topics_for_session :=
    Py.replace [NEWLINE] (NEWLINE :: lit "    ") topics_for_session in
  let topics_for_session := lit "+ " ++ topics_for_session in
  let html := markdown_markdown topics_for_session in
  let ul_class := lit "topics collapsibleList" in
  let li_class := lit "topic" in
  let classes :=
    if re_match_anywhere match_Test html
    then (ul_class ++ lit " exam", li_class ++ lit " exam")
    else if re_match_anywhere match_Sprint html
    then (ul_class ++ lit " sprint", li_class ++ lit " sprint")
    else (ul_class, li_class) in
  let html :=
    Py.replace_first (lit "<ul>")
      (lit "<ul class=" ++ [QUOTE] ++ classes.1 ++ [QUOTE] ++ lit ">") html in
  let html :=
    Py.replace (lit "<li>")
      (lit "<li class=" ++ [QUOTE] ++ classes.2 ++ [QUOTE] ++ lit ">") html in
  let* for_tests :=
    lift_res (Template.substitute ExamTopic.EVENING_EXAM_TEMPLATE []) in
  let html := re_sub_Test for_tests O html in
  let html := parenthetical_rewriting html in
  let pretty_html := bs4_prettify html in
  let lines := Py.split NEWLINE pretty_html in
  let lines := map double_leading_spaces lines in
  let final_html := Py.join [NEWLINE] lines in
  ret final_html.

End ScheduleMaker.

(** [main]: the maker of term 201930 makes its schedule; the result and
    the files it leaves. *)
Definition main `{Libraries} (files : gmap str str)
    : Res unit * gmap str str :=
  match TermInfo.init (lit "201930") tt with
  | (Return term_info, _) =>
      let r :=
        ScheduleMaker.make_schedule
          (ScheduleMaker.mkWorld (ScheduleMaker.init term_info) files) in
      (r.1, ScheduleMaker.files r.2)
  | (Raise e, _) => (Raise e, files)
  | (Unfinished, _) => (Unfinished, files)
  end.

(** ** Definitions used in the statements *)

(** The chunks of a raw text: the pieces of the split after the first. *)
Definition session_chunks (raw_data : str) : list str :=
  drop 1 (re_split_SESSION_INDICATOR (strip_comments raw_data)).

(** The title and the topics of a chunk, and its session. *)
Definition chunk_title (chunk : str) : str :=
  default [] (Py.split NEWLINE chunk !! O).

Definition chunk_topics (chunk : str) : str :=
  Py.join [NEWLINE] (drop 1 (Py.split NEWLINE chunk)).

Definition chunk_session (chunk : str) : Session.t :=
  ClassSession.init (chunk_title chunk) (chunk_topics chunk).

Definition MISMATCH : exn :=
  AssertionError (lit "Number of topics != number of sessions").

(** A maker that holds the raw text [raw_data] and expects
    [number_of_sessions] sessions. *)
Definition maker_with (raw_data : str) (number_of_sessions : Z)
    : ScheduleMaker.World :=
  ScheduleMaker.mkWorld
    (ScheduleMaker.mk
       (TermInfo.mk [] 1 1 [] [] [] [] 1 (lit "in") (lit "out")
                    number_of_sessions)
       (Some raw_data) None None None)
    ∅.

(** *** The calendar walk as a function on lists

    [add_dates_numbers_and_NoClassSessions] works on [self.sessions] by
    index; the functions below say what it leaves there, by recursion on
    the dates of the term and on the sessions still without a date. *)

(** The entry that [dates.index(date)] finds: the first one of that date. *)
Definition found_entry (dates : list ScheduleDate.t) (date : Z)
    : option ScheduleDate.t :=
  match date_index dates date with
  | Some index => dates !! index
  | None => None
  end.

Definition is_meeting (term_info : TermInfo.t) (date : Z) : bool :=
  bool_decide (datetime.isoweekday date ∈ TermInfo.days_of_week term_info).

Definition is_skipped (term_info : TermInfo.t) (date : Z) : bool :=
  date_in date (TermInfo.dates_to_skip term_info).

(** What the walk does to the session it dates. *)
Definition assign_session (term_info : TermInfo.t) (date number : Z)
    (s : Session.t) : Session.t :=
  let s :=
    Session.set_session_number (Some number)
      (Session.set_datetime_date (Some date) s) in
  if date_in date (TermInfo.evening_exams term_info) then
    match found_entry (TermInfo.evening_exams term_info) date with
    | Some exam =>
        Session.set_message (ScheduleDate.message exam)
          (Session.set_session_type (Some EVENING_EXAM) s)
    | None => Session.set_session_type (Some EVENING_EXAM) s
    end
  else s.

(** What one date does: nothing, or a session takes the current place
    (with the next number and the sessions still pending), or the place
    is past the end of the list. *)
Inductive placement :=
| NotMeeting
| Placed (s : Session.t) (next_number : Z) (pending : list Session.t)
| NoSession.

Definition place (term_info : TermInfo.t) (date number : Z)
    (pending : list Session.t) : placement :=
  if is_meeting term_info date then
    if is_skipped term_info date then
      match found_entry (TermInfo.dates_to_skip term_info) date with
      | Some schedule_date =>
          Placed (NoClassSession.init schedule_date) number pending
      | None => NoSession
      end
    else
      match pending with
      | s :: rest =>
          Placed (assign_session term_info date number s) (number + 1) rest
      | [] => NoSession
      end
  else NotMeeting.

(** The sessions from the current place on after the walk over [dates],
    and whether every date found its session. *)
Fixpoint calendar (term_info : TermInfo.t) (dates : list Z) (number : Z)
    (pending : list Session.t) : list Session.t * bool :=
  match dates with
  | [] => (pending, true)
  | date :: dates' =>
      match place term_info date number pending with
      | NotMeeting => calendar term_info dates' number pending
      | Placed s number' pending' =>
          let r := calendar term_info dates' number' pending' in
          (s :: r.1, r.2)
      | NoSession => (pending, false)
      end
  end.

(** [n] days from [date] on. *)
Fixpoint dates_from (date : Z) (n : nat) : list Z :=
  match n with
  | O => []
  | S n' => date :: dates_from (date + 1) n'
  end.

(** The days of the term, its meeting days, and those of them that are
    skipped or not. *)
Definition term_dates (term_info : TermInfo.t) : list Z :=
  dates_from (TermInfo.start_date term_info)
    (Z.to_nat (TermInfo.end_date term_info
               - TermInfo.start_date term_info + 1)).

Definition meeting_dates (term_info : TermInfo.t) : list Z :=
  filter (fun d => is_meeting term_info d = true) (term_dates term_info).

Definition skipped_meeting_dates (term_info : TermInfo.t) : list Z :=
  filter (fun d => is_skipped term_info d = true) (meeting_dates term_info).

Definition class_meeting_dates (term_info : TermInfo.t) : list Z :=
  filter (fun d => is_skipped term_info d = false) (meeting_dates term_info).

(** A session as [ClassSession(title, topics)] makes it: of class
    [ClassSession], without date and number. *)
Definition fresh (s : Session.t) : Prop :=
  Session.class s = IsClassSession
  /\ Session.datetime_date s = None
  /\ Session.session_number s = None.

(** A session of class [ClassSession] that has a date: one the walk has
    dated and numbered. *)
Definition assigned (s : Session.t) : Prop :=
  Session.class s = IsClassSession /\ is_Some (Session.datetime_date s).

Global Instance assigned_dec s : Decision (assigned s).
Proof. unfold assigned. apply _. Defined.

(** The term as shipped, and a maker of that term that holds thirty
    sessions fresh from the splitter. *)
Definition shipped_term_info : TermInfo.t :=
  match TermInfo.init (lit "201930") tt with
  | (Return term_info, _) => term_info
  | _ => TermInfo.mk [] 0 0 [] [] [] [] 0 [] [] 0
  end.

(** A week from Monday 2017-08-28 in which Thursday 2017-08-31 is both a
    date to skip and an evening exam, with two fresh sessions. *)
Definition clash_maker : ScheduleMaker.World :=
  ScheduleMaker.mkWorld
    (ScheduleMaker.mk
       (TermInfo.mk (lit "clash") 736569 736575 [1; 3; 4]
          [lit "Monday"; lit "Wednesday"; lit "Thursday"]
          [ScheduleDate.mk 736572 (Some (lit "No class"))]
          [ScheduleDate.mk 736572 (Some (lit "Exam tonight"))]
          1 (lit "in") (lit "out") 2)
       None None
       (Some [ClassSession.init (lit "One") []; ClassSession.init (lit "Two") []])
       None)
    ∅.

Definition shipped_maker : ScheduleMaker.World :=
  ScheduleMaker.mkWorld
    (ScheduleMaker.mk shipped_term_info None None
       (Some (replicate 30 (ClassSession.init (lit "Title") (lit "- topic"))))
       None)
    ∅.

(** The outcome of the walk: the step past [date.max] raises
    [OverflowError] after the last day of a term that ends there. *)
Definition walk_outcome (term_info : TermInfo.t) (all_placed : bool)
    : Res unit :=
  if all_placed then
    if (TermInfo.start_date term_info <=? TermInfo.end_date term_info)
       && (TermInfo.end_date term_info =? datetime.MAXORDINAL)
    then Raise OverflowError
    else Return tt
  else Raise IndexError.

(** *** The table and the session block, piece by piece *)

(** The fixed text of the header before and after its one placeholder,
    and the column heading of one weekday. *)
Definition HEADER_before : str := take 1252 ScheduleHeader.HEADER_TEMPLATE.
Definition HEADER_after : str := drop 1272 ScheduleHeader.HEADER_TEMPLATE.

Definition day_heading (weekday : str) : str :=
  lit "
      <th class=schedule_caption> " ++ weekday ++ lit " </th>".

(** What the table loop adds for the session at index [k]: a row start
    when [k mod days_in_week] is 0, the item, a row end when
    [k mod days_in_week] is [days_in_week - 1]. *)
Definition table_cell (days_in_week : Z) (k : nat) (session_html : str)
    : str :=
  (if decide (Z.of_nat k mod days_in_week = 0)
   then ScheduleTable.ROW_START else [])
  ++ ScheduleTable.ITEM_START ++ session_html ++ ScheduleTable.ITEM_END
  ++ (if decide (Z.of_nat k mod days_in_week = days_in_week - 1)
      then ScheduleTable.ROW_END else []).

(** [SESSION_TEMPLATE] with its four placeholders filled. *)
Definition session_block (link number date title : str) : str :=
  tpl "
        <div class=session_identifier>
          <span class=`session_preparation`>"
  ++ link ++ tpl "</span>
          <span class=`for_session`>for session</span>
          <span class=`session_number`>"
  ++ number ++ tpl "</span>
          <span class=`session_date`>("
  ++ date ++ tpl ")</span>
        </div>
        <div class=`session_title`> "
  ++ title ++ lit " </div>
        ".

(** A maker of a three-day week whose four sessions are rendered. *)
Definition rendered_maker : ScheduleMaker.World :=
  ScheduleMaker.mkWorld
    (ScheduleMaker.mk
       (TermInfo.mk (lit "week") 736569 736575 [1; 3; 4]
          [lit "Monday"; lit "Wednesday"; lit "Thursday"] [] []
          1 (lit "in") (lit "out") 4)
       None None
       (Some (map (fun h => Session.set_html (Some (lit h))
                              (ClassSession.init [] []))
                ["a"; "b"; "c"; "d"]%string))
       None)
    ∅.

(** The last statement of [ClassSession.make_html] when [SHOW_TOPICS]
    holds, for the session [self] the method was called on. *)
Definition topics_step (self : Session.t) : M Session.t unit :=
  let* topics := attr (Session.topics self) in
  if bool_decide (Py.strip topics <> []) then
    ClassSession.make_topics_html >>
    let* self := get in
    let* topics_html := attr (Session.topics_html self) in
    let* html := attr (Session.html self) in
    let* block := lift_res (Template.substitute
                              ClassSession.SESSION_TOPICS_TEMPLATE
                              [(lit "SessionTopics", topics_html)]) in
    modify (Session.set_html (Some (html ++ block)))
  else ret tt.

(** Stand-ins for the two libraries, to run examples: the Markdown
    converter wraps its text in a paragraph, the prettifier changes
    nothing. *)
Definition example_libraries : Libraries :=
  {| markdown_markdown := fun s => lit "<p>" ++ s ++ lit "</p>";
     bs4_prettify := fun s => s |}.

(** Session 7 of Monday 2017-08-28, with topics. *)
Definition example_session : Session.t :=
  Session.set_session_number (Some 7)
    (Session.set_datetime_date (Some 736569)
       (ClassSession.init (lit "Loops / Ranges") (lit "- counting"))).

(** *** Texts with parenthetical groups *)

(** The words of the two placeholders. *)
Definition START_WORD : str := lit "START_CANNOT_OCCUR_I_HOPE".
Definition END_WORD : str := lit "END_CANNOT_OCCUR_I_HOPE".

(** A text without parentheses that holds neither [</span>.] nor the
    word of a placeholder: the rewriting leaves it as it is. *)
Definition plain (s : str) : Prop :=
  ("("%char ∉ s) /\ (")"%char ∉ s)
  /\ Py.contains (lit "</span>.") s = false
  /\ Py.contains START_WORD s = false
  /\ Py.contains END_WORD s = false.

(** A group is a plain text in single or in double parentheses. *)
Inductive group : Type :=
| Paren (text : str)
| DParen (text : str).

Definition group_text (g : group) : str :=
  match g with
  | Paren s => s
  | DParen s => s
  end.

(** A group with the given brackets, followed by the text [t]. *)
Definition written (op cl dop dcl : str) (g : group) (t : str) : str :=
  match g with
  | Paren s => op ++ s ++ cl ++ t
  | DParen s => dop ++ s ++ dcl ++ t
  end.

(** The end of a styled group in front of the text [t]: a period that
    follows the group at once is inside the span. *)
Definition period_in (t : str) : str :=
  match t with
  | "."%char :: t' => lit ".</span>" ++ t'
  | _ => lit "</span>" ++ t
  end.

(** A group as the rewriting leaves it, with the given brackets for a
    double group, followed by the text [t]. *)
Definition styled (dop dcl : str) (g : group) (t : str) : str :=
  match g with
  | Paren s => lit "<span class=parenthetical>(" ++ s ++ lit ")" ++ period_in t
  | DParen s => dop ++ s ++ dcl ++ t
  end.

Fixpoint pieces (h : group -> str -> str) (gs : list (group * str)) : str :=
  match gs with
  | [] => []
  | (g, t) :: r => h g t ++ pieces h r
  end.

(** The text [t0 g1 t1 ... gn tn] as it is written, and as the rewriting
    is to leave it. *)
Definition html_in (t0 : str) (gs : list (group * str)) : str :=
  t0 ++ pieces (written (lit "(") (lit ")") (lit "((") (lit "))")) gs.

Definition html_out (t0 : str) (gs : list (group * str)) : str :=
  t0 ++ pieces (styled (lit "(") (lit ")")) gs.

(** The texts of a group and after it are plain. *)
Definition plain_piece (gt : group * str) : Prop :=
  plain (group_text (fst gt)) /\ plain (snd gt).

(** No match of [old] runs from a text without the word [W] into a text
    that starts with [yn]: at every cut of [old] from the place [from]
    on, the part before the cut holds [W] or the part after it does not
    start as [yn] does; [n] is the number of characters compared. *)
Definition overlap_free (n from : nat) (old W yn : str) : bool :=
  forallb
    (fun k =>
       Py.contains W (take k old)
       || negb (Py.startswith (take n (drop k old)) yn))
    (seq from (S (length old) - from)).

(** *** Further definitions used in the statements *)

(** A session of class [ClassSession]. *)
Definition is_class_session (s : Session.t) : Prop :=
  Session.class s = IsClassSession.

Global Instance is_class_session_dec s : Decision (is_class_session s).
Proof. unfold is_class_session. apply _. Defined.

(** [NO_CLASS_TEMPLATE] with its two placeholders filled. *)
Definition no_class_block (title date : str) : str :=
  tpl "
        <div class=`no_class_title`>"
  ++ title ++ tpl "</div>
        <div class=`session_date`>"
  ++ date ++ lit "</div>".

(** The date of a session as the page shows it: the month by name and
    the day of the month. *)
Definition date_text (date : Z) : str :=
  datetime.strftime_B date ++ lit " " ++ str_of_int (datetime.day date).

(** The HTML that [make_html] leaves in a session that has what the
    method reads: the no-class block, or the session block followed by
    the message of an evening exam. *)
Definition session_html `{Libraries} (s : Session.t) : str :=
  let date := date_text (default 0 (Session.datetime_date s)) in
  match Session.class s with
  | IsNoClassSession =>
      no_class_block (str_of_optional (Session.title s)) date
  | IsClassSession =>
      let number := default 0 (Session.session_number s) in
      session_block
        (ClassSession.LINK_TO_PREP_before ++ format_02 number
         ++ ClassSession.LINK_TO_PREP_after)
        (str_of_int number) date
        (markdown_markdown
           (Py.replace (lit "/") (lit "<br>" ++ [NEWLINE])
              (default [] (Session.title s))))
      ++ (if decide (Session.session_type s = Some EVENING_EXAM)
          then default [] (Session.message s) else [])
  end.

(** The page of a list of sessions: the header with the weekday names,
    the cells of the sessions in rows of one cell per meeting weekday,
    the trailer. *)
Definition schedule_page `{Libraries} (term_info : TermInfo.t)
    (sessions : list Session.t) : str :=
  (HEADER_before
   ++ concat (day_heading <$> TermInfo.weekdays_of_week term_info)
   ++ HEADER_after)
  ++ concat
       (imap (fun k s =>
                table_cell
                  (Z.of_nat (length (TermInfo.days_of_week term_info)))
                  k (session_html s))
          sessions)
  ++ ScheduleTrailer.init.

(** The sessions of a raw text after the walk over the days of the
    term. *)
Definition scheduled_sessions (term_info : TermInfo.t) (raw_data : str)
    : list Session.t :=
  (calendar term_info (term_dates term_info)
     (TermInfo.start_session_number term_info)
     (chunk_session <$> session_chunks raw_data)).1.

(** The loop [for session in self.sessions: session.make_html()] on a
    list: the outcome, and the list with the sessions done so far. *)
Fixpoint render_all `{Libraries} (sessions : list Session.t)
    : Res unit * list Session.t :=
  match sessions with
  | [] => (Return tt, [])
  | s :: rest =>
      match Session_make_html s with
      | (Return _, s') =>
          let q := render_all rest in (q.1, s' :: q.2)
      | (Raise e, s') => (Raise e, s' :: rest)
      | (Unfinished, s') => (Unfinished, s' :: rest)
      end
  end.

(** A session that has what [make_html] reads. *)
Definition renderable (s : Session.t) : Prop :=
  is_Some (Session.datetime_date s)
  /\ (Session.class s = IsClassSession ->
      is_Some (Session.session_number s)
      /\ is_Some (Session.title s)
      /\ (Session.session_type s = Some EVENING_EXAM ->
          is_Some (Session.message s))).

(** A week from Monday 2017-08-28 with a skipped Thursday and an exam on
    Wednesday evening, and a file with two sessions. *)
Definition week_text : str :=
  Py.join [NEWLINE]
    [lit "Learning objectives"; lit "Session 1: Loops"; lit "- for";
     lit "!!! to do"; lit "Session 2: Lists / Tuples"].

Definition week_maker : ScheduleMaker.World :=
  ScheduleMaker.mkWorld
    (ScheduleMaker.init
       (TermInfo.mk (lit "week") 736569 736575 [1; 3; 4]
          [lit "Monday"; lit "Wednesday"; lit "Thursday"]
          [ScheduleDate.mk 736572 (Some (lit "No class"))]
          [ScheduleDate.mk 736571 (Some (lit "Exam tonight"))]
          1 (lit "in") (lit "out") 2))
    {[ lit "in" := week_text ]}.

(** The same week and file, with the Monday skipped too: one class day
    for two sessions. *)
Definition crowded_week_maker : ScheduleMaker.World :=
  ScheduleMaker.mkWorld
    (ScheduleMaker.init
       (TermInfo.mk (lit "week") 736569 736575 [1; 3; 4]
          [lit "Monday"; lit "Wednesday"; lit "Thursday"]
          [ScheduleDate.mk 736569 None;
           ScheduleDate.mk 736572 (Some (lit "No class"))]
          []
          1 (lit "in") (lit "out") 2))
    {[ lit "in" := week_text ]}.

(** *** A file of learning objectives, by its lines *)

(** The text of a marker line up to the end of its marker: anything,
    the word [Session], spaces, digits, a colon. *)
Definition marker_head (h : str) : Prop :=
  exists before spaces digits,
    h = before ++ lit "Session" ++ spaces ++ digits ++ [COLON]
    /\ Forall (fun c => c = SPACE) spaces
    /\ Forall (fun c => Template.is_digit c = true) digits.

(** A line that is neither a comment nor a marker line. *)
Definition text_line (l : str) : Prop :=
  (NEWLINE ∉ l)
  /\ Py.contains COMMENT_INDICATOR l = false
  /\ match_SESSION_INDICATOR l = None.

(** A session as the file has it: the head of its marker line, the
    title on the rest of that line, and the lines of its topics. *)
Record block := mkBlock {
  block_head : str;
  block_title : str;
  block_topics : list str
}.

Definition block_lines (b : block) : list str :=
  (block_head b ++ block_title b) :: block_topics b.

Definition well_formed (b : block) : Prop :=
  marker_head (block_head b)
  /\ (NEWLINE ∉ block_head b)
  /\ Py.contains COMMENT_INDICATOR (block_head b ++ block_title b) = false
  /\ text_line (block_title b)
  /\ Forall text_line (block_topics b).

(** The chunk of a session: its title and topics, line by line, and the
    newline in front of the next marker line when there is one. *)
Fixpoint chunks_of (blocks : list block) : list str :=
  match blocks with
  | [] => []
  | b :: rest =>
      (Py.join [NEWLINE] (block_title b :: block_topics b)
       ++ match rest with [] => [] | _ :: _ => [NEWLINE] end)
      :: chunks_of rest
  end.

(** * Properties *)

(** ** Text primitives *)

Lemma split_nonempty sep s : Py.split sep s <> [].
Proof.
  destruct s as [|c s]; simpl; [discriminate|].
  destruct (decide (c = sep)); [discriminate|].
  destruct (Py.split sep s); discriminate.
Qed.

Lemma split_no_sep sep s : Forall (fun l => sep ∉ l) (Py.split sep s).
Proof.
  induction s as [|c s IH]; simpl.
  - repeat constructor. apply not_elem_of_nil.
  - destruct (decide (c = sep)) as [->|Hne].
    + constructor; [apply not_elem_of_nil | exact IH].
    + destruct (Py.split sep s) as [|l ls].
      * repeat constructor. intros Hin.
        apply list_elem_of_singleton in Hin. congruence.
      * inversion IH; subst. constructor; [|assumption].
        intros Hin. apply elem_of_cons in Hin as [?|?]; [congruence|tauto].
Qed.

Lemma split_app_no_sep sep l s :
  sep ∉ l ->
  Py.split sep (l ++ sep :: s) = l :: Py.split sep s.
Proof.
  induction l as [|c l IH]; intros Hl; simpl.
  - destruct (decide (sep = sep)); [reflexivity|congruence].
  - destruct (decide (c = sep)) as [->|Hne].
    + exfalso. apply Hl. left.
    + rewrite IH; [reflexivity|].
      intros Hin. apply Hl. right. exact Hin.
Qed.

Lemma split_no_sep_single sep l : sep ∉ l -> Py.split sep l = [l].
Proof.
  induction l as [|c l IH]; intros Hl; simpl; [reflexivity|].
  destruct (decide (c = sep)) as [->|Hne].
  - exfalso. apply Hl. left.
  - rewrite IH; [reflexivity|]. intros Hin. apply Hl. right. exact Hin.
Qed.

(** Splitting what was joined gives the pieces back, when there is at
    least one piece and no piece holds the separator. *)
Lemma split_join sep ls :
  ls <> [] ->
  Forall (fun l => sep ∉ l) ls ->
  Py.split sep (Py.join [sep] ls) = ls.
Proof.
  induction ls as [|l ls IH]; intros Hne Hall; [congruence|].
  inversion Hall as [|? ? Hl Hls]; subst.
  destruct ls as [|l' ls].
  - simpl. apply split_no_sep_single. exact Hl.
  - change (Py.join [sep] (l :: l' :: ls))
      with (l ++ sep :: Py.join [sep] (l' :: ls)).
    rewrite split_app_no_sep by exact Hl.
    rewrite IH; [reflexivity|discriminate|exact Hls].
Qed.

Lemma startswith_spec p s :
  Py.startswith p s = true <-> exists v, s = p ++ v.
Proof.
  revert s. induction p as [|a p IH]; intros s; simpl.
  - split; [intros _; exists s; reflexivity|reflexivity].
  - destruct s as [|b s].
    + split; [discriminate|]. intros [v Hv]. discriminate.
    + destruct (decide (a = b)) as [->|Hne].
      * rewrite IH. split; intros [v Hv]; exists v; congruence.
      * split; [discriminate|]. intros [v Hv]. congruence.
Qed.

Lemma contains_spec p s :
  Py.contains p s = true <-> exists u v, s = u ++ p ++ v.
Proof.
  induction s as [|c s IH]; simpl.
  - rewrite orb_false_r, startswith_spec. split.
    + intros [v Hv]. exists [], v. exact Hv.
    + intros [u [v Hv]]. destruct u; simpl in Hv.
      * exists v. exact Hv.
      * discriminate.
  - rewrite orb_true_iff, IH, startswith_spec. split.
    + intros [[v Hv]|[u [v Hv]]].
      * exists [], v. exact Hv.
      * exists (c :: u), v. simpl. congruence.
    + intros [u [v Hv]]. destruct u as [|c' u]; simpl in Hv.
      * left. exists v. exact Hv.
      * right. exists u, v. congruence.
Qed.

(** A text that holds [a ++ q ++ b] holds [q]. *)
Lemma contains_inner a q b s :
  Py.contains (a ++ q ++ b) s = true -> Py.contains q s = true.
Proof.
  rewrite !contains_spec. intros [u [v ->]].
  exists (u ++ a), (b ++ v). rewrite <- !app_assoc. reflexivity.
Qed.

(** ** Comment Stripper *)

Lemma strip_comments_loop_acc inside keep lines :
  strip_comments_loop inside keep lines
  = keep ++ strip_comments_loop inside [] lines.
Proof.
  revert inside keep. induction lines as [|line rest IH]; intros inside keep.
  - simpl. rewrite app_nil_r. reflexivity.
  - simpl. destruct inside.
    + destruct (re_match_COMMEND_END line); apply IH.
    + destruct (Py.contains COMMENT_BEGIN_INDICATOR line); [apply IH|].
      destruct (Py.contains COMMENT_INDICATOR line); simpl; [apply IH|].
      rewrite (IH false (keep ++ [line])), (IH false [line]).
      rewrite <- app_assoc. reflexivity.
Qed.

(** Every line kept was a line of the input and holds no [!!!]. *)
Lemma strip_comments_loop_kept inside lines :
  Forall (fun l => l ∈ lines /\ Py.contains COMMENT_INDICATOR l = false)
         (strip_comments_loop inside [] lines).
Proof.
  revert inside. induction lines as [|line rest IH]; intros inside.
  - constructor.
  - assert (Hweak : forall b,
      Forall (fun l => l ∈ line :: rest
                       /\ Py.contains COMMENT_INDICATOR l = false)
             (strip_comments_loop b [] rest)).
    { intros b. eapply Forall_impl; [apply IH|].
      intros l [Hin Hc]. split; [right; exact Hin|exact Hc]. }
    simpl. destruct inside.
    + destruct (re_match_COMMEND_END line); apply Hweak.
    + destruct (Py.contains COMMENT_BEGIN_INDICATOR line); [apply Hweak|].
      destruct (Py.contains COMMENT_INDICATOR line) eqn:Hc; simpl;
        [apply Hweak|].
      rewrite strip_comments_loop_acc. simpl.
      constructor; [split; [left|exact Hc]|apply Hweak].
Qed.

(** The begin indicator, caret included, holds [!!!]: a line without
    [!!!] cannot hold it. *)
Lemma no_indicator_no_begin line :
  Py.contains COMMENT_INDICATOR line = false ->
  Py.contains COMMENT_BEGIN_INDICATOR line = false.
Proof.
  intros Hno. destruct (Py.contains COMMENT_BEGIN_INDICATOR line) eqn:Hb;
    [|reflexivity].
  change COMMENT_BEGIN_INDICATOR
    with (lit "^" ++ COMMENT_INDICATOR ++ lit " BEGIN COMMENT") in Hb.
  apply contains_inner in Hb. congruence.
Qed.

(** Lines without [!!!] all pass when the loop starts outside a block. *)
Lemma strip_comments_loop_clean lines :
  Forall (fun l => Py.contains COMMENT_INDICATOR l = false) lines ->
  strip_comments_loop false [] lines = lines.
Proof.
  induction 1 as [|line rest Hline Hrest IH]; [reflexivity|].
  simpl. rewrite (no_indicator_no_begin _ Hline), Hline. simpl.
  rewrite strip_comments_loop_acc, IH. reflexivity.
Qed.

(** C1, at the input that shows the defect: a line [!!! BEGIN COMMENT]
    opens no block.  The test [COMMENT_BEGIN_INDICATOR in line] looks for
    the indicator with its caret as plain text, so the marker line is
    dropped as a line with [!!!] and the line [foo] between it and the
    end marker is kept, where the claim has it dropped. *)
Lemma strip_comments_block_not_dropped :
  strip_comments
    (Py.join [NEWLINE]
       [lit "!!! BEGIN COMMENT"; lit "foo"; lit "!!! END COMMENT"])
  = lit "foo".
Proof. vm_compute. reflexivity. Qed.

(** C8: [strip_comments] is idempotent: stripping its own output gives
    that output back. *)
Theorem strip_comments_idempotent (raw_data : str) :
  strip_comments (strip_comments raw_data) = strip_comments raw_data.
Proof.
  unfold strip_comments.
  set (kept := strip_comments_loop false [] (Py.split NEWLINE raw_data)).
  assert (Hkept : Forall (fun l => (NEWLINE ∉ l)
                    /\ Py.contains COMMENT_INDICATOR l = false) kept).
  { eapply Forall_impl; [apply strip_comments_loop_kept|].
    intros l [Hin Hc]. split; [|exact Hc].
    pose proof (split_no_sep NEWLINE raw_data) as Hs.
    rewrite Forall_forall in Hs. apply Hs. exact Hin. }
  destruct kept as [|l ls] eqn:Ek.
  - vm_compute. reflexivity.
  - rewrite split_join.
    + rewrite strip_comments_loop_clean; [reflexivity|].
      eapply Forall_impl; [exact Hkept|]. intros ? [_ ?]. assumption.
    + discriminate.
    + eapply Forall_impl; [exact Hkept|]. intros ? [? _]. assumption.
Qed.

(** ** Running computations *)

Lemma bind_return {St A B} (m : M St A) (k : A -> M St B) s a s' :
  m s = (Return a, s') -> bind m k s = k a s'.
Proof. intros E. unfold bind. rewrite E. reflexivity. Qed.

Lemma bind_raise {St A B} (m : M St A) (k : A -> M St B) s e s' :
  m s = (Raise e, s') -> bind m k s = (Raise e, s').
Proof. intros E. unfold bind. rewrite E. reflexivity. Qed.

(** ** Session Splitter *)

Ltac run_monad :=
  unfold bind, get, ret, raise, modify, attr, item, lift_res,
    or_ValueError, or_TypeError; simpl.

Lemma split_into_sessions_body_step k done chunk todo ss w :
  ScheduleMaker.topics_by_session (ScheduleMaker.self w)
    = Some (done ++ chunk :: todo) ->
  length done = k ->
  ScheduleMaker.sessions (ScheduleMaker.self w) = Some ss ->
  ScheduleMaker.split_into_sessions_body k w
  = (Return tt,
     ScheduleMaker.set_sessions (Some (ss ++ [chunk_session chunk]))
       (ScheduleMaker.set_topics_by_session
          (Some ((done ++ [chunk_topics chunk]) ++ todo)) w)).
Proof.
  intros Ht Hk Hs. unfold ScheduleMaker.split_into_sessions_body.
  run_monad. rewrite Ht. simpl.
  rewrite list_lookup_middle by (symmetry; exact Hk). simpl.
  unfold chunk_session, chunk_title, chunk_topics.
  pose proof (split_nonempty NEWLINE chunk) as Hne.
  destruct (Py.split NEWLINE chunk) as [|title lines]; [congruence|].
  simpl. rewrite Hs. simpl. subst k.
  rewrite <- (Nat.add_0_r (length done)), insert_app_r. simpl.
  rewrite <- app_assoc. reflexivity.
Qed.

Lemma split_into_sessions_loop todo : forall k done ss w,
  ScheduleMaker.topics_by_session (ScheduleMaker.self w)
    = Some (done ++ todo) ->
  length done = k ->
  ScheduleMaker.sessions (ScheduleMaker.self w) = Some ss ->
  for_range_from k (length todo) ScheduleMaker.split_into_sessions_body w
  = (Return tt,
     ScheduleMaker.set_sessions (Some (ss ++ map chunk_session todo))
       (ScheduleMaker.set_topics_by_session
          (Some (done ++ map chunk_topics todo)) w)).
Proof.
  induction todo as [|chunk todo IH]; intros k done ss w Ht Hk Hs.
  - simpl. unfold ret. rewrite !app_nil_r in *.
    destruct w as [[ti rd tbs sss h] fs]. simpl in *. subst. reflexivity.
  - simpl. unfold bind at 1.
    rewrite (split_into_sessions_body_step k done chunk todo ss w Ht Hk Hs).
    rewrite (IH (S k) (done ++ [chunk_topics chunk])
               (ss ++ [chunk_session chunk])).
    + simpl. rewrite <- !app_assoc. reflexivity.
    + reflexivity.
    + rewrite length_app. simpl. lia.
    + reflexivity.
Qed.

(** What [split_into_sessions] does on a maker that has read its file:
    with as many chunks as configured, the sessions of the chunks; with
    another number, the fixed [AssertionError] and no sessions. *)
Lemma split_into_sessions_run w raw_data :
  ScheduleMaker.raw_data (ScheduleMaker.self w) = Some raw_data ->
  ScheduleMaker.split_into_sessions w
  = if bool_decide
         (Z.of_nat (length (session_chunks raw_data))
          = TermInfo.number_of_sessions
              (ScheduleMaker.term_info (ScheduleMaker.self w)))
    then (Return tt,
          ScheduleMaker.set_sessions
            (Some (map chunk_session (session_chunks raw_data)))
            (ScheduleMaker.set_topics_by_session
               (Some (map chunk_topics (session_chunks raw_data))) w))
    else (Raise MISMATCH,
          ScheduleMaker.set_topics_by_session
            (Some (session_chunks raw_data)) w).
Proof.
  intros Hraw. unfold ScheduleMaker.split_into_sessions.
  run_monad. rewrite Hraw. simpl.
  fold (session_chunks raw_data).
  case_bool_decide as Hn; simpl; [|reflexivity].
  unfold for_range.
  erewrite (split_into_sessions_loop (session_chunks raw_data) O [] []);
    [reflexivity| reflexivity | reflexivity | reflexivity].
Qed.

Lemma make_schedule_mismatch `{Libraries} w raw_data :
  ScheduleMaker.files w
    !! TermInfo.learning_objectives_filename
         (ScheduleMaker.term_info (ScheduleMaker.self w))
  = Some raw_data ->
  Z.of_nat (length (session_chunks raw_data))
  <> TermInfo.number_of_sessions
       (ScheduleMaker.term_info (ScheduleMaker.self w)) ->
  (ScheduleMaker.make_schedule w).1 = Raise MISMATCH
  /\ ScheduleMaker.files (ScheduleMaker.make_schedule w).2
     = ScheduleMaker.files w.
Proof.
  intros Hfile Hne.
  assert (Hget : ScheduleMaker.get_raw_data w
                 = (Return tt, ScheduleMaker.set_raw_data (Some raw_data) w)).
  { unfold ScheduleMaker.get_raw_data, bind, get. rewrite Hfile.
    reflexivity. }
  unfold ScheduleMaker.make_schedule.
  rewrite (bind_return _ _ _ _ _ Hget).
  rewrite (bind_raise _ _ _ MISMATCH
             (ScheduleMaker.set_topics_by_session
                (Some (session_chunks raw_data))
                (ScheduleMaker.set_raw_data (Some raw_data) w))).
  - split; reflexivity.
  - rewrite (split_into_sessions_run _ raw_data) by reflexivity.
    simpl. rewrite bool_decide_false by exact Hne. reflexivity.
Qed.

(** C2, as the code has it: once the raw text is read,
    [split_into_sessions] returns exactly when the number of chunks
    equals [number_of_sessions] and raises exactly when it differs; the
    exception is then the [AssertionError] with the fixed message, and
    [make_schedule] on a maker of that term whose file holds that text
    raises it and leaves every file as it was. *)
Theorem split_into_sessions_fails_iff_mismatch `{Libraries}
    (w : ScheduleMaker.World) (raw_data : str) :
  ScheduleMaker.raw_data (ScheduleMaker.self w) = Some raw_data ->
  let term_info := ScheduleMaker.term_info (ScheduleMaker.self w) in
  let found := Z.of_nat (length (session_chunks raw_data)) in
  let expected := TermInfo.number_of_sessions term_info in
  ((ScheduleMaker.split_into_sessions w).1 = Return tt <-> found = expected)
  /\ ((ScheduleMaker.split_into_sessions w).1 = Raise MISMATCH
      <-> found <> expected)
  /\ (found <> expected ->
      forall w0,
        ScheduleMaker.term_info (ScheduleMaker.self w0) = term_info ->
        ScheduleMaker.files w0
          !! TermInfo.learning_objectives_filename term_info
        = Some raw_data ->
        (ScheduleMaker.make_schedule w0).1 = Raise MISMATCH
        /\ ScheduleMaker.files (ScheduleMaker.make_schedule w0).2
           = ScheduleMaker.files w0).
Proof.
  intros Hraw term_info found expected.
  rewrite (split_into_sessions_run w raw_data Hraw).
  fold term_info. fold found. fold expected.
  case_bool_decide as Hn; simpl.
  - split; [tauto|]. split; [|tauto].
    split; [discriminate|tauto].
  - split; [split; [discriminate|tauto]|].
    split; [tauto|].
    intros _ w0 Hti Hfile. apply (make_schedule_mismatch w0 raw_data).
    + rewrite Hti. exact Hfile.
    + rewrite Hti. exact Hn.
Qed.

Lemma split_into_sessions_fails_iff_mismatch_witness :
  let w := maker_with [] 1 in
  ((ScheduleMaker.split_into_sessions w).1 = Return tt <-> 0 = 1)
  /\ ((ScheduleMaker.split_into_sessions w).1 = Raise MISMATCH <-> 0 <> 1).
Proof.
  pose (libs := {| markdown_markdown := fun s : str => s;
                   bs4_prettify := fun s : str => s |}).
  pose proof (@split_into_sessions_fails_iff_mismatch libs
                (maker_with [] 1) [] eq_refl) as [H1 [H2 _]].
  split; [exact H1|exact H2].
Defined.

(** C2, where the claim fails: the exception carries neither count.  Two
    makers with the same text, one expecting 1 session and one expecting
    2, raise the very same exception, so no reading of the exception
    gives the expected count back. *)
Lemma mismatch_error_carries_no_counts :
  (ScheduleMaker.split_into_sessions (maker_with [] 1)).1 = Raise MISMATCH
  /\ (ScheduleMaker.split_into_sessions (maker_with [] 2)).1 = Raise MISMATCH
  /\ ~ exists counts : exn -> nat * Z,
         forall w raw_data e,
           ScheduleMaker.raw_data (ScheduleMaker.self w) = Some raw_data ->
           (ScheduleMaker.split_into_sessions w).1 = Raise e ->
           counts e
           = (length (session_chunks raw_data),
              TermInfo.number_of_sessions
                (ScheduleMaker.term_info (ScheduleMaker.self w))).
Proof.
  assert (H1 : (ScheduleMaker.split_into_sessions (maker_with [] 1)).1
               = Raise MISMATCH) by (vm_compute; reflexivity).
  assert (H2 : (ScheduleMaker.split_into_sessions (maker_with [] 2)).1
               = Raise MISMATCH) by (vm_compute; reflexivity).
  split; [exact H1|]. split; [exact H2|].
  intros [counts Hc].
  pose proof (Hc (maker_with [] 1) [] MISMATCH eq_refl H1) as E1.
  pose proof (Hc (maker_with [] 2) [] MISMATCH eq_refl H2) as E2.
  rewrite E1 in E2. simpl in E2. congruence.
Qed.

(** ** Calendar Walker *)

Lemma set_sessions_same w ss :
  ScheduleMaker.sessions (ScheduleMaker.self w) = Some ss ->
  ScheduleMaker.set_sessions (Some ss) w = w.
Proof.
  destruct w as [[ti rd tbs sss h] fs]. simpl. intros ->. reflexivity.
Qed.

Lemma date_index_found dates date :
  date_in date dates = true ->
  exists index sd,
    date_index dates date = Some index
    /\ dates !! index = Some sd
    /\ ScheduleDate.datetime_date sd = date.
Proof.
  induction dates as [|sd dates IH]; simpl; [discriminate|].
  unfold ScheduleDate.eq at 1 2.
  case_bool_decide as Hd; simpl.
  - intros _. exists O, sd. auto.
  - intros Hin. destruct (IH Hin) as [i [sd' [Hi [Hl Hd']]]].
    exists (S i), sd'. rewrite Hi. auto.
Qed.

Lemma found_entry_found dates date :
  date_in date dates = true ->
  exists sd,
    found_entry dates date = Some sd
    /\ sd ∈ dates
    /\ ScheduleDate.datetime_date sd = date.
Proof.
  intros Hin. destruct (date_index_found dates date Hin)
    as [i [sd [Hi [Hl Hd]]]].
  exists sd. unfold found_entry. rewrite Hi.
  split; [exact Hl|]. split; [|exact Hd].
  apply list_elem_of_lookup. exists i. exact Hl.
Qed.

(** An attribute assignment on the session at index [k]. *)
Lemma on_session_modify f k done s rest w :
  ScheduleMaker.sessions (ScheduleMaker.self w) = Some (done ++ s :: rest) ->
  length done = k ->
  ScheduleMaker.on_session k (modify f) w
  = (Return tt,
     ScheduleMaker.set_sessions (Some (done ++ f s :: rest)) w).
Proof.
  intros Hs Hk. unfold ScheduleMaker.on_session. run_monad.
  rewrite Hs. simpl.
  rewrite list_lookup_middle by (symmetry; exact Hk). simpl.
  subst k. rewrite <- (Nat.add_0_r (length done)), insert_app_r.
  reflexivity.
Qed.

Lemma on_session_past_end {A} (m : M Session.t A) k done w :
  ScheduleMaker.sessions (ScheduleMaker.self w) = Some done ->
  length done = k ->
  ScheduleMaker.on_session k m w = (Raise IndexError, w).
Proof.
  intros Hs Hk. unfold ScheduleMaker.on_session. run_monad.
  rewrite Hs. simpl.
  rewrite lookup_ge_None_2 by lia. reflexivity.
Qed.

Lemma bind_assoc {St A B C} (m : M St A) (f : A -> M St B)
    (g : B -> M St C) s :
  bind (bind m f) g s = bind m (fun x => bind (f x) g) s.
Proof. unfold bind. destruct (m s) as [[a| |] s']; reflexivity. Qed.

Lemma bind_ret {St A B} (a : A) (k : A -> M St B) s :
  bind (ret a) k s = k a s.
Proof. reflexivity. Qed.

(** One step of a computation: the first call returns, by [tac]. *)
Ltac step tac := erewrite bind_return; [cbv beta | tac].

(** One date of the walk does what [place] says, at the current index. *)
Lemma walk_date_place date number index done pending w :
  ScheduleMaker.sessions (ScheduleMaker.self w) = Some (done ++ pending) ->
  length done = index ->
  ScheduleMaker.walk_date date number index w
  = match place (ScheduleMaker.term_info (ScheduleMaker.self w))
            date number pending with
    | NotMeeting => (Return (number, index), w)
    | Placed s number' pending' =>
        (Return (number', S index),
         ScheduleMaker.set_sessions (Some ((done ++ [s]) ++ pending')) w)
    | NoSession => (Raise IndexError, w)
    end.
Proof.
  intros Hs Hk. unfold ScheduleMaker.walk_date, place, is_meeting, is_skipped.
  rewrite bind_return with (a := w) (s' := w) by reflexivity.
  set (ti := ScheduleMaker.term_info (ScheduleMaker.self w)).
  case_bool_decide as Hmeet; [|reflexivity].
  destruct (date_in date (TermInfo.dates_to_skip ti)) eqn:Hskip.
  - destruct (date_index_found _ _ Hskip) as [i [sd [Hi [Hl _]]]].
    unfold found_entry. rewrite Hi, Hl.
    unfold or_ValueError, item. rewrite !bind_assoc, bind_ret.
    rewrite Hl, bind_assoc, bind_ret, Hs. unfold attr.
    rewrite bind_assoc, bind_ret.
    unfold list_insert_at.
    rewrite take_app_length' by (symmetry; exact Hk).
    rewrite drop_app_length' by (symmetry; exact Hk).
    rewrite <- app_assoc. reflexivity.
  - destruct pending as [|s rest].
    + rewrite app_nil_r in Hs. rewrite bind_assoc.
      erewrite bind_raise; [reflexivity|].
      apply on_session_past_end with (done := done); assumption.
    + assert (Hon : forall f s0 w0,
        ScheduleMaker.sessions (ScheduleMaker.self w0)
          = Some (done ++ s0 :: rest) ->
        ScheduleMaker.on_session index (modify f) w0
        = (Return tt,
           ScheduleMaker.set_sessions (Some (done ++ f s0 :: rest)) w0)).
      { intros f s0 w0 H0. apply on_session_modify; assumption. }
      rewrite bind_assoc. step ltac:(apply Hon; exact Hs).
      rewrite bind_assoc. step ltac:(apply Hon; reflexivity).
      rewrite bind_assoc. unfold assign_session. fold ti.
      destruct (date_in date (TermInfo.evening_exams ti)) eqn:Hexam.
      * destruct (date_index_found _ _ Hexam) as [i [ex [Hi [Hl _]]]].
        unfold found_entry. rewrite Hi, Hl.
        rewrite bind_assoc. step ltac:(apply Hon; reflexivity).
        unfold or_ValueError, item. rewrite !bind_assoc, bind_ret.
        rewrite Hl, bind_assoc, bind_ret.
        step ltac:(apply Hon; reflexivity).
        rewrite bind_ret. unfold ret. rewrite <- app_assoc. reflexivity.
      * rewrite !bind_ret. unfold ret. rewrite <- app_assoc. reflexivity.
Qed.

Lemma set_sessions_twice a b w :
  ScheduleMaker.set_sessions a (ScheduleMaker.set_sessions b w)
  = ScheduleMaker.set_sessions a w.
Proof. reflexivity. Qed.

(** The loop does to the sessions from the current index on what
    [calendar] says for the days left, and ends as [walk_outcome] says;
    [n] is the number of days from [date] to the end of the term, and the
    fuel is more than that. *)
Lemma walk_calendar n : forall fuel date number index done pending w,
  ScheduleMaker.sessions (ScheduleMaker.self w) = Some (done ++ pending) ->
  length done = index ->
  let term_info := ScheduleMaker.term_info (ScheduleMaker.self w) in
  Z.of_nat n = Z.max 0 (TermInfo.end_date term_info - date + 1) ->
  (n < fuel)%nat ->
  TermInfo.end_date term_info <= datetime.MAXORDINAL ->
  let r := calendar term_info (dates_from date n) number pending in
  ScheduleMaker.walk fuel date number index w
  = (if r.2 then
       if (0 <? Z.of_nat n)
          && (TermInfo.end_date term_info =? datetime.MAXORDINAL)
       then Raise OverflowError else Return tt
     else Raise IndexError,
     ScheduleMaker.set_sessions (Some (done ++ r.1)) w).
Proof.
  induction n as [|n IH];
    intros fuel date number index done pending w Hs Hk ti Hn Hfuel Hmax r.
  - destruct fuel as [|fuel]; [lia|]. simpl.
    rewrite bind_return with (a := w) (s' := w) by reflexivity.
    fold ti. destruct (date >? TermInfo.end_date ti) eqn:Hgt; [|lia].
    unfold ret. subst r. simpl.
    rewrite set_sessions_same by exact Hs. reflexivity.
  - destruct fuel as [|fuel]; [lia|].
    cbn [ScheduleMaker.walk].
    rewrite bind_return with (a := w) (s' := w) by reflexivity.
    fold ti. destruct (date >? TermInfo.end_date ti) eqn:Hgt; [lia|].
    subst r. cbn [dates_from calendar].
    pose proof (walk_date_place date number index done pending w Hs Hk)
      as Hstep. fold ti in Hstep.
    destruct (place ti date number pending) as [|s number' pending'|].
    + (* not a meeting day *)
      rewrite (bind_return _ _ _ _ _ Hstep). cbv beta. cbn [fst snd].
      unfold datetime.add_one_day.
      destruct (date + 1 <=? datetime.MAXORDINAL) eqn:Hnext.
      * rewrite bind_ret.
        rewrite (IH fuel (date + 1) number index done pending w Hs Hk)
          by (fold ti; lia).
        fold ti.
        replace (0 <? Z.of_nat (S n)) with true by (symmetry; lia).
        destruct (TermInfo.end_date ti =? datetime.MAXORDINAL) eqn:He;
          [|rewrite !andb_false_r; reflexivity].
        replace (0 <? Z.of_nat n) with true by (symmetry; lia).
        reflexivity.
      * assert (n = O) by lia. subst n.
        erewrite bind_raise by reflexivity. simpl.
        replace (TermInfo.end_date ti =? datetime.MAXORDINAL) with true
          by (symmetry; lia).
        rewrite set_sessions_same by exact Hs. reflexivity.
    + (* a session takes the place *)
      rewrite (bind_return _ _ _ _ _ Hstep). cbv beta. cbn [fst snd].
      unfold datetime.add_one_day.
      destruct (date + 1 <=? datetime.MAXORDINAL) eqn:Hnext.
      * rewrite bind_ret.
        rewrite (IH fuel (date + 1) number' (S index) (done ++ [s]) pending')
          by (first [reflexivity | rewrite length_app; simpl; lia
                    | simpl; fold ti; lia]).
        cbn [ScheduleMaker.term_info ScheduleMaker.self
             ScheduleMaker.set_sessions]. fold ti.
        rewrite set_sessions_twice, <- app_assoc.
        replace (0 <? Z.of_nat (S n)) with true by (symmetry; lia).
        destruct (TermInfo.end_date ti =? datetime.MAXORDINAL) eqn:He;
          [|rewrite !andb_false_r; reflexivity].
        replace (0 <? Z.of_nat n) with true by (symmetry; lia).
        reflexivity.
      * assert (n = O) by lia. subst n.
        erewrite bind_raise by reflexivity. simpl.
        replace (TermInfo.end_date ti =? datetime.MAXORDINAL) with true
          by (symmetry; lia).
        rewrite <- app_assoc. reflexivity.
    + (* no session at the index *)
      rewrite (bind_raise _ _ _ _ _ Hstep). simpl.
      rewrite set_sessions_same by exact Hs. reflexivity.
Qed.

(** The whole method: the fuel it gives the loop is enough, and the
    sessions it leaves are those of [calendar] over the days of the
    term. *)
Lemma add_dates_run w sessions :
  ScheduleMaker.sessions (ScheduleMaker.self w) = Some sessions ->
  let term_info := ScheduleMaker.term_info (ScheduleMaker.self w) in
  TermInfo.end_date term_info <= datetime.MAXORDINAL ->
  let r := calendar term_info (term_dates term_info)
             (TermInfo.start_session_number term_info) sessions in
  ScheduleMaker.add_dates_numbers_and_NoClassSessions w
  = (walk_outcome term_info r.2, ScheduleMaker.set_sessions (Some r.1) w).
Proof.
  intros Hs ti Hmax r.
  unfold ScheduleMaker.add_dates_numbers_and_NoClassSessions.
  rewrite bind_return with (a := w) (s' := w) by reflexivity.
  fold ti.
  rewrite (walk_calendar
             (Z.to_nat (TermInfo.end_date ti - TermInfo.start_date ti + 1))
             _ _ _ O [] sessions w Hs eq_refl)
    by (fold ti; lia).
  fold ti. unfold term_dates in r. fold r. unfold walk_outcome. simpl.
  destruct r.2; [|reflexivity].
  replace (0 <? Z.of_nat (Z.to_nat
             (TermInfo.end_date ti - TermInfo.start_date ti + 1)))
    with (TermInfo.start_date ti <=? TermInfo.end_date ti); [reflexivity|].
  destruct (TermInfo.start_date ti <=? TermInfo.end_date ti) eqn:E;
    symmetry; lia.
Qed.

(** ** The dates of a term *)

Lemma elem_of_dates_from n : forall date d,
  d ∈ dates_from date n <-> date <= d < date + Z.of_nat n.
Proof.
  induction n as [|n IH]; intros date d; simpl.
  - rewrite elem_of_nil. lia.
  - rewrite elem_of_cons, IH. lia.
Qed.

Lemma NoDup_dates_from n : forall date, NoDup (dates_from date n).
Proof.
  induction n as [|n IH]; intros date; simpl.
  - constructor.
  - apply NoDup_cons. split; [|apply IH].
    rewrite elem_of_dates_from. lia.
Qed.

Lemma elem_of_meeting_dates term_info d :
  d ∈ meeting_dates term_info
  <-> TermInfo.start_date term_info <= d <= TermInfo.end_date term_info
      /\ datetime.isoweekday d ∈ TermInfo.days_of_week term_info.
Proof.
  unfold meeting_dates, term_dates, is_meeting.
  rewrite list_elem_of_filter, elem_of_dates_from, bool_decide_eq_true.
  split; intros [? ?]; split; try assumption; lia.
Qed.

Lemma NoDup_meeting_dates term_info : NoDup (meeting_dates term_info).
Proof. apply NoDup_filter, NoDup_dates_from. Qed.

Lemma length_meeting_dates term_info :
  length (meeting_dates term_info)
  = (length (skipped_meeting_dates term_info)
     + length (class_meeting_dates term_info))%nat.
Proof.
  unfold skipped_meeting_dates, class_meeting_dates.
  induction (meeting_dates term_info) as [|d l IH]; [reflexivity|].
  rewrite !filter_cons.
  destruct (is_skipped term_info d) eqn:E.
  - rewrite decide_True by reflexivity.
    rewrite decide_False by discriminate. simpl. lia.
  - rewrite decide_False by discriminate.
    rewrite decide_True by reflexivity. simpl. lia.
Qed.

(** ** What the walk leaves in the list *)

Lemma init_datetime_date sd :
  Session.datetime_date (NoClassSession.init sd)
  = Some (ScheduleDate.datetime_date sd).
Proof. reflexivity. Qed.

Lemma assign_datetime_date term_info date number s :
  Session.datetime_date (assign_session term_info date number s) = Some date.
Proof.
  unfold assign_session.
  destruct (date_in _ _); [destruct (found_entry _ _)|]; reflexivity.
Qed.

Lemma assign_class term_info date number s :
  Session.class (assign_session term_info date number s) = Session.class s.
Proof.
  unfold assign_session.
  destruct (date_in _ _); [destruct (found_entry _ _)|]; reflexivity.
Qed.

Lemma assign_session_number term_info date number s :
  Session.session_number (assign_session term_info date number s)
  = Some number.
Proof.
  unfold assign_session.
  destruct (date_in _ _); [destruct (found_entry _ _)|]; reflexivity.
Qed.

(** The three ways [place] goes, with what decides them. *)
Lemma place_cases term_info date number pending :
  (is_meeting term_info date = false
   /\ place term_info date number pending = NotMeeting)
  \/ (is_meeting term_info date = true
      /\ is_skipped term_info date = true
      /\ exists sd,
           found_entry (TermInfo.dates_to_skip term_info) date = Some sd
           /\ sd ∈ TermInfo.dates_to_skip term_info
           /\ ScheduleDate.datetime_date sd = date
           /\ place term_info date number pending
              = Placed (NoClassSession.init sd) number pending)
  \/ (is_meeting term_info date = true
      /\ is_skipped term_info date = false
      /\ exists s rest,
           pending = s :: rest
           /\ place term_info date number pending
              = Placed (assign_session term_info date number s)
                       (number + 1) rest)
  \/ (is_meeting term_info date = true
      /\ is_skipped term_info date = false
      /\ pending = []
      /\ place term_info date number pending = NoSession).
Proof.
  unfold place.
  destruct (is_meeting term_info date) eqn:Hm; [|left; auto].
  destruct (is_skipped term_info date) eqn:Hs.
  - right; left. split; [reflexivity|]. split; [reflexivity|].
    destruct (found_entry_found _ _ Hs) as [sd [Hf [Hin Hd]]].
    exists sd. rewrite Hf. auto.
  - destruct pending as [|s rest].
    + right; right; right. auto.
    + right; right; left. split; [reflexivity|]. split; [reflexivity|].
      exists s, rest. auto.
Qed.

(** Enough sessions for the class days: every date finds its session. *)
Lemma calendar_all_placed term_info dates : forall number pending,
  (length (filter (fun d => is_skipped term_info d = false)
             (filter (fun d => is_meeting term_info d = true) dates))
   <= length pending)%nat ->
  (calendar term_info dates number pending).2 = true.
Proof.
  induction dates as [|d dates IH]; intros number pending Hlen;
    [reflexivity|].
  cbn [calendar]. rewrite filter_cons in Hlen.
  destruct (place_cases term_info d number pending)
    as [[Hm Hp]|[[Hm [Hs [sd [_ [_ [_ Hp]]]]]]
       |[[Hm [Hs [s [rest [-> Hp]]]]]|[Hm [Hs [-> Hp]]]]]];
    rewrite Hp; clear Hp.
  - rewrite decide_False in Hlen by congruence. apply IH. exact Hlen.
  - rewrite decide_True, filter_cons, decide_False in Hlen
      by congruence.
    simpl. apply IH. exact Hlen.
  - rewrite decide_True, filter_cons, decide_True in Hlen by congruence.
    simpl in *. apply IH. lia.
  - rewrite decide_True, filter_cons, decide_True in Hlen by congruence.
    simpl in Hlen. lia.
Qed.

(** The dates in the list after the walk: those of the meeting days in
    order, then those of the sessions left over. *)
Lemma calendar_dates term_info dates : forall number pending,
  let r := calendar term_info dates number pending in
  r.2 = true ->
  Session.datetime_date <$> r.1
  = (Some <$> filter (fun d => is_meeting term_info d = true) dates)
    ++ (Session.datetime_date
          <$> drop (length (filter (fun d => is_skipped term_info d = false)
                      (filter (fun d => is_meeting term_info d = true)
                         dates)))
                pending).
Proof.
  induction dates as [|d dates IH]; intros number pending r Hr;
    [reflexivity|].
  subst r. cbn [calendar] in *. rewrite filter_cons.
  destruct (place_cases term_info d number pending)
    as [[Hm Hp]|[[Hm [Hs [sd [_ [_ [Hd Hp]]]]]]
       |[[Hm [Hs [s [rest [-> Hp]]]]]|[Hm [Hs [-> Hp]]]]]];
    rewrite Hp in *; clear Hp.
  - rewrite decide_False by congruence. apply IH. exact Hr.
  - rewrite decide_True, filter_cons, decide_False by congruence.
    cbn [fst snd] in *. rewrite fmap_cons, init_datetime_date, Hd.
    rewrite (IH _ _ Hr). reflexivity.
  - rewrite decide_True, filter_cons, decide_True by congruence.
    cbn [fst snd] in *. rewrite fmap_cons, assign_datetime_date.
    rewrite (IH _ _ Hr). reflexivity.
  - discriminate.
Qed.

(** With undated sessions at the start, the session at an index has the
    date [d] exactly when [d] is the meeting day of that index. *)
Lemma dated_lookup (meetings : list Z) (left_over sessions : list Session.t)
    j d :
  Session.datetime_date <$> sessions
  = (Some <$> meetings) ++ (Session.datetime_date <$> left_over) ->
  Forall (fun s => Session.datetime_date s = None) left_over ->
  (exists s, sessions !! j = Some s /\ Session.datetime_date s = Some d)
  <-> meetings !! j = Some d.
Proof.
  intros Hdates Hnone. split.
  - intros [s [Hj Hd]].
    assert (Hl : (Session.datetime_date <$> sessions) !! j = Some (Some d)).
    { rewrite list_lookup_fmap, Hj. simpl. congruence. }
    rewrite Hdates in Hl.
    destruct (decide (j < length meetings)%nat) as [Hlt|Hge].
    + rewrite lookup_app_l in Hl by (rewrite length_fmap; exact Hlt).
      rewrite list_lookup_fmap in Hl.
      destruct (meetings !! j); simpl in Hl; congruence.
    + rewrite lookup_app_r in Hl by (rewrite length_fmap; lia).
      rewrite list_lookup_fmap in Hl.
      destruct (left_over !! _) as [s'|] eqn:Hs'; simpl in Hl;
        [|discriminate].
      apply list_elem_of_lookup_2 in Hs'.
      rewrite Forall_forall in Hnone. apply Hnone in Hs'. congruence.
  - intros Hm.
    assert (Hl : (Session.datetime_date <$> sessions) !! j = Some (Some d)).
    { rewrite Hdates, lookup_app_l, list_lookup_fmap, Hm; [reflexivity|].
      rewrite length_fmap. apply lookup_lt_is_Some. eauto. }
    rewrite list_lookup_fmap in Hl.
    destruct (sessions !! j) as [s|]; simpl in Hl; [|discriminate].
    exists s. split; [reflexivity|congruence].
Qed.

(** C3: when the meeting days of the term do not outnumber the parsed
    sessions plus the skipped meeting days, and the sessions start
    without dates, then after [add_dates_numbers_and_NoClassSessions]
    every meeting day of the term is the date of exactly one session of
    the list (one index holds it and no other does), and every date of a
    session of the list is a meeting day of the term.  The call returns,
    unless the term ends on [date.max]: then the step to the next day
    raises [OverflowError] after the last day is done, with the list as
    described. *)
Theorem one_session_per_meeting_date
    (w : ScheduleMaker.World) (sessions : list Session.t) :
  ScheduleMaker.sessions (ScheduleMaker.self w) = Some sessions ->
  let term_info := ScheduleMaker.term_info (ScheduleMaker.self w) in
  TermInfo.end_date term_info <= datetime.MAXORDINAL ->
  Forall (fun s => Session.datetime_date s = None) sessions ->
  (length (meeting_dates term_info)
   <= length sessions + length (skipped_meeting_dates term_info))%nat ->
  let r := ScheduleMaker.add_dates_numbers_and_NoClassSessions w in
  r.1 = walk_outcome term_info true
  /\ exists sessions',
       ScheduleMaker.sessions (ScheduleMaker.self r.2) = Some sessions'
       /\ (forall d,
             TermInfo.start_date term_info <= d
               <= TermInfo.end_date term_info ->
             datetime.isoweekday d ∈ TermInfo.days_of_week term_info ->
             exists i,
               (exists s, sessions' !! i = Some s
                          /\ Session.datetime_date s = Some d)
               /\ forall j s',
                    sessions' !! j = Some s' ->
                    Session.datetime_date s' = Some d -> j = i)
       /\ (forall s d,
             s ∈ sessions' ->
             Session.datetime_date s = Some d ->
             TermInfo.start_date term_info <= d
               <= TermInfo.end_date term_info
             /\ datetime.isoweekday d ∈ TermInfo.days_of_week term_info).
Proof.
  intros Hs ti Hmax Hnone Hlen r. subst r.
  rewrite (add_dates_run w sessions Hs Hmax). fold ti.
  set (c := calendar ti (term_dates ti)
              (TermInfo.start_session_number ti) sessions).
  assert (Hok : c.2 = true).
  { apply calendar_all_placed. fold (meeting_dates ti).
    fold (class_meeting_dates ti).
    pose proof (length_meeting_dates ti). lia. }
  pose proof (calendar_dates ti (term_dates ti)
                (TermInfo.start_session_number ti) sessions Hok) as Hdates.
  fold c in Hdates. fold (meeting_dates ti) in Hdates.
  fold (class_meeting_dates ti) in Hdates.
  assert (Hleft : Forall (fun s => Session.datetime_date s = None)
                    (drop (length (class_meeting_dates ti)) sessions))
    by (apply Forall_drop; exact Hnone).
  cbn [fst snd]. rewrite Hok. split; [reflexivity|].
  exists c.1. split; [reflexivity|]. split.
  - intros d Hrange Hday.
    assert (Hin : d ∈ meeting_dates ti)
      by (apply elem_of_meeting_dates; auto).
    apply list_elem_of_lookup_1 in Hin as [i Hi].
    exists i. split.
    + apply (dated_lookup _ _ _ i d Hdates Hleft). exact Hi.
    + intros j s' Hj Hd.
      assert (Hmj : meeting_dates ti !! j = Some d).
      { apply (dated_lookup _ _ _ j d Hdates Hleft). eauto. }
      exact (NoDup_lookup _ _ _ _ (NoDup_meeting_dates ti) Hmj Hi).
  - intros s d Hin Hd.
    apply list_elem_of_lookup_1 in Hin as [j Hj].
    assert (Hmj : meeting_dates ti !! j = Some d).
    { apply (dated_lookup _ _ _ j d Hdates Hleft). eauto. }
    apply list_elem_of_lookup_2 in Hmj.
    apply elem_of_meeting_dates. exact Hmj.
Qed.

Lemma one_session_per_meeting_date_witness :
  let w := shipped_maker in
  let term_info := ScheduleMaker.term_info (ScheduleMaker.self w) in
  let r := ScheduleMaker.add_dates_numbers_and_NoClassSessions w in
  r.1 = walk_outcome term_info true
  /\ exists sessions',
       ScheduleMaker.sessions (ScheduleMaker.self r.2) = Some sessions'
       /\ (forall d,
             TermInfo.start_date term_info <= d
               <= TermInfo.end_date term_info ->
             datetime.isoweekday d ∈ TermInfo.days_of_week term_info ->
             exists i,
               (exists s, sessions' !! i = Some s
                          /\ Session.datetime_date s = Some d)
               /\ forall j s',
                    sessions' !! j = Some s' ->
                    Session.datetime_date s' = Some d -> j = i)
       /\ (forall s d,
             s ∈ sessions' ->
             Session.datetime_date s = Some d ->
             TermInfo.start_date term_info <= d
               <= TermInfo.end_date term_info
             /\ datetime.isoweekday d ∈ TermInfo.days_of_week term_info).
Proof.
  apply (one_session_per_meeting_date shipped_maker
           (replicate 30 (ClassSession.init (lit "Title") (lit "- topic")))).
  - reflexivity.
  - vm_compute. discriminate.
  - apply Forall_replicate. reflexivity.
  - vm_compute. lia.
Defined.

Lemma fresh_not_assigned s : fresh s -> ~ assigned s.
Proof.
  intros [_ [Hd _]] [_ [d Hd']]. congruence.
Qed.

Lemma filter_assigned_fresh l : Forall fresh l -> filter assigned l = [].
Proof.
  induction 1 as [|s l Hs Hl IH]; [reflexivity|].
  rewrite filter_cons_False by (apply fresh_not_assigned; exact Hs).
  exact IH.
Qed.

(** The sessions the walk has dated, in the order of the list: their
    numbers count up from the start number, their dates are the class
    days in order, and all class days are served when every date found
    its session. *)
Lemma calendar_assigned term_info dates : forall number pending,
  Forall fresh pending ->
  let r := calendar term_info dates number pending in
  let numbered := filter assigned r.1 in
  let class_days :=
    filter (fun d => is_skipped term_info d = false)
      (filter (fun d => is_meeting term_info d = true) dates) in
  Session.session_number <$> numbered
  = (fun i => Some (number + Z.of_nat i)) <$> seq 0 (length numbered)
  /\ Session.datetime_date <$> numbered
     = Some <$> take (length numbered) class_days
  /\ (r.2 = true -> length numbered = length class_days).
Proof.
  induction dates as [|d dates IH]; intros number pending Hfresh; cbn zeta.
  - cbn [calendar fst snd]. rewrite filter_assigned_fresh by exact Hfresh.
    auto.
  - cbn [calendar]. rewrite (filter_cons (fun d => is_meeting _ d = true)).
    destruct (place_cases term_info d number pending)
      as [[Hm Hp]|[[Hm [Hs [sd [_ [_ [Hd Hp]]]]]]
         |[[Hm [Hs [s [rest [-> Hp]]]]]|[Hm [Hs [-> Hp]]]]]];
      rewrite Hp; clear Hp.
    + rewrite decide_False by congruence. apply IH. exact Hfresh.
    + rewrite decide_True, filter_cons, decide_False by congruence.
      cbn [fst snd].
      rewrite filter_cons_False by (intros [Hc _]; discriminate).
      apply IH. exact Hfresh.
    + rewrite decide_True, filter_cons, decide_True by congruence.
      apply Forall_cons in Hfresh as [Hs0 Hrest].
      cbn [fst snd].
      rewrite filter_cons_True; cycle 1.
      { split; [rewrite assign_class; apply Hs0|].
        rewrite assign_datetime_date. eauto. }
      destruct (IH (number + 1) rest Hrest) as [IHn [IHd IHl]].
      cbn zeta in IHn, IHd, IHl.
      cbn [length seq take]. rewrite !fmap_cons.
      rewrite assign_session_number, assign_datetime_date.
      split; [|split].
      * f_equal; [f_equal; lia|].
        rewrite IHn, <- fmap_S_seq, <- list_fmap_compose.
        apply list_fmap_ext. intros i x _. simpl. f_equal. lia.
      * rewrite IHd. reflexivity.
      * intros Hr. rewrite (IHl Hr). reflexivity.
    + cbn [fst snd]. rewrite filter_nil. split; [reflexivity|].
      split; [reflexivity|discriminate].
Qed.

(** Where each session of the list after the walk comes from. *)
Lemma calendar_members term_info dates : forall number pending s,
  s ∈ (calendar term_info dates number pending).1 ->
  (exists sd,
     s = NoClassSession.init sd
     /\ sd ∈ TermInfo.dates_to_skip term_info
     /\ ScheduleDate.datetime_date sd ∈ dates)
  \/ (exists d n s0,
        s = assign_session term_info d n s0
        /\ s0 ∈ pending
        /\ d ∈ dates
        /\ is_skipped term_info d = false)
  \/ s ∈ pending.
Proof.
  induction dates as [|d dates IH]; intros number pending s;
    cbn [calendar]; [cbn [fst]; auto|].
  destruct (place_cases term_info d number pending)
    as [[Hm Hp]|[[Hm [Hs [sd [_ [Hin [Hd Hp]]]]]]
       |[[Hm [Hs [s1 [rest [-> Hp]]]]]|[Hm [Hs [-> Hp]]]]]];
    rewrite Hp; clear Hp; cbn [fst].
  - intros Hs. destruct (IH _ _ _ Hs)
      as [[sd [? [? ?]]]|[[d' [n [s0 [? [? [? ?]]]]]]|?]].
    + left. exists sd. repeat split; try assumption. right. assumption.
    + right; left. exists d', n, s0.
      repeat split; try assumption. right. assumption.
    + right; right. assumption.
  - intros Hin'. apply elem_of_cons in Hin' as [->|Hin'].
    + left. exists sd. rewrite Hd. repeat split; [assumption|left].
    + destruct (IH _ _ _ Hin')
        as [[sd' [? [? ?]]]|[[d' [n [s0 [? [? [? ?]]]]]]|?]].
      * left. exists sd'. repeat split; try assumption. right. assumption.
      * right; left. exists d', n, s0.
        repeat split; try assumption. right. assumption.
      * right; right. assumption.
  - intros Hin'. apply elem_of_cons in Hin' as [->|Hin'].
    + right; left. exists d, number, s1.
      repeat split; [left|left|assumption].
    + destruct (IH _ _ _ Hin')
        as [[sd' [? [? ?]]]|[[d' [n [s0 [? [? [? ?]]]]]]|?]].
      * left. exists sd'. repeat split; try assumption. right. assumption.
      * right; left. exists d', n, s0.
        repeat split; try assumption; right; assumption.
      * right; right. right. assumption.
  - auto.
Qed.

Lemma StronglySorted_dates_from n : forall date,
  StronglySorted Z.lt (dates_from date n).
Proof.
  induction n as [|n IH]; intros date; simpl; constructor.
  - apply IH.
  - apply Forall_forall. intros d Hd.
    apply elem_of_dates_from in Hd. lia.
Qed.

Lemma StronglySorted_filter_lt (P : Z -> Prop) `{forall d, Decision (P d)}
    (l : list Z) :
  StronglySorted Z.lt l -> StronglySorted Z.lt (filter P l).
Proof.
  induction 1 as [|d l Hl IH Hd]; [constructor|].
  rewrite filter_cons. destruct (decide (P d)); [|exact IH].
  constructor; [exact IH|].
  apply Forall_forall. intros x Hx.
  apply list_elem_of_filter in Hx as [_ Hx].
  rewrite Forall_forall in Hd. apply Hd. exact Hx.
Qed.

Lemma class_meeting_dates_sorted term_info :
  StronglySorted Z.lt (class_meeting_dates term_info).
Proof.
  unfold class_meeting_dates, meeting_dates, term_dates.
  apply StronglySorted_filter_lt, StronglySorted_filter_lt.
  apply StronglySorted_dates_from.
Qed.

(** Every date finds its session exactly when the sessions are at least
    as many as the class days. *)
Lemma calendar_placed_iff term_info dates : forall number pending,
  (calendar term_info dates number pending).2 = true
  <-> (length (filter (fun d => is_skipped term_info d = false)
                 (filter (fun d => is_meeting term_info d = true) dates))
       <= length pending)%nat.
Proof.
  intros number pending. split; [|apply calendar_all_placed].
  revert number pending.
  induction dates as [|d dates IH]; intros number pending;
    [simpl; lia|].
  cbn [calendar]. rewrite filter_cons.
  destruct (place_cases term_info d number pending)
    as [[Hm Hp]|[[Hm [Hs [sd [_ [_ [_ Hp]]]]]]
       |[[Hm [Hs [s [rest [-> Hp]]]]]|[Hm [Hs [-> Hp]]]]]];
    rewrite Hp; clear Hp.
  - rewrite decide_False by congruence. apply IH.
  - rewrite decide_True, filter_cons, decide_False by congruence.
    simpl. apply IH.
  - rewrite decide_True, filter_cons, decide_True by congruence.
    simpl. intros H. apply IH in H. lia.
  - simpl. discriminate.
Qed.

(** The walk dates and numbers as many sessions as there are class days,
    or all of them when they are fewer. *)
Lemma calendar_numbered_length term_info dates : forall number pending,
  Forall fresh pending ->
  length (filter assigned (calendar term_info dates number pending).1)
  = Nat.min (length pending)
      (length (filter (fun d => is_skipped term_info d = false)
                 (filter (fun d => is_meeting term_info d = true) dates))).
Proof.
  induction dates as [|d dates IH]; intros number pending Hfresh.
  - cbn [calendar fst]. rewrite filter_assigned_fresh by exact Hfresh.
    simpl. lia.
  - cbn [calendar]. rewrite (filter_cons (fun d => is_meeting _ d = true)).
    destruct (place_cases term_info d number pending)
      as [[Hm Hp]|[[Hm [Hs [sd [_ [_ [Hd Hp]]]]]]
         |[[Hm [Hs [s [rest [-> Hp]]]]]|[Hm [Hs [-> Hp]]]]]];
      rewrite Hp; clear Hp.
    + rewrite decide_False by congruence. apply IH. exact Hfresh.
    + rewrite decide_True, filter_cons, decide_False by congruence.
      cbn [fst].
      rewrite filter_cons_False by (intros [Hc _]; discriminate).
      apply IH. exact Hfresh.
    + rewrite decide_True, filter_cons, decide_True by congruence.
      apply Forall_cons in Hfresh as [Hs0 Hrest].
      cbn [fst].
      rewrite filter_cons_True; cycle 1.
      { split; [rewrite assign_class; apply Hs0|].
        rewrite assign_datetime_date. eauto. }
      cbn [length]. rewrite (IH (number + 1) rest Hrest). lia.
    + cbn [fst]. rewrite filter_nil. reflexivity.
Qed.

(** C4: the walk gives numbers to the sessions it dates, and it dates as
    many of the sessions as the term has class days (all of them when
    they are fewer, and then it raises [IndexError]; it raises
    [IndexError] in no other case).  In the order of the list these
    sessions have the numbers [start_session_number],
    [start_session_number + 1], ... and, in the same order, the class
    days of the term from the first on, which are in calendar order; a
    [NoClassSession] has no number, and only sessions the walk has dated
    have one. *)
Theorem session_numbers_consecutive
    (w : ScheduleMaker.World) (sessions : list Session.t) :
  ScheduleMaker.sessions (ScheduleMaker.self w) = Some sessions ->
  let term_info := ScheduleMaker.term_info (ScheduleMaker.self w) in
  TermInfo.end_date term_info <= datetime.MAXORDINAL ->
  Forall fresh sessions ->
  let r := ScheduleMaker.add_dates_numbers_and_NoClassSessions w in
  exists sessions',
    ScheduleMaker.sessions (ScheduleMaker.self r.2) = Some sessions'
    /\ let numbered := filter assigned sessions' in
       length numbered
       = Nat.min (length sessions) (length (class_meeting_dates term_info))
       /\ Session.session_number <$> numbered
          = (fun i => Some (TermInfo.start_session_number term_info
                            + Z.of_nat i))
              <$> seq 0 (length numbered)
       /\ Session.datetime_date <$> numbered
          = Some <$> take (length numbered) (class_meeting_dates term_info)
       /\ StronglySorted Z.lt (class_meeting_dates term_info)
       /\ (r.1 = Raise IndexError
           <-> (length sessions
                < length (class_meeting_dates term_info))%nat)
       /\ (forall s,
             s ∈ sessions' ->
             Session.class s = IsNoClassSession ->
             Session.session_number s = None)
       /\ (forall s,
             s ∈ sessions' ->
             is_Some (Session.session_number s) -> assigned s).
Proof.
  intros Hs ti Hmax Hfresh r. subst r.
  rewrite (add_dates_run w sessions Hs Hmax). fold ti.
  set (c := calendar ti (term_dates ti)
              (TermInfo.start_session_number ti) sessions).
  exists c.1. split; [reflexivity|]. cbn zeta.
  destruct (calendar_assigned ti (term_dates ti)
              (TermInfo.start_session_number ti) sessions Hfresh)
    as [Hn [Hd _]].
  cbn zeta in Hn, Hd. fold c in Hn, Hd.
  fold (meeting_dates ti) in Hd. fold (class_meeting_dates ti) in Hd.
  pose proof (calendar_numbered_length ti (term_dates ti)
                (TermInfo.start_session_number ti) sessions Hfresh) as Hlen.
  fold c in Hlen. fold (meeting_dates ti) in Hlen.
  fold (class_meeting_dates ti) in Hlen.
  pose proof (calendar_placed_iff ti (term_dates ti)
                (TermInfo.start_session_number ti) sessions) as Hiff.
  fold c in Hiff. fold (meeting_dates ti) in Hiff.
  fold (class_meeting_dates ti) in Hiff.
  assert (Hmem : forall s, s ∈ c.1 ->
            (Session.class s = IsNoClassSession
             /\ Session.session_number s = None)
            \/ assigned s
            \/ fresh s).
  { intros s Hin.
    destruct (calendar_members _ _ _ _ _ Hin)
      as [[sd [-> _]]|[[d [n [s0 [-> [Hs0 _]]]]]|Hp]].
    - left. split; reflexivity.
    - right; left. rewrite Forall_forall in Hfresh.
      split; [rewrite assign_class; apply (Hfresh s0 Hs0)|].
      rewrite assign_datetime_date. eauto.
    - right; right. rewrite Forall_forall in Hfresh. auto. }
  split; [exact Hlen|]. split; [exact Hn|]. split; [exact Hd|].
  split; [apply class_meeting_dates_sorted|]. split; [|split].
  - cbn [fst]. unfold walk_outcome. destruct c.2 eqn:Hc2.
    + assert (Hle : (length (class_meeting_dates ti) <= length sessions)%nat)
        by (apply Hiff; reflexivity).
      split; [|lia].
      destruct ((TermInfo.start_date ti <=? TermInfo.end_date ti)
                && (TermInfo.end_date ti =? datetime.MAXORDINAL));
        discriminate.
    + split; [intros _|reflexivity].
      destruct (decide (length sessions
                        < length (class_meeting_dates ti))%nat) as [|Hge];
        [assumption|].
      assert (false = true) as Hf by (apply Hiff; lia). discriminate.
  - intros s Hin Hc. destruct (Hmem s Hin) as [[_ ?]|[[Hc' _]|[Hc' _]]];
      [assumption|congruence|congruence].
  - intros s Hin [n Hn']. destruct (Hmem s Hin) as [[_ ?]|[?|[_ [_ ?]]]];
      [congruence|assumption|congruence].
Qed.

Lemma session_numbers_consecutive_witness :
  let w := shipped_maker in
  let r := ScheduleMaker.add_dates_numbers_and_NoClassSessions w in
  r.1 <> Raise IndexError
  /\ exists sessions',
       ScheduleMaker.sessions (ScheduleMaker.self r.2) = Some sessions'
       /\ length (filter assigned sessions') = 30%nat
       /\ Session.session_number <$> filter assigned sessions'
          = (fun i => Some (1 + Z.of_nat i)) <$> seq 0 30.
Proof.
  cbv zeta.
  assert (Hmax : TermInfo.end_date
                   (ScheduleMaker.term_info (ScheduleMaker.self shipped_maker))
                 <= datetime.MAXORDINAL) by (vm_compute; discriminate).
  assert (Hfresh : Forall fresh
            (replicate 30 (ClassSession.init (lit "Title") (lit "- topic"))))
    by (apply Forall_replicate; repeat split).
  assert (Hdays : length (class_meeting_dates
                    (ScheduleMaker.term_info
                       (ScheduleMaker.self shipped_maker))) = 30%nat)
    by (vm_compute; reflexivity).
  destruct (session_numbers_consecutive shipped_maker
              (replicate 30 (ClassSession.init (lit "Title") (lit "- topic")))
              eq_refl Hmax Hfresh)
    as (ss & H1 & Hlen & Hnum & _ & _ & Hidx & _).
  rewrite Hdays, length_replicate in Hlen, Hidx.
  split; [intros E; apply Hidx in E; lia|].
  exists ss. split; [exact H1|]. split; [exact Hlen|].
  rewrite Hnum, Hlen. reflexivity.
Defined.

(** The skip branch of one date, at any index: the [NoClassSession] of
    the entry found goes into the list at the index, and nothing else
    changes. *)
Lemma walk_date_skip date number index sessions w :
  ScheduleMaker.sessions (ScheduleMaker.self w) = Some sessions ->
  let term_info := ScheduleMaker.term_info (ScheduleMaker.self w) in
  is_meeting term_info date = true ->
  date_in date (TermInfo.dates_to_skip term_info) = true ->
  exists i sd,
    date_index (TermInfo.dates_to_skip term_info) date = Some i
    /\ TermInfo.dates_to_skip term_info !! i = Some sd
    /\ ScheduleDate.datetime_date sd = date
    /\ ScheduleMaker.walk_date date number index w
       = (Return (number, S index),
          ScheduleMaker.set_sessions
            (Some (list_insert_at index (NoClassSession.init sd) sessions))
            w).
Proof.
  intros Hs ti Hmeet Hskip.
  destruct (date_index_found _ _ Hskip) as [i [sd [Hi [Hl Hd]]]].
  exists i, sd. split; [exact Hi|]. split; [exact Hl|]. split; [exact Hd|].
  unfold ScheduleMaker.walk_date.
  rewrite bind_return with (a := w) (s' := w) by reflexivity.
  fold ti. unfold is_meeting in Hmeet. rewrite Hmeet, Hskip, Hi.
  unfold or_ValueError, item. rewrite !bind_assoc, bind_ret.
  rewrite Hl, bind_assoc, bind_ret, Hs. unfold attr.
  rewrite bind_assoc, bind_ret. reflexivity.
Qed.

Lemma date_index_first dates date : forall i,
  date_index dates date = Some i ->
  forall j sd,
    (j < i)%nat -> dates !! j = Some sd ->
    ScheduleDate.datetime_date sd <> date.
Proof.
  induction dates as [|sd0 dates IH]; intros i; simpl; [discriminate|].
  unfold ScheduleDate.eq at 1. case_bool_decide as Hd.
  - intros [= <-] j sd Hj. lia.
  - destruct (date_index dates date) as [i'|] eqn:Hi; simpl; [|discriminate].
    intros [= <-] j sd Hj Hl. destruct j as [|j]; simpl in Hl.
    + congruence.
    + apply (IH i' eq_refl j sd); [lia|exact Hl].
Qed.

Lemma lookup_list_insert_at {A} (x : A) (l : list A) index :
  (index <= length l)%nat ->
  list_insert_at index x l !! index = Some x
  /\ length (list_insert_at index x l) = S (length l)
  /\ forall j y,
       l !! j = Some y ->
       list_insert_at index x l !! (if decide (j < index)%nat then j else S j)
       = Some y.
Proof.
  intros Hle. unfold list_insert_at. split; [|split].
  - rewrite lookup_app_r by (rewrite length_take; lia).
    rewrite length_take, Nat.min_l by lia.
    rewrite Nat.sub_diag. reflexivity.
  - rewrite length_app, length_take. simpl. rewrite length_drop. lia.
  - intros j y Hj. destruct (decide (j < index)%nat) as [Hlt|Hge].
    + rewrite lookup_app_l by (rewrite length_take; lia).
      rewrite lookup_take_lt by exact Hlt. exact Hj.
    + rewrite lookup_app_r by (rewrite length_take; lia).
      rewrite length_take, Nat.min_l by lia.
      replace (S j - index)%nat with (S (j - index)) by lia. simpl.
      rewrite lookup_drop. rewrite <- Hj. f_equal. lia.
Qed.

(** When every date found its session, the list has grown by one per
    skipped meeting day. *)
Lemma calendar_length term_info dates : forall number pending,
  (calendar term_info dates number pending).2 = true ->
  length (calendar term_info dates number pending).1
  = (length pending
     + length (filter (fun d => is_skipped term_info d = true)
                 (filter (fun d => is_meeting term_info d = true) dates)))%nat.
Proof.
  induction dates as [|d dates IH]; intros number pending;
    cbn [calendar]; [cbn [fst]; rewrite !filter_nil; simpl; lia|].
  rewrite (filter_cons (fun d => is_meeting _ d = true)).
  destruct (place_cases term_info d number pending)
    as [[Hm Hp]|[[Hm [Hs [sd [_ [_ [Hd Hp]]]]]]
       |[[Hm [Hs [s [rest [-> Hp]]]]]|[Hm [Hs [-> Hp]]]]]];
    rewrite Hp; clear Hp; cbn [fst snd].
  - rewrite decide_False by congruence. apply IH.
  - rewrite decide_True, filter_cons, decide_True by congruence.
    intros Hr. simpl. rewrite (IH _ _ Hr). lia.
  - rewrite decide_True, filter_cons, decide_False by congruence.
    intros Hr. simpl. rewrite (IH _ _ Hr). lia.
  - discriminate.
Qed.

(** When every date found its session, the session at the place of a
    skipped meeting day is the [NoClassSession] of the entry found. *)
Lemma calendar_lookup_skip term_info dates : forall number pending p d,
  (calendar term_info dates number pending).2 = true ->
  filter (fun d => is_meeting term_info d = true) dates !! p = Some d ->
  is_skipped term_info d = true ->
  exists sd,
    found_entry (TermInfo.dates_to_skip term_info) d = Some sd
    /\ (calendar term_info dates number pending).1 !! p
       = Some (NoClassSession.init sd).
Proof.
  induction dates as [|d0 dates IH]; intros number pending p d;
    cbn [calendar]; [rewrite filter_nil; discriminate|].
  rewrite (filter_cons (fun d => is_meeting _ d = true)).
  destruct (place_cases term_info d0 number pending)
    as [[Hm Hp]|[[Hm [Hs [sd [Hf [_ [Hd Hp]]]]]]
       |[[Hm [Hs [s [rest [-> Hp]]]]]|[Hm [Hs [-> Hp]]]]]];
    rewrite Hp; clear Hp; cbn [fst snd].
  - rewrite decide_False by congruence. apply IH.
  - rewrite decide_True by congruence. intros Hr Hl Hskip.
    destruct p as [|p]; simpl in Hl.
    + injection Hl as <-. exists sd. split; [exact Hf|reflexivity].
    + apply (IH _ _ _ _ Hr Hl Hskip).
  - rewrite decide_True by congruence. intros Hr Hl Hskip.
    destruct p as [|p]; simpl in Hl.
    + injection Hl as <-. congruence.
    + apply (IH _ _ _ _ Hr Hl Hskip).
  - discriminate.
Qed.

Lemma walk_outcome_placed term_info all_placed :
  walk_outcome term_info all_placed <> Raise IndexError ->
  all_placed = true.
Proof.
  unfold walk_outcome. destruct all_placed; [reflexivity|congruence].
Qed.

(** C5: at a meeting day of the term that is the date of an entry of
    [dates_to_skip], with [entry] the entry that [index] finds (the first
    of that date): one pass of the loop, in any state of the walk, puts
    the [NoClassSession] of [entry] (the entry's message as title, the
    day as date, no number) at the current index; the list is one longer;
    every session that was in the list is still there unchanged, those
    from the index on one place further, so no pending session gets a
    date or a number; the session number is not advanced and the index
    moves on by one.  And after the whole walk, unless the list ran out
    ([IndexError]), that session stands at the place of the day among
    the meeting days, and the list is longer than at the start by the
    number of skipped meeting days. *)
Theorem skip_date_inserts_NoClassSession
    (w : ScheduleMaker.World) (sessions : list Session.t) (date : Z) :
  ScheduleMaker.sessions (ScheduleMaker.self w) = Some sessions ->
  let term_info := ScheduleMaker.term_info (ScheduleMaker.self w) in
  TermInfo.end_date term_info <= datetime.MAXORDINAL ->
  TermInfo.start_date term_info <= date <= TermInfo.end_date term_info ->
  datetime.isoweekday date ∈ TermInfo.days_of_week term_info ->
  date_in date (TermInfo.dates_to_skip term_info) = true ->
  exists i entry,
    TermInfo.dates_to_skip term_info !! i = Some entry
    /\ ScheduleDate.datetime_date entry = date
    /\ (forall j sd, (j < i)%nat ->
          TermInfo.dates_to_skip term_info !! j = Some sd ->
          ScheduleDate.datetime_date sd <> date)
    /\ Session.class (NoClassSession.init entry) = IsNoClassSession
    /\ Session.title (NoClassSession.init entry) = ScheduleDate.message entry
    /\ Session.datetime_date (NoClassSession.init entry) = Some date
    /\ Session.session_number (NoClassSession.init entry) = None
    /\ (forall w0 sessions0 session_number session_index,
          ScheduleMaker.term_info (ScheduleMaker.self w0) = term_info ->
          ScheduleMaker.sessions (ScheduleMaker.self w0) = Some sessions0 ->
          (session_index <= length sessions0)%nat ->
          exists sessions',
            ScheduleMaker.walk_date date session_number session_index w0
            = (Return (session_number, S session_index),
               ScheduleMaker.set_sessions (Some sessions') w0)
            /\ sessions' !! session_index = Some (NoClassSession.init entry)
            /\ length sessions' = S (length sessions0)
            /\ forall j s,
                 sessions0 !! j = Some s ->
                 sessions'
                   !! (if decide (j < session_index)%nat then j else S j)
                 = Some s)
    /\ (let r := ScheduleMaker.add_dates_numbers_and_NoClassSessions w in
        r.1 <> Raise IndexError ->
        exists sessions' p,
          ScheduleMaker.sessions (ScheduleMaker.self r.2) = Some sessions'
          /\ meeting_dates term_info !! p = Some date
          /\ sessions' !! p = Some (NoClassSession.init entry)
          /\ length sessions'
             = (length sessions
                + length (skipped_meeting_dates term_info))%nat).
Proof.
  intros Hs ti Hmax Hrange Hday Hskip.
  assert (Hmeet : is_meeting ti date = true)
    by (apply bool_decide_eq_true; exact Hday).
  destruct (date_index_found _ _ Hskip) as [i [entry [Hi [Hl Hd]]]].
  assert (Hfound : found_entry (TermInfo.dates_to_skip ti) date = Some entry)
    by (unfold found_entry; rewrite Hi; exact Hl).
  exists i, entry.
  split; [exact Hl|]. split; [exact Hd|].
  split; [apply (date_index_first _ _ _ Hi)|].
  split; [reflexivity|]. split; [reflexivity|].
  split; [simpl; congruence|]. split; [reflexivity|]. split.
  - intros w0 sessions0 number index Hti Hs0 Hle.
    assert (Hmeet0 : is_meeting
                       (ScheduleMaker.term_info (ScheduleMaker.self w0)) date
                     = true) by (rewrite Hti; exact Hmeet).
    assert (Hskip0 : date_in date
                       (TermInfo.dates_to_skip
                          (ScheduleMaker.term_info (ScheduleMaker.self w0)))
                     = true) by (rewrite Hti; exact Hskip).
    destruct (walk_date_skip date number index sessions0 w0
                Hs0 Hmeet0 Hskip0) as [i' [sd [Hi' [Hl' [_ Hrun]]]]].
    rewrite Hti in Hi', Hl'. fold ti in Hi', Hl'.
    assert (i' = i) by congruence. subst i'.
    assert (sd = entry) by congruence. subst sd.
    destruct (lookup_list_insert_at (NoClassSession.init entry) sessions0
                index Hle) as [Hat [Hlen Hold]].
    eexists. split; [exact Hrun|].
    split; [exact Hat|]. split; [exact Hlen|exact Hold].
  - cbn zeta. rewrite (add_dates_run w sessions Hs Hmax). fold ti.
    cbn [fst snd]. intros Hne. apply walk_outcome_placed in Hne.
    assert (Hin : date ∈ meeting_dates ti)
      by (apply elem_of_meeting_dates; auto).
    apply list_elem_of_lookup_1 in Hin as [p Hp].
    destruct (calendar_lookup_skip ti (term_dates ti)
                (TermInfo.start_session_number ti) sessions p date
                Hne Hp Hskip) as [sd [Hf Hat]].
    assert (sd = entry) by congruence. subst sd.
    eexists. exists p. split; [reflexivity|]. split; [exact Hp|].
    split; [exact Hat|]. apply calendar_length. exact Hne.
Qed.

Lemma skip_date_inserts_NoClassSession_witness :
  let w := shipped_maker in
  let term_info := ScheduleMaker.term_info (ScheduleMaker.self w) in
  let date := 736614 in
  datetime.date 2017 10 12 = Some date
  /\ exists i entry,
       TermInfo.dates_to_skip term_info !! i = Some entry
       /\ ScheduleDate.datetime_date entry = date
       /\ ScheduleDate.message entry = Some (lit "Fall break")
       /\ (let r := ScheduleMaker.add_dates_numbers_and_NoClassSessions w in
           r.1 <> Raise IndexError ->
           exists sessions' p,
             ScheduleMaker.sessions (ScheduleMaker.self r.2) = Some sessions'
             /\ meeting_dates term_info !! p = Some date
             /\ sessions' !! p = Some (NoClassSession.init entry)
             /\ length sessions'
                = (length (replicate 30
                             (ClassSession.init (lit "Title")
                                (lit "- topic")))
                   + length (skipped_meeting_dates term_info))%nat).
Proof.
  split; [reflexivity|].
  destruct (skip_date_inserts_NoClassSession shipped_maker
              (replicate 30 (ClassSession.init (lit "Title") (lit "- topic")))
              736614)
    as [i [entry [Hl [Hd [Hfirst [_ [_ [_ [_ [_ Hrun]]]]]]]]]].
  - reflexivity.
  - vm_compute. discriminate.
  - vm_compute. split; discriminate.
  - apply (bool_decide_eq_true_1 _). vm_compute. reflexivity.
  - reflexivity.
  - exists i, entry. split; [exact Hl|]. split; [exact Hd|].
    split; [|exact Hrun].
    destruct i as [|[|[|i]]]; vm_compute in Hl.
    + injection Hl as <-. vm_compute in Hd. discriminate.
    + injection Hl as <-. vm_compute in Hd. discriminate.
    + injection Hl as <-. reflexivity.
    + discriminate.
Defined.

(** C9: at a meeting day of the term that is both in [dates_to_skip] and
    in [evening_exams], the walk takes the skip branch.  One pass of the
    loop at that day, in any state and whatever the evening exams of the
    term are, only puts the [NoClassSession] of the skip entry into the
    list: the outcome is written without the evening exams.  And after
    the walk over sessions that start undated, whatever its outcome,
    every session of the list with that date is a [NoClassSession] of
    type [NO_CLASS] with no message: none is tagged [EVENING_EXAM] or
    holds the exam message; unless the list ran out, there is such a
    session. *)
Theorem skip_wins_over_evening_exam
    (w : ScheduleMaker.World) (sessions : list Session.t) (date : Z) :
  ScheduleMaker.sessions (ScheduleMaker.self w) = Some sessions ->
  let term_info := ScheduleMaker.term_info (ScheduleMaker.self w) in
  TermInfo.end_date term_info <= datetime.MAXORDINAL ->
  Forall (fun s => Session.datetime_date s = None) sessions ->
  TermInfo.start_date term_info <= date <= TermInfo.end_date term_info ->
  datetime.isoweekday date ∈ TermInfo.days_of_week term_info ->
  date_in date (TermInfo.dates_to_skip term_info) = true ->
  date_in date (TermInfo.evening_exams term_info) = true ->
  (exists entry,
     entry ∈ TermInfo.dates_to_skip term_info
     /\ ScheduleDate.datetime_date entry = date
     /\ forall w0 sessions0 session_number session_index,
          TermInfo.days_of_week
            (ScheduleMaker.term_info (ScheduleMaker.self w0))
          = TermInfo.days_of_week term_info ->
          TermInfo.dates_to_skip
            (ScheduleMaker.term_info (ScheduleMaker.self w0))
          = TermInfo.dates_to_skip term_info ->
          ScheduleMaker.sessions (ScheduleMaker.self w0) = Some sessions0 ->
          ScheduleMaker.walk_date date session_number session_index w0
          = (Return (session_number, S session_index),
             ScheduleMaker.set_sessions
               (Some (list_insert_at session_index
                        (NoClassSession.init entry) sessions0)) w0))
  /\ (let r := ScheduleMaker.add_dates_numbers_and_NoClassSessions w in
      exists sessions',
        ScheduleMaker.sessions (ScheduleMaker.self r.2) = Some sessions'
        /\ (forall s,
              s ∈ sessions' ->
              Session.datetime_date s = Some date ->
              Session.class s = IsNoClassSession
              /\ Session.session_type s = Some NO_CLASS
              /\ Session.session_type s <> Some EVENING_EXAM
              /\ Session.message s = None)
        /\ (r.1 <> Raise IndexError ->
            exists s, s ∈ sessions'
                      /\ Session.datetime_date s = Some date)).
Proof.
  intros Hs ti Hmax Hnone Hrange Hday Hskip Hexam.
  assert (Hmeet : is_meeting ti date = true)
    by (apply bool_decide_eq_true; exact Hday).
  destruct (found_entry_found _ _ Hskip) as [entry [Hfound [Hin Hd]]].
  split.
  - exists entry. split; [exact Hin|]. split; [exact Hd|].
    intros w0 sessions0 number index Hdays Hskips Hs0.
    assert (Hmeet0 : is_meeting
                       (ScheduleMaker.term_info (ScheduleMaker.self w0)) date
                     = true).
    { unfold is_meeting. rewrite Hdays. exact Hmeet. }
    assert (Hskip0 : date_in date
                       (TermInfo.dates_to_skip
                          (ScheduleMaker.term_info (ScheduleMaker.self w0)))
                     = true) by (rewrite Hskips; exact Hskip).
    destruct (walk_date_skip date number index sessions0 w0
                Hs0 Hmeet0 Hskip0) as [i [sd [Hi [Hl [_ Hrun]]]]].
    rewrite Hskips in Hi, Hl.
    assert (sd = entry).
    { unfold found_entry in Hfound. rewrite Hi in Hfound. congruence. }
    subst sd. exact Hrun.
  - cbn zeta. rewrite (add_dates_run w sessions Hs Hmax). fold ti.
    cbn [fst snd]. eexists. split; [reflexivity|]. split.
    + intros s Hin' Hdate.
      destruct (calendar_members _ _ _ _ _ Hin')
        as [[sd [-> _]]|[[d [n [s0 [-> [_ [_ Hns]]]]]]|Hp]].
      * repeat split. discriminate.
      * rewrite assign_datetime_date in Hdate.
        injection Hdate as ->. unfold is_skipped in Hns. congruence.
      * rewrite Forall_forall in Hnone. rewrite (Hnone s Hp) in Hdate.
        discriminate.
    + intros Hne. apply walk_outcome_placed in Hne.
      assert (Hin' : date ∈ meeting_dates ti)
        by (apply elem_of_meeting_dates; auto).
      apply list_elem_of_lookup_1 in Hin' as [p Hp].
      destruct (calendar_lookup_skip ti (term_dates ti)
                  (TermInfo.start_session_number ti) sessions p date
                  Hne Hp Hskip) as [sd [Hf Hat]].
      exists (NoClassSession.init sd). split.
      * apply list_elem_of_lookup_2 in Hat. exact Hat.
      * simpl. destruct (found_entry_found _ _ Hskip) as [sd' [Hf' [_ Hd']]].
        congruence.
Qed.

Lemma skip_wins_over_evening_exam_witness :
  let w := clash_maker in
  let term_info := ScheduleMaker.term_info (ScheduleMaker.self w) in
  let date := 736572 in
  (date_in date (TermInfo.dates_to_skip term_info) = true
   /\ date_in date (TermInfo.evening_exams term_info) = true)
  /\ (let r := ScheduleMaker.add_dates_numbers_and_NoClassSessions w in
      exists sessions',
        ScheduleMaker.sessions (ScheduleMaker.self r.2) = Some sessions'
        /\ (forall s,
              s ∈ sessions' ->
              Session.datetime_date s = Some date ->
              Session.class s = IsNoClassSession
              /\ Session.session_type s = Some NO_CLASS
              /\ Session.session_type s <> Some EVENING_EXAM
              /\ Session.message s = None)
        /\ (r.1 <> Raise IndexError ->
            exists s, s ∈ sessions'
                      /\ Session.datetime_date s = Some date)).
Proof.
  split; [split; reflexivity|].
  apply (skip_wins_over_evening_exam clash_maker
           [ClassSession.init (lit "One") [];
            ClassSession.init (lit "Two") []] 736572).
  - reflexivity.
  - vm_compute. discriminate.
  - repeat constructor.
  - vm_compute. split; discriminate.
  - apply (bool_decide_eq_true_1 _). vm_compute. reflexivity.
  - reflexivity.
  - reflexivity.
Defined.

(** ** The table *)

Lemma HEADER_TEMPLATE_split :
  ScheduleHeader.HEADER_TEMPLATE
  = HEADER_before ++ lit "${THs_FOR_CLASSDAYS}" ++ HEADER_after.
Proof. vm_compute. reflexivity. Qed.

Lemma substitute_TH weekday :
  Template.substitute ScheduleHeader.TH_FOR_DAY_OF_WEEK_TEMPLATE
    [(lit "DAY", weekday)]
  = Return (day_heading weekday).
Proof. vm_compute. reflexivity. Qed.

Lemma substitute_HEADER THs :
  Template.substitute ScheduleHeader.HEADER_TEMPLATE
    [(lit "GOOGLE_FONT", ScheduleHeader.GOOGLE_FONT);
     (lit "THs_FOR_CLASSDAYS", THs)]
  = Return (HEADER_before ++ THs ++ HEADER_after).
Proof. vm_compute. reflexivity. Qed.

Lemma make_THs_run {St} weekdays : forall THs (st : St),
  ScheduleHeader.make_THs THs weekdays st
  = (Return (THs ++ concat (day_heading <$> weekdays)), st).
Proof.
  induction weekdays as [|weekday weekdays IH]; intros THs st; simpl.
  - rewrite app_nil_r. reflexivity.
  - rewrite substitute_TH.
    erewrite bind_return by reflexivity.
    rewrite IH, <- app_assoc. reflexivity.
Qed.

Lemma ScheduleHeader_init_run {St} weekdays (st : St) :
  ScheduleHeader.init weekdays st
  = (Return (HEADER_before ++ concat (day_heading <$> weekdays)
             ++ HEADER_after), st).
Proof.
  unfold ScheduleHeader.init.
  rewrite (bind_return _ _ _ _ _ (make_THs_run weekdays [] st)).
  rewrite substitute_HEADER. reflexivity.
Qed.

(** One pass of the table loop adds the cell of the session. *)
Lemma make_html_table_body_run days_in_week k sessions_html sessions s h w :
  days_in_week <> 0 ->
  ScheduleMaker.sessions (ScheduleMaker.self w) = Some sessions ->
  sessions !! k = Some s ->
  Session.html s = Some h ->
  ScheduleMaker.make_html_table_body days_in_week k sessions_html w
  = (Return (sessions_html ++ table_cell days_in_week k h), w).
Proof.
  intros Hd Hs Hk Hh. unfold ScheduleMaker.make_html_table_body, table_cell.
  rewrite bool_decide_false by exact Hd.
  assert (Hrest : forall acc,
    bind get (fun w0 : ScheduleMaker.World =>
      bind (attr (ScheduleMaker.sessions (ScheduleMaker.self w0)))
        (fun sessions0 =>
           bind (item (sessions0 !! k)) (fun session =>
             bind (attr (Session.html session)) (fun session_html =>
               if bool_decide
                    (Z.of_nat k mod days_in_week = days_in_week - 1)
               then ret ((acc ++ ScheduleTable.ITEM_START ++ session_html
                          ++ ScheduleTable.ITEM_END)
                         ++ ScheduleTable.ROW_END)
               else ret (acc ++ ScheduleTable.ITEM_START ++ session_html
                         ++ ScheduleTable.ITEM_END))))) w
    = (Return (acc ++ ScheduleTable.ITEM_START ++ h
               ++ ScheduleTable.ITEM_END
               ++ (if decide (Z.of_nat k mod days_in_week = days_in_week - 1)
                   then ScheduleTable.ROW_END else [])), w)).
  { intros acc. rewrite bind_return with (a := w) (s' := w) by reflexivity.
    rewrite Hs. unfold attr at 1. rewrite bind_ret.
    rewrite Hk. unfold item. rewrite bind_ret.
    rewrite Hh. unfold attr. rewrite bind_ret.
    case_bool_decide; case_decide; try contradiction; unfold ret;
      rewrite <- ?app_assoc, ?app_nil_r; reflexivity. }
  destruct (decide (Z.of_nat k mod days_in_week = 0)) as [H0|H0].
  - rewrite (bool_decide_true _ H0), bind_ret, Hrest, <- app_assoc.
    reflexivity.
  - rewrite (bool_decide_false _ H0), bind_ret, Hrest. reflexivity.
Qed.

Lemma make_html_table_loop days_in_week sessions w htmls :
  forall k sessions_html,
  days_in_week <> 0 ->
  ScheduleMaker.sessions (ScheduleMaker.self w) = Some sessions ->
  (forall i h, htmls !! i = Some h ->
     exists s, sessions !! (k + i)%nat = Some s /\ Session.html s = Some h) ->
  for_range_acc k (length htmls) sessions_html
    (ScheduleMaker.make_html_table_body days_in_week) w
  = (Return (sessions_html
             ++ concat (imap (fun i => table_cell days_in_week (k + i))
                          htmls)), w).
Proof.
  induction htmls as [|h htmls IH]; intros k acc Hd Hs Hall.
  - simpl. rewrite app_nil_r. reflexivity.
  - destruct (Hall O h eq_refl) as [s [Hk Hh]].
    rewrite Nat.add_0_r in Hk.
    cbn [length for_range_acc].
    rewrite (bind_return _ _ _ _ _
               (make_html_table_body_run _ _ acc _ _ _ _ Hd Hs Hk Hh)).
    rewrite IH; [|exact Hd|exact Hs|].
    + cbn [imap concat]. rewrite Nat.add_0_r, <- app_assoc.
      do 4 f_equal. apply (f_equal (@concat _)).
      apply imap_ext. intros i x _. simpl.
      f_equal. lia.
    + intros i h' Hi. destruct (Hall (S i) h' Hi) as [s' [Hk' Hh']].
      exists s'. split; [|exact Hh'].
      rewrite <- Hk'. f_equal. lia.
Qed.

(** C6: with at least one meeting weekday and every session rendered,
    [make_html_table] sets [self.html] to the fixed header around one
    column heading per weekday name, then for every session index [k],
    in order, a row start exactly when [k mod N] is 0, the item of
    session [k], and a row end exactly when [k mod N] is [N - 1], and
    then the fixed trailer; [N] is the number of meeting weekdays. *)
Theorem make_html_table_row_major
    (w : ScheduleMaker.World) (sessions : list Session.t)
    (htmls : list str) :
  ScheduleMaker.sessions (ScheduleMaker.self w) = Some sessions ->
  Session.html <$> sessions = Some <$> htmls ->
  let term_info := ScheduleMaker.term_info (ScheduleMaker.self w) in
  TermInfo.days_of_week term_info <> [] ->
  let N := Z.of_nat (length (TermInfo.days_of_week term_info)) in
  ScheduleMaker.make_html_table w
  = (Return tt,
     ScheduleMaker.set_html
       (Some
          ((HEADER_before
            ++ concat (day_heading <$> TermInfo.weekdays_of_week term_info)
            ++ HEADER_after)
           ++ concat
                (imap
                   (fun k session_html =>
                      (if decide (Z.of_nat k mod N = 0)
                       then ScheduleTable.ROW_START else [])
                      ++ ScheduleTable.ITEM_START ++ session_html
                      ++ ScheduleTable.ITEM_END
                      ++ (if decide (Z.of_nat k mod N = N - 1)
                          then ScheduleTable.ROW_END else []))
                   htmls)
           ++ ScheduleTrailer.FINAL_EXAM ++ ScheduleTrailer.TRAILER))
       w).
Proof.
  intros Hs Hh ti Hdays N.
  assert (HN : N <> 0).
  { subst N. destruct (TermInfo.days_of_week ti); [congruence|].
    simpl. lia. }
  assert (Hlen : length sessions = length htmls).
  { rewrite <- (length_fmap Session.html sessions), Hh, length_fmap.
    reflexivity. }
  unfold ScheduleMaker.make_html_table.
  rewrite bind_return with (a := w) (s' := w) by reflexivity.
  fold ti. fold N. rewrite Hs. unfold attr. rewrite bind_ret.
  rewrite Hlen.
  assert (Hall : forall i h, htmls !! i = Some h ->
            exists s, sessions !! (0 + i)%nat = Some s
                      /\ Session.html s = Some h).
  { intros i h Hi. simpl.
    assert (Hl : (Session.html <$> sessions) !! i = Some (Some h))
      by (rewrite Hh, list_lookup_fmap, Hi; reflexivity).
    rewrite list_lookup_fmap in Hl.
    destruct (sessions !! i) as [s|]; simpl in Hl; [|discriminate].
    exists s. split; [reflexivity|congruence]. }
  rewrite (bind_return _ _ _ _ _
             (make_html_table_loop N sessions w htmls O [] HN Hs Hall)).
  rewrite (bind_return _ _ _ _ _ (ScheduleHeader_init_run _ w)).
  reflexivity.
Qed.

Lemma make_html_table_row_major_witness :
  let w := rendered_maker in
  (ScheduleMaker.make_html_table w).1 = Return tt
  /\ ScheduleMaker.html (ScheduleMaker.self (ScheduleMaker.make_html_table w).2)
     = Some
         ((HEADER_before
           ++ concat (day_heading
                        <$> [lit "Monday"; lit "Wednesday"; lit "Thursday"])
           ++ HEADER_after)
          ++ (ScheduleTable.ROW_START
              ++ ScheduleTable.ITEM_START ++ lit "a" ++ ScheduleTable.ITEM_END)
          ++ (ScheduleTable.ITEM_START ++ lit "b" ++ ScheduleTable.ITEM_END)
          ++ (ScheduleTable.ITEM_START ++ lit "c" ++ ScheduleTable.ITEM_END
              ++ ScheduleTable.ROW_END)
          ++ (ScheduleTable.ROW_START
              ++ ScheduleTable.ITEM_START ++ lit "d" ++ ScheduleTable.ITEM_END)
          ++ ScheduleTrailer.FINAL_EXAM ++ ScheduleTrailer.TRAILER).
Proof.
  pose proof (make_html_table_row_major rendered_maker
                (map (fun h => Session.set_html (Some (lit h))
                                 (ClassSession.init [] []))
                   ["a"; "b"; "c"; "d"]%string)
                [lit "a"; lit "b"; lit "c"; lit "d"]
                eq_refl eq_refl) as H.
  cbn zeta in H. cbn zeta. rewrite H by discriminate.
  split; reflexivity.
Defined.

(** ** Rendering a class session *)

Lemma substitute_SESSION link number date title :
  Template.substitute ClassSession.SESSION_TEMPLATE
    [(lit "SessionPreparationLink", link);
     (lit "SessionNumber", number);
     (lit "SessionDate", date);
     (lit "SessionTitle", title)]
  = Return (session_block link number date title).
Proof. vm_compute. reflexivity. Qed.

(** [make_html] with the topics switched off, case by case: what it
    returns or raises and the attributes it leaves. *)
Lemma make_html_when_off `{Libraries} (s : Session.t) :
  ClassSession.make_html_when false s
  = match Session.session_number s with
    | None => (Raise TypeError, s)
    | Some number =>
        let link :=
          ClassSession.LINK_TO_PREP_before ++ format_02 number
          ++ ClassSession.LINK_TO_PREP_after in
        let s1 := Session.set_preparation_link (Some link) s in
        match Session.title s, Session.datetime_date s with
        | None, _ | _, None => (Raise AttributeError, s1)
        | Some title, Some date =>
            let block :=
              session_block link (str_of_int number)
                (datetime.strftime_B date ++ lit " "
                 ++ str_of_int (datetime.day date))
                (markdown_markdown
                   (Py.replace (lit "/") (lit "<br>" ++ [NEWLINE]) title)) in
            let s2 := Session.set_html (Some block) s1 in
            if decide (Session.session_type s = Some EVENING_EXAM) then
              match Session.message s with
              | Some message =>
                  (Return tt, Session.set_html (Some (block ++ message)) s1)
              | None => (Raise TypeError, s2)
              end
            else (Return tt, s2)
        end
    end.
Proof.
  unfold ClassSession.make_html_when.
  rewrite bind_return with (a := s) (s' := s) by reflexivity.
  unfold ClassSession.LINK_TO_PREP_format, or_TypeError.
  destruct s as [cls date title number topics type message link0 th html0].
  cbn [Session.session_number Session.title Session.datetime_date
       Session.session_type Session.message].
  destruct number as [number|]; [|reflexivity].
  rewrite !bind_assoc, !bind_ret.
  rewrite bind_return with (a := tt)
    (s' := Session.set_preparation_link
             (Some (ClassSession.LINK_TO_PREP_before ++ format_02 number
                    ++ ClassSession.LINK_TO_PREP_after))
             (Session.mk cls date title (Some number) topics type message
                link0 th html0)) by reflexivity.
  destruct title as [title|]; [|reflexivity].
  unfold attr at 1. rewrite bind_ret.
  rewrite bind_ret.
  unfold Session.date_as_string.
  rewrite bind_assoc.
  match goal with |- bind get _ ?st = _ =>
    rewrite bind_return with (a := st) (s' := st) by reflexivity end.
  cbn [Session.set_preparation_link Session.datetime_date].
  destruct date as [date|]; [|reflexivity].
  unfold attr at 1. rewrite bind_assoc, !bind_ret.
  rewrite substitute_SESSION.
  erewrite bind_return by reflexivity.
  erewrite bind_return by reflexivity.
  destruct (decide (type = Some EVENING_EXAM)) as [Ht|Ht].
  - unfold ClassSession.add_exam_info.
    rewrite !bind_assoc.
    match goal with |- bind get _ ?st = _ =>
      rewrite bind_return with (a := st) (s' := st) by reflexivity end.
    cbn [Session.set_html Session.html Session.message].
    unfold attr at 1. rewrite bind_assoc, bind_ret.
    destruct message as [message|]; [|reflexivity].
    reflexivity.
  - reflexivity.
Qed.

Lemma bind_ext {St A B} (m : M St A) (k1 k2 : A -> M St B) s :
  (forall a s', k1 a s' = k2 a s') -> bind m k1 s = bind m k2 s.
Proof.
  intros Hk. unfold bind. destruct (m s) as [[a| |] s']; auto.
Qed.

Lemma bind_ret_tt {St} (m : M St unit) s :
  bind m (fun _ => ret tt) s = m s.
Proof.
  unfold bind, ret. destruct (m s) as [[[]| |] s']; reflexivity.
Qed.

(** [make_html] with the topics switched on is [make_html] with the
    topics switched off, followed by the topics step. *)
Lemma make_html_when_on `{Libraries} (s : Session.t) :
  ClassSession.make_html_when true s
  = bind (ClassSession.make_html_when false) (fun _ => topics_step s) s.
Proof.
  unfold ClassSession.make_html_when.
  rewrite (bind_return get _ s s s eq_refl).
  rewrite bind_assoc.
  rewrite (bind_return get _ s s s eq_refl).
  repeat (rewrite bind_assoc; apply bind_ext; intros).
  reflexivity.
Qed.

(** C10: [SHOW_TOPICS] is false as shipped, and then, for every session
    and whatever its topics are, [ClassSession.make_html] never runs
    [make_topics_html] (which raises [NameError] for the unbound name
    [gfm] whenever it runs): it never raises [NameError], it leaves
    [topics_html] as it was, its outcome and the HTML it leaves do not
    depend on the topics, and when it returns the HTML is the filled
    session template followed by the exam message of an evening exam and
    by nothing else, so without a [session_topics] block.  With the
    switch on, a session with topics that are not blank raises the
    [NameError] where the shipped switch returns. *)
Theorem make_html_never_renders_topics `{Libraries} (s : Session.t) :
  SHOW_TOPICS = false
  /\ (forall st, ClassSession.make_topics_html st
                 = (Raise (NameError (lit "gfm")), st))
  /\ (forall name,
        (ClassSession.make_html s).1 <> Raise (NameError name))
  /\ Session.topics_html (ClassSession.make_html s).2
     = Session.topics_html s
  /\ (forall topics,
        (ClassSession.make_html (Session.set_topics topics s)).1
        = (ClassSession.make_html s).1
        /\ Session.html
             (ClassSession.make_html (Session.set_topics topics s)).2
           = Session.html (ClassSession.make_html s).2)
  /\ ((ClassSession.make_html s).1 = Return tt ->
      exists number title date,
        Session.session_number s = Some number
        /\ Session.title s = Some title
        /\ Session.datetime_date s = Some date
        /\ Session.html (ClassSession.make_html s).2
           = Some
               (session_block
                  (ClassSession.LINK_TO_PREP_before ++ format_02 number
                   ++ ClassSession.LINK_TO_PREP_after)
                  (str_of_int number)
                  (datetime.strftime_B date ++ lit " "
                   ++ str_of_int (datetime.day date))
                  (markdown_markdown
                     (Py.replace (lit "/") (lit "<br>" ++ [NEWLINE]) title))
                ++ (if decide (Session.session_type s = Some EVENING_EXAM)
                    then default [] (Session.message s) else [])))
  /\ (forall topics,
        Session.topics s = Some topics ->
        Py.strip topics <> [] ->
        (ClassSession.make_html s).1 = Return tt ->
        (ClassSession.make_html_when true s).1
        = Raise (NameError (lit "gfm"))).
Proof.
  split; [reflexivity|]. split; [reflexivity|].
  assert (Hrun := make_html_when_off s).
  unfold ClassSession.make_html. change SHOW_TOPICS with false.
  split; [|split; [|split; [|split]]].
  - intros name. rewrite Hrun.
    destruct s as [cls date title number topics type message link0 th html0].
    cbn [Session.session_number Session.title Session.datetime_date
         Session.session_type Session.message].
    destruct number; [|discriminate].
    destruct title; [|discriminate]. destruct date; [|discriminate].
    cbn zeta. destruct (decide _); [|discriminate].
    destruct message; discriminate.
  - rewrite Hrun.
    destruct s as [cls date title number topics type message link0 th html0].
    cbn [Session.session_number Session.title Session.datetime_date
         Session.session_type Session.message].
    destruct number; [|reflexivity].
    destruct title; [|reflexivity]. destruct date; [|reflexivity].
    cbn zeta. destruct (decide _); [|reflexivity].
    destruct message; reflexivity.
  - intros topics'. rewrite Hrun, (make_html_when_off (Session.set_topics _ _)).
    destruct s as [cls date title number topics type message link0 th html0].
    cbn [Session.session_number Session.title Session.datetime_date
         Session.session_type Session.message Session.set_topics].
    destruct number; [|split; reflexivity].
    destruct title; [|split; reflexivity].
    destruct date; [|split; reflexivity].
    cbn zeta. destruct (decide _); [|split; reflexivity].
    destruct message; split; reflexivity.
  - rewrite Hrun.
    destruct s as [cls date title number topics type message link0 th html0].
    cbn [Session.session_number Session.title Session.datetime_date
         Session.session_type Session.message].
    destruct number as [number|]; [|discriminate].
    destruct title as [title|]; [|discriminate].
    destruct date as [date|]; [|discriminate].
    cbn zeta. intros Hret. exists number, title, date.
    split; [reflexivity|]. split; [reflexivity|]. split; [reflexivity|].
    destruct (decide _).
    + destruct message; [reflexivity|discriminate].
    + rewrite app_nil_r. reflexivity.
  - intros topics Htopics Hstrip Hret.
    rewrite make_html_when_on.
    destruct (ClassSession.make_html_when false s) as [r s'] eqn:Eoff.
    cbn [fst] in Hret. subst r.
    rewrite (bind_return _ _ _ _ _ Eoff).
    unfold topics_step. rewrite Htopics. unfold attr. rewrite bind_ret.
    rewrite bool_decide_true by exact Hstrip. reflexivity.
Qed.

Lemma make_html_never_renders_topics_witness :
  (@ClassSession.make_html example_libraries example_session).1 = Return tt
  /\ (@ClassSession.make_html_when example_libraries true example_session).1
     = Raise (NameError (lit "gfm"))
  /\ Session.topics_html
       (@ClassSession.make_html example_libraries example_session).2
     = None.
Proof.
  destruct (@make_html_never_renders_topics example_libraries example_session)
    as [_ [_ [_ [Hth [_ [_ Hon]]]]]].
  split; [vm_compute; reflexivity|]. split.
  - apply (Hon (lit "- counting")).
    + reflexivity.
    + vm_compute. discriminate.
    + vm_compute. reflexivity.
  - rewrite Hth. reflexivity.
Defined.

(** ** Parenthetical rewriting *)


(** ** [str.replace] *)

Lemma startswith_app p : forall x y,
  Py.startswith p x = true -> Py.startswith p (x ++ y) = true.
Proof.
  intros x y. rewrite !startswith_spec. intros [v ->].
  exists (v ++ y). rewrite app_assoc. reflexivity.
Qed.

Lemma startswith_length p : forall x,
  Py.startswith p x = true -> (length p <= length x)%nat.
Proof.
  intros x. rewrite startswith_spec. intros [v ->].
  rewrite length_app. lia.
Qed.

(** A character that is not in the pattern ends every match before it. *)
Lemma startswith_sep old c w : forall u,
  c ∉ old -> Py.startswith old (u ++ c :: w) = Py.startswith old u.
Proof.
  induction old as [|a o IH]; intros u Hc; [reflexivity|].
  apply not_elem_of_cons in Hc as [Hca Hco].
  destruct u as [|b u]; simpl.
  - destruct (decide (a = c)); [congruence|reflexivity].
  - destruct (decide (a = b)); [apply IH; exact Hco|reflexivity].
Qed.

Lemma contains_head old a s :
  hd_error old = Some a -> a ∉ s -> Py.contains old s = false.
Proof.
  destruct old as [|a' o]; [discriminate|]. intros [= ->].
  induction s as [|b s IH]; intros Ha; [reflexivity|].
  apply not_elem_of_cons in Ha as [Hab Has].
  cbn [Py.contains Py.startswith].
  destruct (decide (a = b)); [congruence|]. simpl. apply IH. exact Has.
Qed.

Lemma contains_cons old c s :
  Py.contains old s = true -> Py.contains old (c :: s) = true.
Proof. intros Hs. cbn [Py.contains]. rewrite Hs. apply orb_true_r. Qed.

Lemma contains_app_char old c u w :
  c ∉ old ->
  Py.contains old (u ++ c :: w) = true ->
  Py.contains old u = true \/ Py.contains old w = true.
Proof.
  intros Hc. induction u as [|x u IH]; cbn [app Py.contains].
  - pose proof (startswith_sep old c w [] Hc) as H0. simpl in H0.
    rewrite H0. destruct old; simpl; auto.
  - pose proof (startswith_sep old c w (x :: u) Hc) as H0. simpl in H0.
    rewrite H0.
    destruct (Py.startswith old (x :: u)); [auto|]. simpl.
    intros Hrest. destruct (IH Hrest); auto.
Qed.

Lemma contains_app_first old a u v :
  hd_error old = Some a -> a ∉ u ->
  Py.contains old (u ++ v) = true -> Py.contains old v = true.
Proof.
  destruct old as [|a' o]; [discriminate|]. intros [= ->].
  induction u as [|x u IH]; intros Ha; [auto|].
  apply not_elem_of_cons in Ha as [Hax Hau].
  cbn [app Py.contains Py.startswith].
  destruct (decide (a = x)); [congruence|]. simpl. apply IH. exact Hau.
Qed.

Lemma app_split_last {A} (z : A) l1 : forall l2 u v,
  l1 ++ z :: l2 = u ++ v -> z ∉ v -> exists k, u = l1 ++ z :: k.
Proof.
  induction l1 as [|y l1 IH]; intros l2 u v Heq Hz.
  - destruct u as [|x u]; simpl in Heq.
    + subst v. exfalso. apply Hz. left.
    + injection Heq as <- _. exists u. reflexivity.
  - destruct u as [|x u]; simpl in Heq.
    + subst v. exfalso. apply Hz. right.
      apply elem_of_app. right. left.
    + injection Heq as <- Heq. destruct (IH _ _ _ Heq Hz) as [k ->].
      exists k. reflexivity.
Qed.

Lemma contains_app_last old o z u v :
  old = o ++ [z] -> z ∉ v ->
  Py.contains old (u ++ v) = true -> Py.contains old u = true.
Proof.
  intros -> Hz. rewrite !contains_spec. intros [l1 [l2 Heq]].
  assert (Heq' : (l1 ++ o) ++ z :: l2 = u ++ v).
  { rewrite Heq, <- !app_assoc. reflexivity. }
  destruct (app_split_last _ _ _ _ _ Heq' Hz) as [k ->].
  exists l1, k. rewrite <- !app_assoc. reflexivity.
Qed.

Lemma replace_none old new s :
  Py.contains old s = false -> Py.replace old new s = s.
Proof.
  unfold Py.replace. induction s as [|c s IH]; [reflexivity|].
  cbn [Py.contains Py.replace_scan]. intros Hc.
  apply orb_false_iff in Hc as [Hs Hc]. rewrite Hs, (IH Hc). reflexivity.
Qed.

Lemma replace_scan_skip old new u : forall v,
  Py.replace_scan old new (length u) (u ++ v) = Py.replace old new v.
Proof.
  induction u as [|x u IH]; intros v; [reflexivity|]. simpl. apply IH.
Qed.

Lemma replace_hit old new v :
  old <> [] -> Py.replace old new (old ++ v) = new ++ Py.replace old new v.
Proof.
  destruct old as [|a o]; [congruence|]. intros _.
  unfold Py.replace at 1. cbn [app Py.replace_scan].
  assert (Hs : Py.startswith (a :: o) (a :: o ++ v) = true).
  { apply startswith_spec. exists v. reflexivity. }
  rewrite Hs. cbn [length Nat.pred]. rewrite replace_scan_skip.
  reflexivity.
Qed.

Lemma replace_head old new a u v :
  hd_error old = Some a -> a ∉ u ->
  Py.replace old new (u ++ v) = u ++ Py.replace old new v.
Proof.
  destruct old as [|a' o]; [discriminate|]. intros [= ->].
  unfold Py.replace. induction u as [|x u IH]; intros Ha; [reflexivity|].
  apply not_elem_of_cons in Ha as [Hax Hau].
  cbn [app Py.replace_scan Py.startswith].
  destruct (decide (a = x)); [congruence|]. rewrite (IH Hau). reflexivity.
Qed.

(** [replace] works on both sides of a character that is not in the
    pattern. *)
Lemma replace_scan_sep old new c w :
  c ∉ old -> old <> [] ->
  forall u skip, (skip <= length u)%nat ->
  Py.replace_scan old new skip (u ++ c :: w)
  = Py.replace_scan old new skip u ++ c :: Py.replace old new w.
Proof.
  intros Hc Hold. induction u as [|x u IH]; intros skip Hskip.
  - assert (skip = O) by (simpl in Hskip; lia). subst skip.
    cbn [app Py.replace_scan].
    pose proof (startswith_sep old c w [] Hc) as H0. simpl in H0.
    rewrite H0. destruct old; [congruence|]. reflexivity.
  - cbn [app Py.replace_scan]. destruct skip as [|k].
    + pose proof (startswith_sep old c w (x :: u) Hc) as H0.
      simpl in H0. rewrite H0.
      destruct (Py.startswith old (x :: u)) eqn:Hs.
      * apply startswith_length in Hs. simpl in Hs.
        rewrite IH by lia. rewrite <- app_assoc. reflexivity.
      * rewrite IH by lia. reflexivity.
    + apply IH. simpl in Hskip. lia.
Qed.

Lemma replace_sep old new c u w :
  c ∉ old -> old <> [] ->
  Py.replace old new (u ++ c :: w)
  = Py.replace old new u ++ c :: Py.replace old new w.
Proof.
  intros Hc Hold. apply replace_scan_sep; [assumption|assumption|lia].
Qed.

Lemma startswith_hd a o w :
  Py.startswith (a :: o) w = true -> hd_error w = Some a.
Proof.
  destruct w as [|b w]; simpl; [discriminate|].
  destruct (decide (a = b)); [congruence|discriminate].
Qed.

Lemma startswith_hd_neq a o w :
  hd_error w <> Some a -> Py.startswith (a :: o) w = false.
Proof.
  intros Hw. destruct (Py.startswith (a :: o) w) eqn:Hs; [|reflexivity].
  apply startswith_hd in Hs. contradiction.
Qed.

Lemma startswith_nil p : Py.startswith p [] = true -> p = [].
Proof. destruct p; [reflexivity|discriminate]. Qed.

(** A match at the front of [t ++ v] lies in [t] or runs over its end. *)
Lemma startswith_app_inv p : forall t v,
  Py.startswith p (t ++ v) = true ->
  Py.startswith p t = true
  \/ exists p2, p = t ++ p2 /\ Py.startswith p2 v = true.
Proof.
  induction p as [|a p IH]; intros t v Hs; [left; reflexivity|].
  destruct t as [|b t].
  - right. exists (a :: p). split; [reflexivity|exact Hs].
  - simpl in Hs |- *. destruct (decide (a = b)) as [->|]; [|discriminate].
    destruct (IH _ _ Hs) as [Ht|[p2 [-> Hp2]]]; [left; exact Ht|].
    right. exists p2. split; [reflexivity|exact Hp2].
Qed.

Lemma first_occurrence_unique {A} (c : A) u1 : forall v1 u2 v2,
  u1 ++ c :: v1 = u2 ++ c :: v2 -> c ∉ u1 -> c ∉ u2 -> u1 = u2.
Proof.
  induction u1 as [|x u1 IH]; intros v1 u2 v2 Heq H1 H2.
  - destruct u2 as [|y u2]; [reflexivity|]. simpl in Heq.
    injection Heq as <- _. exfalso. apply H2. left.
  - destruct u2 as [|y u2]; simpl in Heq.
    + injection Heq as -> _. exfalso. apply H1. left.
    + injection Heq as <- Heq.
      apply not_elem_of_cons in H1 as [_ H1].
      apply not_elem_of_cons in H2 as [_ H2].
      f_equal. exact (IH _ _ _ Heq H1 H2).
Qed.

Lemma notin_forallb (c : ascii) l :
  forallb (fun x => negb (Ascii.eqb c x)) l = true -> c ∉ l.
Proof.
  induction l as [|x l IH]; simpl; intros H; [apply not_elem_of_nil|].
  apply andb_true_iff in H as [Hx Hl].
  apply not_elem_of_cons. split; [|exact (IH Hl)].
  intros ->. rewrite Ascii.eqb_refl in Hx. discriminate.
Qed.

Lemma hd_app_neq {A} (a : A) u v :
  a ∉ u -> hd_error v <> Some a -> hd_error (u ++ v) <> Some a.
Proof.
  destruct u as [|x u]; intros Hu Hv; [exact Hv|].
  apply not_elem_of_cons in Hu as [Hx _]. simpl. congruence.
Qed.

Lemma replace_miss old new c s :
  Py.startswith old (c :: s) = false ->
  Py.replace old new (c :: s) = c :: Py.replace old new s.
Proof. intros Hs. unfold Py.replace. cbn [Py.replace_scan]. rewrite Hs. reflexivity. Qed.

(** A single [a] is not the pattern [aa]. *)
Lemma replace_lone a new w :
  hd_error w <> Some a ->
  Py.replace [a; a] new (a :: w) = a :: Py.replace [a; a] new w.
Proof.
  intros Hw. apply replace_miss.
  change (Py.startswith [a; a] (a :: w))
    with (if decide (a = a) then Py.startswith [a] w else false).
  destruct (decide (a = a)); [|congruence].
  apply startswith_hd_neq. exact Hw.
Qed.

Lemma replace_head2 old new a u1 u2 v :
  hd_error old = Some a -> a ∉ u1 -> a ∉ u2 ->
  Py.replace old new (u1 ++ u2 ++ v) = u1 ++ u2 ++ Py.replace old new v.
Proof.
  intros Ho H1 H2.
  rewrite (replace_head old new a u1) by assumption.
  rewrite (replace_head old new a u2) by assumption. reflexivity.
Qed.

Lemma replace_head3 old new a u1 u2 u3 v :
  hd_error old = Some a -> a ∉ u1 -> a ∉ u2 -> a ∉ u3 ->
  Py.replace old new (u1 ++ u2 ++ u3 ++ v)
  = u1 ++ u2 ++ u3 ++ Py.replace old new v.
Proof.
  intros Ho H1 H2 H3.
  rewrite (replace_head old new a u1) by assumption.
  apply f_equal. apply replace_head2 with a; assumption.
Qed.

Lemma replace_free old new a s :
  hd_error old = Some a -> a ∉ s -> Py.replace old new s = s.
Proof.
  intros Ho Hs. apply replace_none. exact (contains_head old a s Ho Hs).
Qed.

(** [replace] goes around a token in exclamation marks when these are
    not in the pattern. *)
Lemma replace_token old new mid u w :
  "!"%char ∉ old -> old <> [] -> Py.replace old new mid = mid ->
  Py.replace old new (u ++ ("!"%char :: mid ++ ["!"%char]) ++ w)
  = Py.replace old new u ++ ("!"%char :: mid ++ ["!"%char]) ++
    Py.replace old new w.
Proof.
  intros Hc Hold Hmid.
  change (u ++ ("!"%char :: mid ++ ["!"%char]) ++ w)
    with (u ++ "!"%char :: ((mid ++ ["!"%char]) ++ w)).
  rewrite <- (app_assoc mid ["!"%char] w).
  change (["!"%char] ++ w) with ("!"%char :: w).
  rewrite (replace_sep old new "!"%char u) by assumption.
  rewrite (replace_sep old new "!"%char mid) by assumption.
  rewrite Hmid. simpl. rewrite <- app_assoc. reflexivity.
Qed.

Lemma startswith_take n p y :
  Py.startswith p y = true -> Py.startswith (take n p) (take n y) = true.
Proof.
  rewrite !startswith_spec. intros [v ->].
  exists (take (n - length p) v). apply take_app.
Qed.

Lemma contains_tail W c s :
  Py.contains W (c :: s) = false -> Py.contains W s = false.
Proof.
  intros H. destruct (Py.contains W s) eqn:E; [|reflexivity].
  apply (contains_cons _ c) in E. congruence.
Qed.

Lemma overlap_free_cut n from old W yn k :
  overlap_free n from old W yn = true ->
  (from <= k <= length old)%nat ->
  Py.contains W (take k old) = true
  \/ Py.startswith (take n (drop k old)) yn = false.
Proof.
  unfold overlap_free. intros Hall Hk.
  rewrite forallb_forall in Hall.
  assert (Hin : In k (seq from (S (length old) - from)))
    by (apply in_seq; lia).
  apply Hall in Hin. apply orb_true_iff in Hin as [H|H]; [left; exact H|].
  right. apply negb_true_iff. exact H.
Qed.

(** No match of [old] starts at the head of a text without the word
    followed by a text that starts with [yn]. *)
Lemma startswith_free n from old W yn t y :
  overlap_free n from old W yn = true ->
  (from <= length t)%nat -> (from <= length old)%nat ->
  Py.contains W t = false ->
  take n y = yn ->
  Py.startswith old (t ++ y) = false.
Proof.
  intros Hfree Hft Hfo Ht Hy.
  destruct (Py.startswith old (t ++ y)) eqn:E; [exfalso|reflexivity].
  apply startswith_app_inv in E as [E|(p2 & Hp & E)].
  - apply startswith_spec in E as [v Hv].
    destruct (overlap_free_cut n from old W yn (length old) Hfree) as [H|H];
      [lia| |].
    + rewrite firstn_all in H. apply contains_spec in H as (a & b & Hab).
      assert (Py.contains W t = true); [|congruence].
      apply contains_spec. exists a, (b ++ v).
      rewrite Hv, Hab, <- !app_assoc. reflexivity.
    + rewrite drop_all in H. destruct n, yn; discriminate H.
  - destruct (overlap_free_cut n from old W yn (length t) Hfree) as [H|H].
    + rewrite Hp, length_app. lia.
    + rewrite Hp, take_app_length in H. congruence.
    + rewrite Hp, drop_app_length in H.
      apply (startswith_take n) in E. rewrite Hy in E. congruence.
Qed.

(** [replace] passes over a text without the word. *)
Lemma replace_skip n old new W yn x y :
  overlap_free n 1 old W yn = true ->
  old <> [] ->
  Py.contains W x = false ->
  take n y = yn ->
  Py.replace old new (x ++ y) = x ++ Py.replace old new y.
Proof.
  intros Hfree Hold Hx Hy. induction x as [|c x IH]; [reflexivity|].
  cbn [app]. rewrite replace_miss.
  - rewrite IH by (apply (contains_tail _ c); exact Hx). reflexivity.
  - apply (startswith_free n 1 old W yn (c :: x) y);
      [exact Hfree|simpl; lia| |exact Hx|exact Hy].
    destruct old; [congruence|simpl; lia].
Qed.

(** ** The parenthetical rewriting *)

Lemma plain_tail c t : plain (c :: t) -> plain t.
Proof.
  intros (H1 & H2 & H3 & H4 & H5).
  apply not_elem_of_cons in H1 as [_ H1].
  apply not_elem_of_cons in H2 as [_ H2].
  repeat split; try assumption; eapply contains_tail; eassumption.
Qed.

Lemma plain_nil : plain [].
Proof. repeat split; try apply not_elem_of_nil. Qed.

(** What a piece starts with. *)
Lemma hd_pieces (h : group -> str -> str) (P : ascii -> Prop) gs :
  (forall g t, exists c w, h g t = c :: w /\ P c) ->
  pieces h gs = [] \/ exists c w, pieces h gs = c :: w /\ P c.
Proof.
  intros Hh. destruct gs as [|[g t] r]; [left; reflexivity|].
  right. destruct (Hh g t) as (c & w & E & Hc).
  exists c, (w ++ pieces h r). simpl. rewrite E. split; [reflexivity|exact Hc].
Qed.

Lemma hd_text_pieces (h : group -> str -> str) a t gs :
  (forall g t, exists c w, h g t = c :: w /\ c <> a) ->
  hd_error t <> Some a ->
  hd_error (t ++ pieces h gs) <> Some a.
Proof.
  intros Hh Ht. destruct t as [|x t]; [|exact Ht].
  destruct (hd_pieces h (fun c => c <> a) gs Hh) as [->|(c & w & -> & Hc)];
    simpl; congruence.
Qed.

Lemma hd_notin {A} (a : A) t : a ∉ t -> hd_error t <> Some a.
Proof.
  destruct t as [|x t]; [discriminate|].
  intros H [= ->]. apply H. left.
Qed.

Ltac literal := apply notin_forallb; reflexivity.

Ltac notin :=
  repeat match goal with
  | |- _ ∉ _ ++ _ => apply not_elem_of_app; split
  | |- _ ∉ _ => assumption
  | |- _ ∉ _ => literal
  end.

Local Abbreviation OPEN := (lit "<span class=parenthetical>(").
Local Abbreviation CLOSE := (lit ")</span>").
Local Abbreviation DO := DOUBLE_OPEN_PARENTHESES.
Local Abbreviation DC := DOUBLE_CLOSE_PARENTHESES.
Local Abbreviation MOVE := (lit "</span>.").

Ltac by_pieces gs :=
  let t0 := fresh "t0" in
  induction gs as [|[g t] r IH]; intros t0 H0 HF; cbn [pieces];
  [ rewrite !app_nil_r
  | apply Forall_cons in HF as [(Hs & Ht) HF];
    cbn [fst snd] in Hs, Ht;
    pose proof Ht as (Ht1 & Ht2 & Ht3 & Ht4 & Ht5);
    destruct g as [s|s]; cbn [group_text] in Hs;
    destruct Hs as (Hs1 & Hs2 & Hs3 & Hs4 & Hs5);
    cbn [written styled]; rewrite <- ?app_assoc ];
  destruct H0 as (H01 & H02 & H03 & H04 & H05).

Lemma written_hd op cl dop dcl a c1 o1 c2 o2 :
  op = c1 :: o1 -> dop = c2 :: o2 -> c1 <> a -> c2 <> a ->
  forall g t, exists c w, written op cl dop dcl g t = c :: w /\ c <> a.
Proof.
  intros -> -> H1 H2 [s|s] t; simpl; eexists _, _; (split; [reflexivity|]);
    assumption.
Qed.

(** Step 1: [html.replace('((', DOUBLE_OPEN_PARENTHESES)]. *)
Lemma replace_double_open gs : forall t0,
  plain t0 -> Forall plain_piece gs ->
  Py.replace (lit "((") DO
    (t0 ++ pieces (written (lit "(") (lit ")") (lit "((") (lit "))")) gs)
  = t0 ++ pieces (written (lit "(") (lit ")") DO (lit "))")) gs.
Proof.
  by_pieces gs.
  - apply (replace_free _ _ "("%char); [reflexivity|assumption].
  - rewrite (replace_head _ _ "("%char t0) by (reflexivity || assumption).
    change (lit "(" ++ s ++ lit ")" ++ t ++ ?w)
      with ("("%char :: s ++ lit ")" ++ t ++ w).
    change (lit "((") with ["("%char; "("%char].
    rewrite replace_lone.
    2:{ apply hd_app_neq; [assumption|]. simpl. congruence. }
    change ["("%char; "("%char] with (lit "((").
    rewrite (replace_head2 _ _ "("%char s (lit ")")); [|reflexivity|notin..].
    rewrite (IH t Ht HF). reflexivity.
  - rewrite (replace_head _ _ "("%char t0) by (reflexivity || assumption).
    rewrite replace_hit by discriminate.
    rewrite (replace_head2 _ _ "("%char s (lit "))")); [|reflexivity|notin..].
    rewrite (IH t Ht HF). reflexivity.
Qed.

(** Step 2: [html.replace('))', DOUBLE_CLOSE_PARENTHESES)]. *)
Lemma replace_double_close gs : forall t0,
  plain t0 -> Forall plain_piece gs ->
  Py.replace (lit "))") DC
    (t0 ++ pieces (written (lit "(") (lit ")") DO (lit "))")) gs)
  = t0 ++ pieces (written (lit "(") (lit ")") DO DC) gs.
Proof.
  by_pieces gs.
  - apply (replace_free _ _ ")"%char); [reflexivity|assumption].
  - rewrite (replace_head3 _ _ ")"%char t0 (lit "(") s);
      [|reflexivity|notin..].
    change (lit ")" ++ t ++ ?w) with (")"%char :: t ++ w).
    change (lit "))") with [")"%char; ")"%char].
    rewrite replace_lone.
    2:{ apply hd_text_pieces; [|apply hd_notin; assumption].
        eapply written_hd; [reflexivity|reflexivity|discriminate..]. }
    change [")"%char; ")"%char] with (lit "))").
    rewrite (IH t Ht HF). reflexivity.
  - rewrite (replace_head3 _ _ ")"%char t0 DO s); [|reflexivity|notin..].
    rewrite replace_hit by discriminate.
    rewrite (IH t Ht HF). reflexivity.
Qed.

(** Step 3: [html.replace('(', '<span class=parenthetical>(')]. *)
Lemma replace_open gs : forall t0,
  plain t0 -> Forall plain_piece gs ->
  Py.replace (lit "(") OPEN
    (t0 ++ pieces (written (lit "(") (lit ")") DO DC) gs)
  = t0 ++ pieces (written OPEN (lit ")") DO DC) gs.
Proof.
  by_pieces gs.
  - apply (replace_free _ _ "("%char); [reflexivity|assumption].
  - rewrite (replace_head _ _ "("%char t0) by (reflexivity || assumption).
    rewrite replace_hit by discriminate.
    rewrite (replace_head2 _ _ "("%char s (lit ")")); [|reflexivity|notin..].
    rewrite (IH t Ht HF). reflexivity.
  - rewrite (replace_head _ _ "("%char t0) by (reflexivity || assumption).
    rewrite (replace_head3 _ _ "("%char DO s DC); [|reflexivity|notin..].
    rewrite (IH t Ht HF). reflexivity.
Qed.

(** Step 4: [html.replace(')', ')</span>')]. *)
Lemma replace_close gs : forall t0,
  plain t0 -> Forall plain_piece gs ->
  Py.replace (lit ")") CLOSE
    (t0 ++ pieces (written OPEN (lit ")") DO DC) gs)
  = t0 ++ pieces (written OPEN CLOSE DO DC) gs.
Proof.
  by_pieces gs.
  - apply (replace_free _ _ ")"%char); [reflexivity|assumption].
  - rewrite (replace_head3 _ _ ")"%char t0 OPEN s); [|reflexivity|notin..].
    rewrite replace_hit by discriminate.
    rewrite (IH t Ht HF). reflexivity.
  - rewrite (replace_head _ _ ")"%char t0) by (reflexivity || assumption).
    rewrite (replace_head3 _ _ ")"%char DO s DC); [|reflexivity|notin..].
    rewrite (IH t Ht HF). reflexivity.
Qed.

(** Step 5: [html.replace('</span>.', '.</span>')]. *)

Lemma move_open new t0 rest :
  Py.contains MOVE t0 = false ->
  Py.replace MOVE new (t0 ++ OPEN ++ rest)
  = t0 ++ OPEN ++ Py.replace MOVE new rest.
Proof.
  intros H0.
  change (OPEN ++ ?w) with (lit "<span class=parenthetical>" ++ "("%char :: w).
  rewrite !app_assoc.
  rewrite (replace_sep MOVE new "("%char); [|literal|discriminate].
  rewrite replace_none; [reflexivity|].
  destruct (Py.contains MOVE (t0 ++ lit "<span class=parenthetical>")) eqn:E;
    [|reflexivity].
  apply (contains_app_last MOVE (lit "</span>") "."%char) in E;
    [congruence|reflexivity|literal].
Qed.

Lemma move_close new s rest :
  Py.contains MOVE s = false ->
  Py.replace MOVE new (s ++ CLOSE ++ rest)
  = s ++ lit ")" ++ Py.replace MOVE new (lit "</span>" ++ rest).
Proof.
  intros Hs.
  change (CLOSE ++ rest) with (")"%char :: lit "</span>" ++ rest).
  rewrite (replace_sep MOVE new ")"%char); [|literal|discriminate].
  rewrite (replace_none _ _ s Hs). reflexivity.
Qed.

Lemma move_keep new y :
  hd_error y <> Some "."%char ->
  Py.replace MOVE new (lit "</span>" ++ y)
  = lit "</span>" ++ Py.replace MOVE new y.
Proof.
  intros Hy.
  change (lit "</span>" ++ y) with ("<"%char :: lit "/span>" ++ y).
  rewrite replace_miss.
  - rewrite (replace_head _ _ "<"%char (lit "/span>"));
      [reflexivity|reflexivity|literal].
  - change (Py.startswith MOVE ("<"%char :: lit "/span>" ++ y))
      with (Py.startswith ["."%char] y).
    apply startswith_hd_neq. exact Hy.
Qed.

Lemma move_token_open new u w :
  Py.replace MOVE new (u ++ DO ++ w)
  = Py.replace MOVE new u ++ DO ++ Py.replace MOVE new w.
Proof.
  apply (replace_token MOVE new (lit "!!START_CANNOT_OCCUR_I_HOPE!!"));
    [literal|discriminate|reflexivity].
Qed.

Lemma move_token_close new u w :
  Py.replace MOVE new (u ++ DC ++ w)
  = Py.replace MOVE new u ++ DC ++ Py.replace MOVE new w.
Proof.
  apply (replace_token MOVE new (lit "!!END_CANNOT_OCCUR_I_HOPE!!"));
    [literal|discriminate|reflexivity].
Qed.

Lemma period_in_other t :
  hd_error t <> Some "."%char -> period_in t = lit "</span>" ++ t.
Proof.
  destruct t as [|c t]; [reflexivity|]. intros Hc.
  destruct c as [[] [] [] [] [] [] [] []];
    solve [reflexivity | exfalso; apply Hc; reflexivity].
Qed.

Lemma replace_move gs : forall t0,
  plain t0 -> Forall plain_piece gs ->
  Py.replace MOVE (lit ".</span>")
    (t0 ++ pieces (written OPEN CLOSE DO DC) gs)
  = t0 ++ pieces (styled DO DC) gs.
Proof.
  by_pieces gs.
  - apply replace_none. assumption.
  - rewrite move_open by assumption.
    rewrite move_close by assumption.
    destruct (decide (hd_error t = Some "."%char)) as [Hd|Hd].
    + destruct t as [|c t']; [discriminate|]. injection Hd as ->.
      change (lit "</span>" ++ ("."%char :: t') ++ ?w)
        with (MOVE ++ t' ++ w).
      rewrite replace_hit by discriminate.
      rewrite (IH t' (plain_tail _ _ Ht) HF).
      cbn [period_in]. rewrite <- !app_assoc. reflexivity.
    + rewrite move_keep.
      2:{ apply hd_text_pieces; [|assumption].
          eapply written_hd; [reflexivity|reflexivity|discriminate..]. }
      rewrite (IH t Ht HF), (period_in_other t Hd).
      rewrite <- !app_assoc. reflexivity.
  - rewrite move_token_open, move_token_close.
    rewrite (replace_none _ _ t0) by assumption.
    rewrite (replace_none _ _ s) by assumption.
    rewrite (IH t Ht HF). reflexivity.
Qed.

(** Steps 6 and 7: the placeholders are put back as parentheses. *)

Lemma period_in_split t :
  plain t ->
  exists pfx t', period_in t = pfx ++ t' /\ ("!"%char ∉ pfx) /\ plain t'.
Proof.
  intros Ht. destruct (decide (hd_error t = Some "."%char)) as [Hd|Hd].
  - destruct t as [|c t']; [discriminate|]. injection Hd as ->.
    exists (lit ".</span>"), t'. split; [reflexivity|].
    split; [literal|exact (plain_tail _ _ Ht)].
  - exists (lit "</span>"), t. split; [exact (period_in_other t Hd)|].
    split; [literal|exact Ht].
Qed.

(** A text without the word of a placeholder holds no placeholder. *)
Lemma no_word_no_open s :
  Py.contains START_WORD s = false -> Py.contains DO s = false.
Proof.
  intros Hs. destruct (Py.contains DO s) eqn:E; [|reflexivity].
  change DO with (lit "!!!" ++ START_WORD ++ lit "!!!") in E.
  apply contains_inner in E. congruence.
Qed.

Lemma no_word_no_close s :
  Py.contains END_WORD s = false -> Py.contains DC s = false.
Proof.
  intros Hs. destruct (Py.contains DC s) eqn:E; [|reflexivity].
  change DC with (lit "!!!" ++ END_WORD ++ lit "!!!") in E.
  apply contains_inner in E. congruence.
Qed.

(** No opening placeholder starts in the last three characters of a
    closing one, whatever the text behind it starts with. *)
Lemma no_open_astride pat t r o :
  pat = lit "START_CANNOT_OCCUR_I_HOPE!!!"
  \/ pat = lit "!START_CANNOT_OCCUR_I_HOPE!!!"
  \/ pat = lit "!!START_CANNOT_OCCUR_I_HOPE!!!" ->
  Py.contains START_WORD t = false ->
  Py.startswith pat (t ++ pieces (styled DO o) r) = false.
Proof.
  intros Hpat Ht.
  destruct r as [|[[s|s] t'] r]; cbn [pieces styled].
  - apply (startswith_free 3 0 pat START_WORD []);
      [|lia|lia|exact Ht|reflexivity].
    destruct Hpat as [->|[->| ->]]; vm_compute; reflexivity.
  - apply (startswith_free 3 0 pat START_WORD (lit "<sp"));
      [|lia|lia|exact Ht|reflexivity].
    destruct Hpat as [->|[->| ->]]; vm_compute; reflexivity.
  - apply (startswith_free 3 0 pat START_WORD (lit "!!!"));
      [|lia|lia|exact Ht|reflexivity].
    destruct Hpat as [->|[->| ->]]; vm_compute; reflexivity.
Qed.

(** The closing placeholder is left as it is by the sixth step. *)
Lemma open_after_close t r o :
  Py.contains START_WORD t = false ->
  Py.replace DO (lit "(") (DC ++ t ++ pieces (styled DO o) r)
  = DC ++ Py.replace DO (lit "(") (t ++ pieces (styled DO o) r).
Proof.
  intros Ht. set (y := t ++ pieces (styled DO o) r).
  change (DC ++ y)
    with ("!"%char :: "!"%char :: "!"%char ::
          lit "END_CANNOT_OCCUR_I_HOPE" ++
          "!"%char :: "!"%char :: "!"%char :: y).
  rewrite !replace_miss by reflexivity.
  rewrite (replace_head _ _ "!"%char (lit "END_CANNOT_OCCUR_I_HOPE"));
    [|reflexivity|literal].
  rewrite replace_miss
    by exact (no_open_astride _ t r o (or_introl eq_refl) Ht).
  rewrite replace_miss
    by exact (no_open_astride _ t r o (or_intror (or_introl eq_refl)) Ht).
  rewrite replace_miss
    by exact (no_open_astride _ t r o (or_intror (or_intror eq_refl)) Ht).
  reflexivity.
Qed.

(** Step 6: [html.replace(DOUBLE_OPEN_PARENTHESES, '(')]. *)
Lemma replace_back_open gs : forall t0,
  plain t0 -> Forall plain_piece gs ->
  Py.replace DO (lit "(") (t0 ++ pieces (styled DO DC) gs)
  = t0 ++ pieces (styled (lit "(") DC) gs.
Proof.
  by_pieces gs.
  - apply replace_none, no_word_no_open. assumption.
  - destruct (period_in_split t Ht) as (pfx & t' & E & Hp & Ht').
    rewrite E, <- !app_assoc.
    rewrite (replace_skip 3 DO _ START_WORD (lit "<sp") t0);
      [|vm_compute; reflexivity|discriminate|assumption|reflexivity].
    rewrite (replace_head _ _ "!"%char OPEN); [|reflexivity|literal].
    rewrite (replace_skip 1 DO _ START_WORD (lit ")") s);
      [|vm_compute; reflexivity|discriminate|assumption|reflexivity].
    rewrite (replace_head2 _ _ "!"%char (lit ")") pfx);
      [|reflexivity|literal|assumption].
    rewrite (IH t' Ht' HF). reflexivity.
  - rewrite (replace_skip 3 DO _ START_WORD (lit "!!!") t0);
      [|vm_compute; reflexivity|discriminate|assumption|reflexivity].
    rewrite replace_hit by discriminate.
    rewrite (replace_skip 3 DO _ START_WORD (lit "!!!") s);
      [|vm_compute; reflexivity|discriminate|assumption|reflexivity].
    rewrite open_after_close by assumption.
    rewrite (IH t Ht HF). reflexivity.
Qed.

(** Step 7: [html.replace(DOUBLE_CLOSE_PARENTHESES, ')')]. *)
Lemma replace_back_close gs : forall t0,
  plain t0 -> Forall plain_piece gs ->
  Py.replace DC (lit ")") (t0 ++ pieces (styled (lit "(") DC) gs)
  = t0 ++ pieces (styled (lit "(") (lit ")")) gs.
Proof.
  by_pieces gs.
  - apply replace_none, no_word_no_close. assumption.
  - destruct (period_in_split t Ht) as (pfx & t' & E & Hp & Ht').
    rewrite E, <- !app_assoc.
    rewrite (replace_skip 1 DC _ END_WORD (lit "<") t0);
      [|vm_compute; reflexivity|discriminate|assumption|reflexivity].
    rewrite (replace_head _ _ "!"%char OPEN); [|reflexivity|literal].
    rewrite (replace_skip 1 DC _ END_WORD (lit ")") s);
      [|vm_compute; reflexivity|discriminate|assumption|reflexivity].
    rewrite (replace_head2 _ _ "!"%char (lit ")") pfx);
      [|reflexivity|literal|assumption].
    rewrite (IH t' Ht' HF). reflexivity.
  - rewrite (replace_skip 1 DC _ END_WORD (lit "(") t0);
      [|vm_compute; reflexivity|discriminate|assumption|reflexivity].
    rewrite (replace_head _ _ "!"%char (lit "(")); [|reflexivity|literal].
    rewrite (replace_skip 3 DC _ END_WORD (lit "!!!") s);
      [|vm_compute; reflexivity|discriminate|assumption|reflexivity].
    rewrite replace_hit by discriminate.
    rewrite (IH t Ht HF). reflexivity.
Qed.

(** X21.  The seven replacements of [make_html_from_topics], run on
    their own.  In a text [t0 g1 t1 ... gn tn] whose groups [gi] are
    texts in single or double parentheses, where no text (in or between
    the groups) holds a parenthesis, [</span>.] or the word of a
    placeholder, they leave every [((text))] as the literal [(text)]
    without a span and wrap every [(text)] as
    [<span class=parenthetical>(text)</span>], except that a period that
    follows a single group at once is moved inside its span:
    [<span class=parenthetical>(text).</span>].  The texts may hold
    exclamation marks. *)
Theorem parenthetical_rewriting_groups (t0 : str) (gs : list (group * str)) :
  plain t0 -> Forall plain_piece gs ->
  parenthetical_rewriting (html_in t0 gs) = html_out t0 gs.
Proof.
  intros H0 HF. unfold parenthetical_rewriting, html_in, html_out.
  cbv zeta.
  rewrite replace_double_open, replace_double_close, replace_open,
    replace_close, replace_move, replace_back_open, replace_back_close
    by assumption.
  reflexivity.
Qed.

Lemma parenthetical_rewriting_groups_witness :
  parenthetical_rewriting (lit "Done! see ((a!)) and (b) or (c). End!")
  = lit "Done! see (a!) and <span class=parenthetical>(b)</span> or <span class=parenthetical>(c).</span> End!".
Proof.
  assert (Hp : forall s,
    forallb (fun x => negb (Ascii.eqb "(" x) && negb (Ascii.eqb ")" x)) s
    = true ->
    Py.contains (lit "</span>.") s = false ->
    Py.contains START_WORD s = false ->
    Py.contains END_WORD s = false -> plain s).
  { intros s Hs H3 H4 H5. repeat split; try assumption; apply notin_forallb;
      (eapply forallb_forall; intros x Hx);
      (eapply forallb_forall in Hs; [|exact Hx]);
      apply andb_true_iff in Hs as [H1 H2]; assumption. }
  apply (parenthetical_rewriting_groups (lit "Done! see ")
           [ (DParen (lit "a!"), lit " and ");
             (Paren (lit "b"), lit " or ");
             (Paren (lit "c"), lit ". End!") ]).
  - apply Hp; reflexivity.
  - repeat (apply Forall_cons_2 || apply Forall_nil_2);
      (split; apply Hp; reflexivity).
Defined.

(** The period: a single group with a period behind it is not wrapped as
    [<span ...>(text)</span>]; the fifth replacement moves the period
    inside the span, so the wrapped form does not occur in the result. *)
Remark period_moves_inside_span :
  parenthetical_rewriting (lit "(a).")
  = lit "<span class=parenthetical>(a).</span>"
  /\ Py.contains (lit "<span class=parenthetical>(a)</span>")
       (parenthetical_rewriting (lit "(a).")) = false.
Proof. split; vm_compute; reflexivity. Qed.

(** The condition on the texts is needed: the word of the opening
    placeholder between two double groups makes the sixth step take its
    match across the closing placeholder. *)
Remark placeholder_word_between_groups :
  parenthetical_rewriting (lit "((a))START_CANNOT_OCCUR_I_HOPE((b))")
  = lit "(a!!!END_CANNOT_OCCUR_I_HOPE(START_CANNOT_OCCUR_I_HOPE!!!b)".
Proof. vm_compute. reflexivity. Qed.

(** C7, where the code fails it: the rewriting is never reached.
    [make_html_from_topics] raises [KeyError] for every topics text,
    whatever the Markdown converter and the prettifier give: the call
    [ExamTopic.EVENING_EXAM_TEMPLATE.substitute()] two statements before
    the seven replacements has no value for the placeholder
    [RegularClassDay].  So for no input does the method return HTML in
    which a double group is left as [(text)] and a single group is
    wrapped, as the claim has it, though the seven replacements run on
    their own give just that on the text [see ((a)) and (b)]. *)
Theorem parenthetical_rewriting_never_reached `{Libraries} {St}
    (topics_for_session : str) (st : St) :
  let r := ScheduleMaker.make_html_from_topics topics_for_session st in
  r.1 = Raise (KeyError (lit "RegularClassDay"))
  /\ (forall html, r.1 <> Return html)
  /\ r.2 = st
  /\ parenthetical_rewriting (lit "see ((a)) and (b)")
     = lit "see (a) and <span class=parenthetical>(b)</span>".
Proof.
  assert (Hr : ScheduleMaker.make_html_from_topics topics_for_session st
               = (Raise (KeyError (lit "RegularClassDay")), st)).
  { unfold ScheduleMaker.make_html_from_topics. apply bind_raise.
    vm_compute. reflexivity. }
  cbv zeta. rewrite Hr. cbn [fst snd].
  split; [reflexivity|]. split; [discriminate|]. split; [reflexivity|].
  vm_compute. reflexivity.
Qed.

(** * Further properties *)

(** ** Lines and texts *)

Lemma join_split sep s : Py.join [sep] (Py.split sep s) = s.
Proof.
  induction s as [|c s IH]; [reflexivity|].
  pose proof (split_nonempty sep s) as Hne.
  simpl. destruct (decide (c = sep)) as [->|Hc].
  - destruct (Py.split sep s) as [|l ls] eqn:E; [congruence|].
    change (Py.join [sep] ([] :: l :: ls))
      with (sep :: Py.join [sep] (l :: ls)).
    rewrite IH. reflexivity.
  - destruct (Py.split sep s) as [|l ls] eqn:E; [congruence|].
    destruct ls as [|l' ls].
    + simpl in IH |- *. rewrite IH. reflexivity.
    + change (Py.join [sep] ((c :: l) :: l' :: ls))
        with (c :: Py.join [sep] (l :: l' :: ls)).
      rewrite IH. reflexivity.
Qed.

Lemma contains_app_l p u v :
  Py.contains p u = true -> Py.contains p (u ++ v) = true.
Proof.
  rewrite !contains_spec. intros (a & b & ->).
  exists a, (b ++ v). rewrite <- !app_assoc. reflexivity.
Qed.

Lemma contains_app_r p u v :
  Py.contains p v = true -> Py.contains p (u ++ v) = true.
Proof.
  rewrite !contains_spec. intros (a & b & ->).
  exists (u ++ a), b. rewrite <- !app_assoc. reflexivity.
Qed.

Lemma contains_join_elem p sep ls l :
  l ∈ ls -> Py.contains p l = true -> Py.contains p (Py.join sep ls) = true.
Proof.
  intros Hin Hl. induction ls as [|l1 rest IH]; [inversion Hin|].
  destruct rest as [|l2 rest].
  - apply list_elem_of_singleton in Hin as ->. exact Hl.
  - change (Py.join sep (l1 :: l2 :: rest))
      with (l1 ++ sep ++ Py.join sep (l2 :: rest)).
    apply elem_of_cons in Hin as [->|Hin].
    + apply contains_app_l. exact Hl.
    + apply contains_app_r, contains_app_r. apply IH. exact Hin.
Qed.

(** A text that does not hold [p] has no line that holds it. *)
Lemma contains_lines p sep s :
  Py.contains p s = false ->
  Forall (fun l => Py.contains p l = false) (Py.split sep s).
Proof.
  intros Hs. apply Forall_forall. intros l Hin.
  destruct (Py.contains p l) eqn:Hl; [|reflexivity].
  apply (contains_join_elem p [sep] _ _ Hin) in Hl.
  rewrite join_split in Hl. congruence.
Qed.

(** Lines that do not hold [p], joined by a character that is not in
    [p], do not hold it. *)
Lemma contains_join_none p sep ls :
  p <> [] -> sep ∉ p ->
  Forall (fun l => Py.contains p l = false) ls ->
  Py.contains p (Py.join [sep] ls) = false.
Proof.
  intros Hp Hsep Hls. induction Hls as [|l rest Hl Hrest IH].
  - destruct p; [congruence|reflexivity].
  - destruct rest as [|l2 rest]; [exact Hl|].
    change (Py.join [sep] (l :: l2 :: rest))
      with (l ++ sep :: Py.join [sep] (l2 :: rest)).
    destruct (Py.contains p (l ++ sep :: Py.join [sep] (l2 :: rest))) eqn:E;
      [|reflexivity].
    apply contains_app_char in E; [|exact Hsep].
    destruct E as [E|E]; congruence.
Qed.

Lemma filter_all {A} (P : A -> Prop) `{!forall x, Decision (P x)} (l : list A) :
  Forall P l -> filter P l = l.
Proof.
  induction 1 as [|x l Hx Hl IH]; [reflexivity|].
  rewrite filter_cons_True by exact Hx. rewrite IH. reflexivity.
Qed.

(** ** The comment stripper, further *)

(** Where no line holds the begin indicator the loop is a filter. *)
Lemma strip_comments_loop_filter lines :
  Forall (fun l => Py.contains COMMENT_BEGIN_INDICATOR l = false) lines ->
  strip_comments_loop false [] lines
  = filter (fun l => Py.contains COMMENT_INDICATOR l = false) lines.
Proof.
  induction 1 as [|line rest Hline Hrest IH]; [reflexivity|].
  simpl. rewrite Hline.
  destruct (Py.contains COMMENT_INDICATOR line) eqn:Hc; simpl.
  - rewrite filter_cons_False by (rewrite Hc; discriminate). exact IH.
  - rewrite filter_cons_True by exact Hc.
    rewrite strip_comments_loop_acc, IH. reflexivity.
Qed.

(** Inside a block that no line ends, every line is dropped. *)
Lemma strip_comments_loop_inside lines :
  Forall (fun l => re_match_COMMEND_END l = false) lines ->
  strip_comments_loop true [] lines = [].
Proof.
  induction 1 as [|line rest Hline Hrest IH]; [reflexivity|].
  simpl. rewrite Hline. exact IH.
Qed.

Lemma strip_comments_loop_app lines1 : forall lines2,
  Forall (fun l => Py.contains COMMENT_BEGIN_INDICATOR l = false) lines1 ->
  strip_comments_loop false [] (lines1 ++ lines2)
  = filter (fun l => Py.contains COMMENT_INDICATOR l = false) lines1
    ++ strip_comments_loop false [] lines2.
Proof.
  intros lines2. induction 1 as [|line rest Hline Hrest IH]; [reflexivity|].
  simpl. rewrite Hline.
  destruct (Py.contains COMMENT_INDICATOR line) eqn:Hc; simpl.
  - rewrite filter_cons_False by (rewrite Hc; discriminate). exact IH.
  - rewrite filter_cons_True by exact Hc.
    rewrite strip_comments_loop_acc, IH. reflexivity.
Qed.

(** X1.  The text that [strip_comments] returns holds no [!!!], whatever
    the input. *)
Theorem strip_comments_leaves_no_indicator (raw_data : str) :
  Py.contains COMMENT_INDICATOR (strip_comments raw_data) = false.
Proof.
  unfold strip_comments. apply contains_join_none.
  - discriminate.
  - literal.
  - eapply Forall_impl; [apply strip_comments_loop_kept|].
    intros l [_ Hl]. exact Hl.
Qed.

(** X2.  On a text that does not hold the begin indicator as the code
    looks for it (the text [^!!! BEGIN COMMENT], caret included),
    [strip_comments] is the filter that drops the lines holding [!!!] and
    keeps the others in their order; a text without [!!!] comes back as
    it is. *)
Theorem strip_comments_is_line_filter (raw_data : str) :
  Py.contains COMMENT_BEGIN_INDICATOR raw_data = false ->
  strip_comments raw_data
  = Py.join [NEWLINE]
      (filter (fun l => Py.contains COMMENT_INDICATOR l = false)
         (Py.split NEWLINE raw_data))
  /\ (Py.contains COMMENT_INDICATOR raw_data = false ->
      strip_comments raw_data = raw_data).
Proof.
  intros Hb. unfold strip_comments.
  rewrite strip_comments_loop_filter by (apply contains_lines; exact Hb).
  split; [reflexivity|]. intros Hc.
  rewrite filter_all by (apply contains_lines; exact Hc).
  apply join_split.
Qed.

Lemma strip_comments_is_line_filter_witness :
  Py.contains COMMENT_BEGIN_INDICATOR
    (Py.join [NEWLINE] [lit "a"; lit "!!! note"; lit "b"]) = false
  /\ strip_comments (Py.join [NEWLINE] [lit "a"; lit "!!! note"; lit "b"])
     = Py.join [NEWLINE] [lit "a"; lit "b"].
Proof.
  split; [reflexivity|].
  exact (proj1 (strip_comments_is_line_filter
                  (Py.join [NEWLINE] [lit "a"; lit "!!! note"; lit "b"])
                  eq_refl)).
Defined.

Lemma lines_of_join ls :
  ls <> [] -> Forall (fun l => NEWLINE ∉ l) ls ->
  strip_comments (Py.join [NEWLINE] ls)
  = Py.join [NEWLINE] (strip_comments_loop false [] ls).
Proof.
  intros Hne Hall. unfold strip_comments.
  rewrite split_join by assumption. reflexivity.
Qed.

(** X3.  A block as the code has it.  In a text given by its lines, let
    a line hold the begin indicator [^!!! BEGIN COMMENT] (caret
    included) after lines that do not hold it, and let the first line
    after it that starts with [!!! END COMMENT] be followed by lines
    that do not hold the begin indicator.  Then [strip_comments] drops
    the two marker lines and all lines between them, whatever they hold,
    and filters the lines before and after the block: those that hold
    [!!!] are dropped, the others are kept in their order. *)
Theorem strip_comments_drops_block
    (before : list str) (opener : str) (inside : list str) (closer : str)
    (after : list str) :
  Forall (fun l => NEWLINE ∉ l)
    (before ++ opener :: inside ++ closer :: after) ->
  Forall (fun l => Py.contains COMMENT_BEGIN_INDICATOR l = false) before ->
  Py.contains COMMENT_BEGIN_INDICATOR opener = true ->
  Forall (fun l => re_match_COMMEND_END l = false) inside ->
  re_match_COMMEND_END closer = true ->
  Forall (fun l => Py.contains COMMENT_BEGIN_INDICATOR l = false) after ->
  strip_comments
    (Py.join [NEWLINE] (before ++ opener :: inside ++ closer :: after))
  = Py.join [NEWLINE]
      (filter (fun l => Py.contains COMMENT_INDICATOR l = false)
         (before ++ after)).
Proof.
  intros Hnl Hbefore Hopen Hinside Hclose Hafter.
  rewrite lines_of_join; [|destruct before; discriminate|exact Hnl].
  f_equal. rewrite strip_comments_loop_app by exact Hbefore.
  rewrite filter_app. f_equal.
  simpl. rewrite Hopen. clear Hnl Hbefore Hopen.
  induction Hinside as [|line rest Hline Hrest IH]; simpl.
  - rewrite Hclose. apply strip_comments_loop_filter. exact Hafter.
  - rewrite Hline. exact IH.
Qed.

Lemma strip_comments_drops_block_witness :
  strip_comments
    (Py.join [NEWLINE]
       ([lit "a"; lit "!!! x"]
        ++ lit "^!!! BEGIN COMMENT" :: [lit "b"; lit "!!! BEGIN COMMENT"]
        ++ lit "!!! END COMMENT" :: [lit "c"; lit "d !!!"; lit "e"]))
  = Py.join [NEWLINE] [lit "a"; lit "c"; lit "e"].
Proof.
  apply (strip_comments_drops_block
           [lit "a"; lit "!!! x"] (lit "^!!! BEGIN COMMENT")
           [lit "b"; lit "!!! BEGIN COMMENT"] (lit "!!! END COMMENT")
           [lit "c"; lit "d !!!"; lit "e"]).
  - simpl. repeat (apply Forall_cons_2 || apply Forall_nil_2); literal.
  - repeat (apply Forall_cons_2 || apply Forall_nil_2); reflexivity.
  - reflexivity.
  - repeat (apply Forall_cons_2 || apply Forall_nil_2); reflexivity.
  - reflexivity.
  - repeat (apply Forall_cons_2 || apply Forall_nil_2); reflexivity.
Defined.

(** X4.  A block that no line ends swallows the rest of the text: when
    no line after the line that holds the begin indicator starts with
    [!!! END COMMENT], [strip_comments] returns the filtered lines before
    that line and nothing of what follows, and raises nothing. *)
Theorem strip_comments_unterminated_block
    (before : list str) (opener : str) (inside : list str) :
  Forall (fun l => NEWLINE ∉ l) (before ++ opener :: inside) ->
  Forall (fun l => Py.contains COMMENT_BEGIN_INDICATOR l = false) before ->
  Py.contains COMMENT_BEGIN_INDICATOR opener = true ->
  Forall (fun l => re_match_COMMEND_END l = false) inside ->
  strip_comments (Py.join [NEWLINE] (before ++ opener :: inside))
  = Py.join [NEWLINE]
      (filter (fun l => Py.contains COMMENT_INDICATOR l = false) before).
Proof.
  intros Hnl Hbefore Hopen Hinside.
  rewrite lines_of_join; [|destruct before; discriminate|exact Hnl].
  f_equal. rewrite strip_comments_loop_app by exact Hbefore.
  simpl. rewrite Hopen.
  rewrite strip_comments_loop_inside by exact Hinside.
  apply app_nil_r.
Qed.

Lemma strip_comments_unterminated_block_witness :
  strip_comments
    (Py.join [NEWLINE]
       ([lit "a"] ++ lit "x ^!!! BEGIN COMMENT" ::
        [lit "Session 1: Loops"; lit " !!! END COMMENT"; lit "b"]))
  = lit "a".
Proof.
  apply (strip_comments_unterminated_block
           [lit "a"] (lit "x ^!!! BEGIN COMMENT")
           [lit "Session 1: Loops"; lit " !!! END COMMENT"; lit "b"]).
  - simpl. repeat (apply Forall_cons_2 || apply Forall_nil_2); literal.
  - repeat (apply Forall_cons_2 || apply Forall_nil_2); reflexivity.
  - reflexivity.
  - repeat (apply Forall_cons_2 || apply Forall_nil_2); reflexivity.
Defined.

(** ** The session splitter, further *)

Lemma drop_while_split (p : ascii -> bool) s :
  exists pre, s = pre ++ drop_while p s /\ Forall (fun c => p c = true) pre.
Proof.
  induction s as [|c s (pre & E & Hpre)]; simpl.
  - exists []. split; [reflexivity|constructor].
  - destruct (p c) eqn:Hc.
    + exists (c :: pre). split; [simpl; f_equal; exact E|].
      constructor; assumption.
    + exists []. split; [reflexivity|constructor].
Qed.

Lemma drop_while_app (p : ascii -> bool) pre s :
  Forall (fun c => p c = true) pre ->
  drop_while p (pre ++ s) = drop_while p s.
Proof.
  induction 1 as [|c pre Hc Hpre IH]; [reflexivity|].
  simpl. rewrite Hc. exact IH.
Qed.

Lemma startswith_drop p s :
  Py.startswith p s = true -> s = p ++ drop (length p) s.
Proof.
  intros Hp. apply startswith_spec in Hp as (r & ->).
  rewrite drop_app_length. reflexivity.
Qed.

(** The marker at the head of a text: the word, spaces, digits, a colon. *)
Lemma match_Session_marker_spec s rest :
  match_Session_marker s = Some rest
  <-> exists spaces digits,
        s = lit "Session" ++ spaces ++ digits ++ COLON :: rest
        /\ Forall (fun c => c = SPACE) spaces
        /\ Forall (fun c => Template.is_digit c = true) digits.
Proof.
  unfold match_Session_marker. split.
  - destruct (Py.startswith (lit "Session") s) eqn:Hs; [|discriminate].
    apply startswith_drop in Hs.
    change (length (lit "Session")) with 7%nat in Hs.
    destruct (drop_while_split (fun c => bool_decide (c = SPACE)) (drop 7 s))
      as (spaces & E1 & H1).
    destruct (drop_while_split Template.is_digit
                (drop_while (fun c => bool_decide (c = SPACE)) (drop 7 s)))
      as (digits & E2 & H2).
    destruct (drop_while Template.is_digit _) as [|c r] eqn:E3; [discriminate|].
    destruct (decide (c = COLON)) as [->|]; [|discriminate].
    intros [= ->]. exists spaces, digits. split; [|split].
    + rewrite Hs at 1. f_equal. rewrite E1 at 1. f_equal. exact E2.
    + eapply Forall_impl; [exact H1|]. intros c Hc.
      apply bool_decide_eq_true in Hc. exact Hc.
    + exact H2.
  - intros (spaces & digits & -> & H1 & H2).
    change (Py.startswith (lit "Session")
              (lit "Session" ++ spaces ++ digits ++ COLON :: rest))
      with (Py.startswith [] (spaces ++ digits ++ COLON :: rest)).
    replace (Py.startswith [] (spaces ++ digits ++ COLON :: rest)) with true
      by (destruct (spaces ++ digits ++ COLON :: rest); reflexivity).
    change (drop 7 (lit "Session" ++ spaces ++ digits ++ COLON :: rest))
      with (spaces ++ digits ++ COLON :: rest).
    rewrite drop_while_app
      by (eapply Forall_impl; [exact H1|];
          intros c ->; apply bool_decide_eq_true; reflexivity).
    assert (Hd : drop_while (fun c => bool_decide (c = SPACE))
                   (digits ++ COLON :: rest) = digits ++ COLON :: rest).
    { destruct H2 as [|d digits Hd H2]; [reflexivity|].
      simpl. rewrite bool_decide_eq_false_2; [reflexivity|].
      intros ->. discriminate Hd. }
    rewrite Hd, drop_while_app by exact H2.
    reflexivity.
Qed.

Lemma match_SESSION_INDICATOR_suffix u : forall v,
  is_Some (match_SESSION_INDICATOR v) ->
  is_Some (match_SESSION_INDICATOR (u ++ v)).
Proof.
  induction u as [|c u IH]; intros v Hv; [exact Hv|].
  simpl. destruct (IH v Hv) as [r ->]. eexists. reflexivity.
Qed.

Lemma match_SESSION_INDICATOR_found line rest :
  match_SESSION_INDICATOR line = Some rest ->
  exists u v, line = u ++ v /\ match_Session_marker v = Some rest.
Proof.
  revert rest. induction line as [|c line IH]; intros rest; simpl.
  - intros H. exists [], []. split; [reflexivity|exact H].
  - destruct (match_SESSION_INDICATOR line) as [r|] eqn:E.
    + intros [= ->]. destruct (IH rest eq_refl) as (u & v & -> & Hv).
      exists (c :: u), v. split; [reflexivity|exact Hv].
    + intros H. exists [], (c :: line). split; [reflexivity|exact H].
Qed.

Lemma match_SESSION_INDICATOR_head v :
  is_Some (match_Session_marker v) -> is_Some (match_SESSION_INDICATOR v).
Proof.
  intros Hv. destruct v as [|c v]; [exact Hv|].
  simpl. destruct (match_SESSION_INDICATOR v); [eexists; reflexivity|exact Hv].
Qed.

Lemma re_split_loop_length lines : forall current,
  length (re_split_loop current lines)
  = S (length (filter (fun l => is_Some (match_SESSION_INDICATOR l)) lines)).
Proof.
  induction lines as [|line rest IH]; intros current; [reflexivity|].
  cbn [re_split_loop].
  destruct rest as [|line2 rest].
  - destruct (match_SESSION_INDICATOR line) eqn:E.
    + rewrite filter_cons_True by (rewrite E; eexists; reflexivity).
      reflexivity.
    + rewrite filter_cons_False
        by (rewrite E; intros [? ?]; discriminate).
      reflexivity.
  - destruct (match_SESSION_INDICATOR line) eqn:E.
    + rewrite filter_cons_True by (rewrite E; eexists; reflexivity).
      cbn [length]. rewrite IH. reflexivity.
    + rewrite filter_cons_False
        by (rewrite E; intros [? ?]; discriminate).
      apply IH.
Qed.

(** X5.  The text has as many session chunks as its lines, comments
    stripped, that hold a session marker; and a line holds a marker
    exactly when it has, somewhere, the word [Session], then any number
    of spaces, then any number of digits, then a colon. *)
Theorem session_chunks_count (raw_data : str) :
  length (session_chunks raw_data)
  = length (filter (fun l => is_Some (match_SESSION_INDICATOR l))
              (Py.split NEWLINE (strip_comments raw_data)))
  /\ forall line,
       is_Some (match_SESSION_INDICATOR line)
       <-> exists before spaces digits rest,
             line = before ++ lit "Session" ++ spaces ++ digits
                           ++ COLON :: rest
             /\ Forall (fun c => c = SPACE) spaces
             /\ Forall (fun c => Template.is_digit c = true) digits.
Proof.
  split.
  - unfold session_chunks, re_split_SESSION_INDICATOR.
    rewrite length_drop, re_split_loop_length. simpl. lia.
  - intros line. split.
    + intros [rest Hrest].
      apply match_SESSION_INDICATOR_found in Hrest as (u & v & -> & Hv).
      apply match_Session_marker_spec in Hv as (sp & dg & -> & H1 & H2).
      exists u, sp, dg, rest. auto.
    + intros (u & sp & dg & rest & -> & H1 & H2).
      apply match_SESSION_INDICATOR_suffix, match_SESSION_INDICATOR_head.
      exists rest. apply match_Session_marker_spec. exists sp, dg. auto.
Qed.

(** X6.  The title of a chunk is its first line, the topics are the
    rest: the title holds no newline, and the chunk is the title alone
    (with empty topics) when it holds no newline, and otherwise the
    title, a newline and the topics. *)
Theorem chunk_title_and_topics (chunk : str) :
  (NEWLINE ∉ chunk_title chunk)
  /\ (((NEWLINE ∉ chunk)
       /\ chunk_title chunk = chunk /\ chunk_topics chunk = [])
      \/ ((NEWLINE ∈ chunk)
          /\ chunk = chunk_title chunk ++ NEWLINE :: chunk_topics chunk)).
Proof.
  unfold chunk_title, chunk_topics.
  pose proof (split_nonempty NEWLINE chunk) as Hne.
  pose proof (split_no_sep NEWLINE chunk) as Hall.
  pose proof (join_split NEWLINE chunk) as Hjoin.
  destruct (Py.split NEWLINE chunk) as [|title rest]; [congruence|].
  apply Forall_cons in Hall as [Htitle Hrest]. simpl.
  split; [exact Htitle|].
  destruct rest as [|l rest].
  - left. simpl in Hjoin. subst chunk. auto.
  - right.
    change (Py.join [NEWLINE] (title :: l :: rest))
      with (title ++ NEWLINE :: Py.join [NEWLINE] (l :: rest)) in Hjoin.
    split; [|symmetry; exact Hjoin].
    rewrite <- Hjoin. apply elem_of_app. right. left.
Qed.

(** X7.  With as many chunks as the term has sessions,
    [split_into_sessions] returns and leaves one session per chunk, in
    the order of the chunks: a [ClassSession] with the chunk's title and
    topics, without date, number, type, message and html; the list
    [topics_by_session] holds the topics of the chunks, and the files
    are as they were. *)
Theorem split_into_sessions_makes_sessions
    (w : ScheduleMaker.World) (raw_data : str) :
  ScheduleMaker.raw_data (ScheduleMaker.self w) = Some raw_data ->
  Z.of_nat (length (session_chunks raw_data))
  = TermInfo.number_of_sessions
      (ScheduleMaker.term_info (ScheduleMaker.self w)) ->
  let r := ScheduleMaker.split_into_sessions w in
  r.1 = Return tt
  /\ ScheduleMaker.files r.2 = ScheduleMaker.files w
  /\ ScheduleMaker.topics_by_session (ScheduleMaker.self r.2)
     = Some (map chunk_topics (session_chunks raw_data))
  /\ exists sessions,
       ScheduleMaker.sessions (ScheduleMaker.self r.2) = Some sessions
       /\ length sessions = length (session_chunks raw_data)
       /\ Forall fresh sessions
       /\ forall k chunk,
            session_chunks raw_data !! k = Some chunk ->
            exists s,
              sessions !! k = Some s
              /\ Session.class s = IsClassSession
              /\ Session.title s = Some (chunk_title chunk)
              /\ Session.topics s = Some (chunk_topics chunk)
              /\ Session.datetime_date s = None
              /\ Session.session_number s = None
              /\ Session.session_type s = None
              /\ Session.message s = None
              /\ Session.html s = None.
Proof.
  intros Hraw Hcount r. subst r.
  rewrite (split_into_sessions_run w raw_data Hraw).
  rewrite bool_decide_true by exact Hcount. cbn [fst snd].
  split; [reflexivity|]. split; [reflexivity|]. split; [reflexivity|].
  exists (map chunk_session (session_chunks raw_data)).
  split; [reflexivity|]. split; [apply length_map|]. split.
  - apply Forall_forall. intros s Hs.
    apply list_elem_of_fmap in Hs as (c & -> & _).
    repeat split.
  - intros k chunk Hk. exists (chunk_session chunk). split.
    + rewrite list_lookup_fmap, Hk. reflexivity.
    + repeat split.
Qed.

Lemma split_into_sessions_makes_sessions_witness :
  let raw :=
    Py.join [NEWLINE]
      [lit "Title"; lit "Session 1: Loops"; lit "- for"; lit "!!! todo";
       lit "Session 2: Lists"] in
  let r := ScheduleMaker.split_into_sessions (maker_with raw 2) in
  r.1 = Return tt
  /\ exists sessions,
       ScheduleMaker.sessions (ScheduleMaker.self r.2) = Some sessions
       /\ length sessions = 2%nat.
Proof.
  intros raw.
  destruct (split_into_sessions_makes_sessions (maker_with raw 2) raw
              eq_refl eq_refl) as (H1 & _ & _ & ss & H2 & H3 & _).
  split; [exact H1|]. exists ss. split; [exact H2|exact H3].
Defined.

(** ** The file by its lines *)

Lemma match_SESSION_INDICATOR_skip u v :
  Forall (fun c => c <> "S"%char) u ->
  match_SESSION_INDICATOR (u ++ v) = match_SESSION_INDICATOR v.
Proof.
  induction 1 as [|c u Hc Hu IH]; [reflexivity|].
  cbn [app match_SESSION_INDICATOR]. rewrite IH.
  destruct (match_SESSION_INDICATOR v); [reflexivity|].
  unfold match_Session_marker.
  change (Py.startswith (lit "Session") (c :: u ++ v))
    with (if decide ("S"%char = c)
          then Py.startswith (lit "ession") (u ++ v) else false).
  rewrite decide_False by congruence. reflexivity.
Qed.

(** On a marker line whose title holds no marker, the match ends at the
    marker of the head. *)
Lemma marker_line_title h title :
  marker_head h ->
  match_SESSION_INDICATOR title = None ->
  match_SESSION_INDICATOR (h ++ title) = Some title.
Proof.
  intros (before & sp & dg & -> & Hsp & Hdg) Htitle.
  assert (Hm : match_Session_marker
                 (lit "Session" ++ sp ++ dg ++ COLON :: title) = Some title).
  { apply match_Session_marker_spec. exists sp, dg. auto. }
  assert (Hin : match_SESSION_INDICATOR
                  (lit "ession" ++ sp ++ dg ++ COLON :: title) = None).
  { replace (lit "ession" ++ sp ++ dg ++ COLON :: title)
      with ((lit "ession" ++ sp ++ dg ++ [COLON]) ++ title)
      by (rewrite <- !app_assoc; reflexivity).
    rewrite match_SESSION_INDICATOR_skip; [exact Htitle|].
    repeat (apply Forall_app; split).
    - repeat (apply Forall_cons_2 || apply Forall_nil_2); discriminate.
    - eapply Forall_impl; [exact Hsp|]. intros c ->. discriminate.
    - eapply Forall_impl; [exact Hdg|]. intros c Hc ->. discriminate.
    - repeat (apply Forall_cons_2 || apply Forall_nil_2); discriminate. }
  replace ((before ++ lit "Session" ++ sp ++ dg ++ [COLON]) ++ title)
    with (before ++ lit "Session" ++ sp ++ dg ++ COLON :: title)
    by (rewrite <- !app_assoc; reflexivity).
  induction before as [|c before IH].
  - change ([] ++ lit "Session" ++ sp ++ dg ++ COLON :: title)
      with ("S"%char :: lit "ession" ++ sp ++ dg ++ COLON :: title).
    cbn [match_SESSION_INDICATOR]. rewrite Hin. exact Hm.
  - cbn [app match_SESSION_INDICATOR]. rewrite IH. reflexivity.
Qed.

Lemma re_split_loop_text P : forall current L,
  Forall (fun l => match_SESSION_INDICATOR l = None) P ->
  L <> [] ->
  re_split_loop current (P ++ L)
  = re_split_loop (current ++ concat ((fun l => l ++ [NEWLINE]) <$> P)) L.
Proof.
  induction P as [|l P IH]; intros current L HP HL.
  - simpl. rewrite app_nil_r. reflexivity.
  - apply Forall_cons in HP as [Hl HP].
    cbn [app re_split_loop]. rewrite Hl.
    destruct (P ++ L) as [|x r] eqn:E.
    + apply app_eq_nil in E as [_ ->]. congruence.
    + rewrite <- E, IH by assumption.
      rewrite fmap_cons. cbn [concat]. rewrite <- !app_assoc. reflexivity.
Qed.

Lemma re_split_loop_text_end P : forall current,
  Forall (fun l => match_SESSION_INDICATOR l = None) P ->
  P <> [] ->
  re_split_loop current P = [current ++ Py.join [NEWLINE] P].
Proof.
  induction P as [|l P IH]; intros current HP Hne; [congruence|].
  apply Forall_cons in HP as [Hl HP].
  cbn [re_split_loop]. rewrite Hl.
  destruct P as [|l2 P]; [reflexivity|].
  rewrite IH by (assumption || discriminate).
  change (Py.join [NEWLINE] (l :: l2 :: P))
    with (l ++ [NEWLINE] ++ Py.join [NEWLINE] (l2 :: P)).
  rewrite <- !app_assoc. reflexivity.
Qed.

Lemma join_newline_concat l ls :
  Py.join [NEWLINE] (l :: ls) ++ [NEWLINE]
  = concat ((fun l => l ++ [NEWLINE]) <$> (l :: ls)).
Proof.
  revert l. induction ls as [|l2 ls IH]; intros l.
  - simpl. rewrite app_nil_r. reflexivity.
  - change (Py.join [NEWLINE] (l :: l2 :: ls))
      with (l ++ [NEWLINE] ++ Py.join [NEWLINE] (l2 :: ls)).
    rewrite <- !app_assoc, IH. rewrite !fmap_cons. cbn [concat].
    rewrite <- !app_assoc. reflexivity.
Qed.

Lemma text_lines_no_marker ls :
  Forall text_line ls ->
  Forall (fun l => match_SESSION_INDICATOR l = None) ls.
Proof.
  intros H. eapply Forall_impl; [exact H|]. intros l (_ & _ & Hl). exact Hl.
Qed.

Lemma re_split_loop_blocks blocks : forall current,
  blocks <> [] ->
  Forall well_formed blocks ->
  re_split_loop current (concat (block_lines <$> blocks))
  = current :: chunks_of blocks.
Proof.
  induction blocks as [|b rest IH]; intros current Hne Hwf; [congruence|].
  apply Forall_cons in Hwf as [(Hhead & _ & _ & (_ & _ & Htitle) & Htopics)
                                 Hwf].
  apply text_lines_no_marker in Htopics.
  rewrite fmap_cons. cbn [concat chunks_of]. unfold block_lines at 1.
  cbn [app re_split_loop].
  rewrite (marker_line_title _ _ Hhead Htitle).
  destruct rest as [|b2 rest].
  - simpl. rewrite !app_nil_r.
    destruct (block_topics b) as [|t ts] eqn:Et; [reflexivity|].
    rewrite re_split_loop_text_end by (assumption || discriminate).
    rewrite <- app_assoc. reflexivity.
  - assert (HL : concat (block_lines <$> b2 :: rest) <> [])
      by (rewrite fmap_cons; discriminate).
    destruct (block_topics b ++ concat (block_lines <$> b2 :: rest))
      as [|x r] eqn:E.
    + apply app_eq_nil in E as [_ E]. congruence.
    + rewrite <- E. rewrite re_split_loop_text by assumption.
      rewrite IH by (assumption || discriminate).
      rewrite join_newline_concat, fmap_cons. cbn [concat].
      rewrite <- !app_assoc. reflexivity.
Qed.

Lemma chunk_title_head title rest :
  NEWLINE ∉ title ->
  chunk_title title = title
  /\ chunk_title (title ++ NEWLINE :: rest) = title.
Proof.
  intros Hn. unfold chunk_title.
  rewrite split_no_sep_single, split_app_no_sep by exact Hn.
  split; reflexivity.
Qed.

Lemma chunk_titles blocks :
  Forall well_formed blocks ->
  chunk_title <$> chunks_of blocks = block_title <$> blocks.
Proof.
  induction 1 as [|b rest (_ & _ & _ & (Hn & _ & _) & _) Hwf IH];
    [reflexivity|].
  cbn [chunks_of]. rewrite !fmap_cons, IH. f_equal.
  destruct (chunk_title_head (block_title b) [] Hn) as [H1 _].
  destruct (block_topics b) as [|t ts]; destruct rest as [|b2 rest].
  - simpl. rewrite app_nil_r. exact H1.
  - simpl. apply chunk_title_head. exact Hn.
  - change (Py.join [NEWLINE] (block_title b :: t :: ts))
      with (block_title b ++ NEWLINE :: Py.join [NEWLINE] (t :: ts)).
    rewrite app_nil_r. apply chunk_title_head. exact Hn.
  - change (Py.join [NEWLINE] (block_title b :: t :: ts))
      with (block_title b ++ NEWLINE :: Py.join [NEWLINE] (t :: ts)).
    rewrite <- app_assoc. apply chunk_title_head. exact Hn.
Qed.

(** X8.  Reading a file back.  Let a text be, line by line, a preamble
    and then sessions, each a marker line (any head that ends in the
    word [Session], spaces, digits and a colon, then the title) followed
    by the lines of its topics, where no line holds [!!!] and only the
    heads hold a marker.  Then the chunks of the text are the sessions
    in their order: each chunk is the title and the topic lines of its
    session, joined by newlines, with a newline at its end when another
    session follows; the preamble is dropped, and the title of each chunk
    is the title of its session. *)
Theorem session_chunks_of_blocks
    (preamble : list str) (blocks : list block) :
  Forall text_line preamble ->
  Forall well_formed blocks ->
  let raw_data :=
    Py.join [NEWLINE] (preamble ++ concat (block_lines <$> blocks)) in
  session_chunks raw_data = chunks_of blocks
  /\ chunk_title <$> session_chunks raw_data = block_title <$> blocks.
Proof.
  intros Hpre Hwf raw_data.
  assert (Hchunks : session_chunks raw_data = chunks_of blocks);
    [|split; [exact Hchunks|rewrite Hchunks; apply chunk_titles; exact Hwf]].
  subst raw_data. unfold session_chunks, re_split_SESSION_INDICATOR.
  remember (preamble ++ concat (block_lines <$> blocks)) as lines eqn:El.
  assert (Hcase : lines = [] \/ lines <> [])
    by (destruct lines; [left; reflexivity|right; discriminate]).
  destruct Hcase as [E|Hne].
  - rewrite E in El. symmetry in El. apply app_eq_nil in El as [-> El].
    destruct blocks as [|b rest]; [subst; reflexivity|discriminate El].
  - assert (Hnl : Forall (fun l => NEWLINE ∉ l) lines).
    { subst lines. apply Forall_app. split.
      - eapply Forall_impl; [exact Hpre|]. intros l (H & _). exact H.
      - apply Forall_concat. apply Forall_fmap.
        eapply Forall_impl; [exact Hwf|].
        intros b (_ & Hh & _ & (Ht & _) & Htopics). unfold block_lines.
        simpl. constructor.
        + apply not_elem_of_app. auto.
        + eapply Forall_impl; [exact Htopics|]. intros l (H & _). exact H. }
    assert (Hclean : Forall (fun l => Py.contains COMMENT_INDICATOR l = false)
                       lines).
    { subst lines. apply Forall_app. split.
      - eapply Forall_impl; [exact Hpre|]. intros l (_ & H & _). exact H.
      - apply Forall_concat. apply Forall_fmap.
        eapply Forall_impl; [exact Hwf|].
        intros b (_ & _ & Hc & _ & Htopics). unfold block_lines.
        simpl. constructor; [exact Hc|].
        eapply Forall_impl; [exact Htopics|]. intros l (_ & H & _). exact H. }
    rewrite lines_of_join by assumption.
    rewrite strip_comments_loop_clean by exact Hclean.
    rewrite split_join by assumption.
    subst lines. apply text_lines_no_marker in Hpre.
    destruct blocks as [|b rest].
    + simpl. rewrite app_nil_r in *.
      rewrite re_split_loop_text_end by assumption. reflexivity.
    + rewrite re_split_loop_text by (assumption || (rewrite fmap_cons;
                                                    discriminate)).
      rewrite re_split_loop_blocks by (assumption || discriminate).
      reflexivity.
Qed.

Lemma session_chunks_of_blocks_witness :
  session_chunks
    (Py.join [NEWLINE]
       [lit "Learning objectives"; lit "## Session 1: Loops"; lit "- for";
        lit "- while"; lit "Session2:Lists"])
  = [Py.join [NEWLINE] [lit " Loops"; lit "- for"; lit "- while"; []];
     lit "Lists"].
Proof.
  refine (proj1 (session_chunks_of_blocks
                   [lit "Learning objectives"]
                   [mkBlock (lit "## Session 1:") (lit " Loops")
                      [lit "- for"; lit "- while"];
                    mkBlock (lit "Session2:") (lit "Lists") []] _ _)).
  - repeat (apply Forall_cons_2 || apply Forall_nil_2).
    split; [literal|split; reflexivity].
  - repeat (apply Forall_cons_2 || apply Forall_nil_2).
    + split; [|split; [literal|split; [reflexivity|split]]].
      * exists (lit "## "), (lit " "), (lit "1"). split; [reflexivity|].
        split; repeat (apply Forall_cons_2 || apply Forall_nil_2);
          reflexivity.
      * split; [literal|split; reflexivity].
      * repeat (apply Forall_cons_2 || apply Forall_nil_2);
          (split; [literal|split; reflexivity]).
    + split; [|split; [literal|split; [reflexivity|split]]].
      * exists [], [], (lit "2"). split; [reflexivity|].
        split; repeat (apply Forall_cons_2 || apply Forall_nil_2);
          reflexivity.
      * split; [literal|split; reflexivity].
      * apply Forall_nil_2.
Defined.

(** ** The calendar walker, further *)

(** The sessions past the class days stay at the end of the list as
    they were. *)
Lemma calendar_left_over term_info dates : forall number pending,
  (calendar term_info dates number pending).2 = true ->
  exists dated,
    (calendar term_info dates number pending).1
    = dated
      ++ drop (length (filter (fun d => is_skipped term_info d = false)
                         (filter (fun d => is_meeting term_info d = true)
                            dates)))
           pending
    /\ length dated
       = length (filter (fun d => is_meeting term_info d = true) dates)
    /\ Forall (fun s => is_Some (Session.datetime_date s)) dated.
Proof.
  induction dates as [|d dates IH]; intros number pending.
  - intros _. exists []. simpl. rewrite drop_0. auto.
  - cbn [calendar]. rewrite filter_cons.
    destruct (place_cases term_info d number pending)
      as [[Hm Hp]|[[Hm [Hs [sd [_ [_ [_ Hp]]]]]]
         |[[Hm [Hs [s [rest [-> Hp]]]]]|[Hm [Hs [-> Hp]]]]]];
      rewrite Hp; clear Hp.
    + rewrite decide_False by congruence. apply IH.
    + rewrite decide_True, filter_cons, decide_False by congruence.
      cbn [fst snd]. intros H.
      destruct (IH _ _ H) as (dated & E & Hlen & Hall).
      exists (NoClassSession.init sd :: dated). rewrite E.
      split; [reflexivity|]. split; [simpl; lia|].
      constructor; [eexists; reflexivity|exact Hall].
    + rewrite decide_True, filter_cons, decide_True by congruence.
      cbn [fst snd]. intros H.
      destruct (IH _ _ H) as (dated & E & Hlen & Hall).
      exists (assign_session term_info d number s :: dated). rewrite E.
      split; [reflexivity|]. split; [simpl; lia|].
      constructor; [|exact Hall].
      rewrite assign_datetime_date. eexists; reflexivity.
    + simpl. discriminate.
Qed.

Lemma assign_title term_info date number s :
  Session.title (assign_session term_info date number s) = Session.title s.
Proof.
  unfold assign_session.
  destruct (date_in date (TermInfo.evening_exams term_info));
    [destruct (found_entry _ _)|]; reflexivity.
Qed.

Lemma assign_topics term_info date number s :
  Session.topics (assign_session term_info date number s) = Session.topics s.
Proof.
  unfold assign_session.
  destruct (date_in date (TermInfo.evening_exams term_info));
    [destruct (found_entry _ _)|]; reflexivity.
Qed.


(** The class sessions of the list after the walk are those of the list
    before it, in their order, with their titles and topics. *)
Lemma calendar_class_sessions term_info dates : forall number pending,
  Forall is_class_session pending ->
  let r := calendar term_info dates number pending in
  Session.title <$> filter is_class_session r.1 = Session.title <$> pending
  /\ Session.topics <$> filter is_class_session r.1
     = Session.topics <$> pending.
Proof.
  induction dates as [|d dates IH]; intros number pending Hall.
  - simpl. rewrite filter_all by exact Hall. auto.
  - cbn zeta. cbn [calendar].
    destruct (place_cases term_info d number pending)
      as [[Hm Hp]|[[Hm [Hs [sd [_ [_ [_ Hp]]]]]]
         |[[Hm [Hs [s [rest [-> Hp]]]]]|[Hm [Hs [-> Hp]]]]]];
      rewrite Hp; clear Hp; cbn [fst].
    + apply IH. exact Hall.
    + rewrite filter_cons_False by discriminate. apply IH. exact Hall.
    + apply Forall_cons in Hall as [Hs0 Hrest].
      rewrite filter_cons_True
        by (unfold is_class_session; rewrite assign_class; exact Hs0).
      rewrite !fmap_cons, assign_title, assign_topics.
      destruct (IH (number + 1) rest Hrest) as [E1 E2].
      rewrite E1, E2. auto.
    + auto.
Qed.

Lemma date_in_elem sd dates :
  sd ∈ dates -> date_in (ScheduleDate.datetime_date sd) dates = true.
Proof.
  intros Hin. unfold date_in. apply existsb_exists.
  exists sd. split; [apply list_elem_of_In; exact Hin|].
  unfold ScheduleDate.eq. apply bool_decide_eq_true. reflexivity.
Qed.

Lemma walk_outcome_cases term_info all_placed :
  (walk_outcome term_info all_placed = Raise IndexError
   <-> all_placed = false)
  /\ (walk_outcome term_info all_placed = Raise OverflowError
      <-> all_placed = true
          /\ TermInfo.start_date term_info <= TermInfo.end_date term_info
          /\ TermInfo.end_date term_info = datetime.MAXORDINAL)
  /\ (walk_outcome term_info all_placed = Return tt
      <-> all_placed = true
          /\ ~ (TermInfo.start_date term_info <= TermInfo.end_date term_info
                /\ TermInfo.end_date term_info = datetime.MAXORDINAL)).
Proof.
  unfold walk_outcome. destruct all_placed.
  - destruct ((TermInfo.start_date term_info <=? TermInfo.end_date term_info)
              && (TermInfo.end_date term_info =? datetime.MAXORDINAL)) eqn:E.
    + apply andb_true_iff in E as [E1 E2].
      apply Z.leb_le in E1. apply Z.eqb_eq in E2.
      intuition (discriminate || congruence).
    + assert (Hn : ~ (TermInfo.start_date term_info
                        <= TermInfo.end_date term_info
                      /\ TermInfo.end_date term_info = datetime.MAXORDINAL)).
      { intros [H1 H2]. apply Z.leb_le in H1. apply Z.eqb_eq in H2.
        rewrite H1, H2 in E. discriminate. }
      intuition (discriminate || congruence).
  - intuition (discriminate || congruence).
Qed.

(** X9.  How [add_dates_numbers_and_NoClassSessions] ends, for any list
    of sessions: it raises [IndexError] exactly when the sessions are
    fewer than the class days of the term (the meeting days that are
    not skipped); otherwise it raises [OverflowError] exactly when the
    term is not empty and ends on [date.max]; otherwise it returns.  So
    a list with more sessions than class days is accepted. *)
Theorem add_dates_outcome
    (w : ScheduleMaker.World) (sessions : list Session.t) :
  ScheduleMaker.sessions (ScheduleMaker.self w) = Some sessions ->
  let term_info := ScheduleMaker.term_info (ScheduleMaker.self w) in
  TermInfo.end_date term_info <= datetime.MAXORDINAL ->
  let r := ScheduleMaker.add_dates_numbers_and_NoClassSessions w in
  let ends_on_max :=
    TermInfo.start_date term_info <= TermInfo.end_date term_info
    /\ TermInfo.end_date term_info = datetime.MAXORDINAL in
  (r.1 = Raise IndexError
   <-> (length sessions < length (class_meeting_dates term_info))%nat)
  /\ (r.1 = Raise OverflowError
      <-> (length (class_meeting_dates term_info) <= length sessions)%nat
          /\ ends_on_max)
  /\ (r.1 = Return tt
      <-> (length (class_meeting_dates term_info) <= length sessions)%nat
          /\ ~ ends_on_max).
Proof.
  intros Hs ti Hmax r ends_on_max. subst r ends_on_max.
  rewrite (add_dates_run w sessions Hs Hmax). fold ti. cbn [fst].
  pose proof (calendar_placed_iff ti (term_dates ti)
                (TermInfo.start_session_number ti) sessions) as Hiff.
  fold (meeting_dates ti) in Hiff. fold (class_meeting_dates ti) in Hiff.
  destruct (walk_outcome_cases ti
              (calendar ti (term_dates ti)
                 (TermInfo.start_session_number ti) sessions).2)
    as (H1 & H2 & H3).
  rewrite H1, H2, H3, <- Hiff.
  destruct (calendar ti (term_dates ti)
              (TermInfo.start_session_number ti) sessions).2.
  - split; [split; [discriminate|intros H; exfalso]|tauto].
    assert (true = true) as Ht by reflexivity. apply Hiff in Ht. lia.
  - split; [split; [intros _|reflexivity]|].
    + destruct (decide (length sessions
                        < length (class_meeting_dates ti))%nat) as [|Hge];
        [assumption|].
      assert (false = true) as Hf by (apply Hiff; lia). discriminate.
    + split; tauto.
Qed.

Lemma add_dates_outcome_witness :
  (ScheduleMaker.add_dates_numbers_and_NoClassSessions clash_maker).1
  = Return tt.
Proof.
  assert (Hmax : 736575 <= datetime.MAXORDINAL) by (vm_compute; discriminate).
  apply (add_dates_outcome clash_maker
           [ClassSession.init (lit "One") [];
            ClassSession.init (lit "Two") []]
           eq_refl Hmax).
  split; [vm_compute; lia|]. intros [_ Hend]. discriminate Hend.
Defined.

(** X10.  The walk keeps the class sessions: after
    [add_dates_numbers_and_NoClassSessions] on a list of class sessions,
    whatever the outcome, the class sessions of the list are as many as
    before and have, in the same order, the titles and the topics they
    had; and when the sessions are at least as many as the class days,
    the list is one dated session per meeting day followed by the
    sessions past the class days, as they were. *)
Theorem walk_keeps_class_sessions
    (w : ScheduleMaker.World) (sessions : list Session.t) :
  ScheduleMaker.sessions (ScheduleMaker.self w) = Some sessions ->
  let term_info := ScheduleMaker.term_info (ScheduleMaker.self w) in
  TermInfo.end_date term_info <= datetime.MAXORDINAL ->
  Forall is_class_session sessions ->
  let r := ScheduleMaker.add_dates_numbers_and_NoClassSessions w in
  exists sessions',
    ScheduleMaker.sessions (ScheduleMaker.self r.2) = Some sessions'
    /\ Session.title <$> filter is_class_session sessions'
       = Session.title <$> sessions
    /\ Session.topics <$> filter is_class_session sessions'
       = Session.topics <$> sessions
    /\ ((length (class_meeting_dates term_info) <= length sessions)%nat ->
        exists dated,
          sessions'
          = dated ++ drop (length (class_meeting_dates term_info)) sessions
          /\ length dated = length (meeting_dates term_info)
          /\ Forall (fun s => is_Some (Session.datetime_date s)) dated).
Proof.
  intros Hs ti Hmax Hall r. subst r.
  rewrite (add_dates_run w sessions Hs Hmax). fold ti. cbn [fst snd].
  eexists. split; [reflexivity|].
  destruct (calendar_class_sessions ti (term_dates ti)
              (TermInfo.start_session_number ti) sessions Hall) as [E1 E2].
  split; [exact E1|]. split; [exact E2|].
  intros Hlen. apply calendar_left_over.
  apply calendar_all_placed. exact Hlen.
Qed.

Lemma walk_keeps_class_sessions_witness :
  let r := ScheduleMaker.add_dates_numbers_and_NoClassSessions clash_maker in
  exists sessions',
    ScheduleMaker.sessions (ScheduleMaker.self r.2) = Some sessions'
    /\ Session.title <$> filter is_class_session sessions'
       = [Some (lit "One"); Some (lit "Two")].
Proof.
  assert (Hmax : 736575 <= datetime.MAXORDINAL) by (vm_compute; discriminate).
  destruct (walk_keeps_class_sessions clash_maker
              [ClassSession.init (lit "One") [];
               ClassSession.init (lit "Two") []]
              eq_refl Hmax)
    as (ss & H1 & H2 & _).
  - repeat (apply Forall_cons_2 || apply Forall_nil_2); reflexivity.
  - exists ss. split; [exact H1|exact H2].
Defined.

(** X11.  Evening exams.  After the walk over sessions that start
    undated, whatever its outcome, a class session dated [d] has the type
    [EVENING_EXAM] and the message of the first entry of [evening_exams]
    with the date [d] when there is such an entry, and otherwise the type
    and the message of a session of the list before the walk; and unless
    the list ran out, every class day of the term has its class
    session. *)
Theorem evening_exam_sessions_tagged
    (w : ScheduleMaker.World) (sessions : list Session.t) :
  ScheduleMaker.sessions (ScheduleMaker.self w) = Some sessions ->
  let term_info := ScheduleMaker.term_info (ScheduleMaker.self w) in
  TermInfo.end_date term_info <= datetime.MAXORDINAL ->
  Forall (fun s => Session.datetime_date s = None) sessions ->
  let r := ScheduleMaker.add_dates_numbers_and_NoClassSessions w in
  exists sessions',
    ScheduleMaker.sessions (ScheduleMaker.self r.2) = Some sessions'
    /\ (forall s d,
          s ∈ sessions' ->
          Session.class s = IsClassSession ->
          Session.datetime_date s = Some d ->
          (date_in d (TermInfo.evening_exams term_info) = true ->
           Session.session_type s = Some EVENING_EXAM
           /\ exists i exam,
                date_index (TermInfo.evening_exams term_info) d = Some i
                /\ TermInfo.evening_exams term_info !! i = Some exam
                /\ ScheduleDate.datetime_date exam = d
                /\ Session.message s = ScheduleDate.message exam)
          /\ (date_in d (TermInfo.evening_exams term_info) = false ->
              exists s0,
                s0 ∈ sessions
                /\ Session.session_type s = Session.session_type s0
                /\ Session.message s = Session.message s0))
    /\ (r.1 <> Raise IndexError ->
        Forall (fun s => Session.class s = IsClassSession) sessions ->
        forall d,
          d ∈ class_meeting_dates term_info ->
          exists s,
            s ∈ sessions'
            /\ Session.class s = IsClassSession
            /\ Session.datetime_date s = Some d).
Proof.
  intros Hs ti Hmax Hnone r. subst r.
  rewrite (add_dates_run w sessions Hs Hmax). fold ti. cbn [fst snd].
  eexists. split; [reflexivity|]. split.
  - intros s d Hin Hclass Hdate.
    destruct (calendar_members _ _ _ _ _ Hin)
      as [[sd [-> _]]|[[d' [n [s0 [-> [Hs0 [_ Hns]]]]]]|Hp]].
    + discriminate Hclass.
    + rewrite assign_datetime_date in Hdate. injection Hdate as ->.
      unfold assign_session. split.
      * intros Hexam. rewrite Hexam.
        destruct (date_index_found _ _ Hexam) as (i & exam & Hi & Hl & Hd).
        unfold found_entry. rewrite Hi, Hl.
        split; [reflexivity|]. exists i, exam. auto.
      * intros Hexam. rewrite Hexam. exists s0. auto.
    + rewrite Forall_forall in Hnone. rewrite (Hnone s Hp) in Hdate.
      discriminate.
  - intros Hne Hclass d Hd. apply walk_outcome_placed in Hne.
    pose proof (calendar_dates ti (term_dates ti)
                  (TermInfo.start_session_number ti) sessions Hne) as Hdates.
    fold (meeting_dates ti) in Hdates.
    fold (class_meeting_dates ti) in Hdates.
    assert (Hleft : Forall (fun s => Session.datetime_date s = None)
                      (drop (length (class_meeting_dates ti)) sessions))
      by (apply Forall_drop; exact Hnone).
    unfold class_meeting_dates in Hd.
    apply list_elem_of_filter in Hd as [Hnot Hmeet].
    apply list_elem_of_lookup_1 in Hmeet as [i Hi].
    apply (dated_lookup _ _ _ i d Hdates Hleft) in Hi as (s & Hsi & Hsd).
    apply list_elem_of_lookup_2 in Hsi.
    exists s. split; [exact Hsi|]. split; [|exact Hsd].
    destruct (calendar_members _ _ _ _ _ Hsi)
      as [[sd [-> [Hsk _]]]|[[d' [n [s0 [-> [Hs0 _]]]]]|Hp]].
    + simpl in Hsd. injection Hsd as <-.
      apply date_in_elem in Hsk. unfold is_skipped in Hnot. congruence.
    + rewrite assign_class. rewrite Forall_forall in Hclass. auto.
    + rewrite Forall_forall in Hclass. auto.
Qed.

Lemma evening_exam_sessions_tagged_witness :
  let w := shipped_maker in
  let term_info := ScheduleMaker.term_info (ScheduleMaker.self w) in
  let r := ScheduleMaker.add_dates_numbers_and_NoClassSessions w in
  exists sessions',
    ScheduleMaker.sessions (ScheduleMaker.self r.2) = Some sessions'
    /\ (forall s d,
          s ∈ sessions' ->
          Session.class s = IsClassSession ->
          Session.datetime_date s = Some d ->
          date_in d (TermInfo.evening_exams term_info) = true ->
          Session.session_type s = Some EVENING_EXAM).
Proof.
  intros w term_info r.
  assert (Hmax : TermInfo.end_date term_info <= datetime.MAXORDINAL)
    by (vm_compute; discriminate).
  destruct (evening_exam_sessions_tagged w
              (replicate 30 (ClassSession.init (lit "Title") (lit "- topic")))
              eq_refl Hmax)
    as (ss & H1 & H2 & _).
  - apply Forall_replicate. reflexivity.
  - exists ss. split; [exact H1|].
    intros s d Hin Hc Hd He.
    exact (proj1 (proj1 (H2 s d Hin Hc Hd) He)).
Defined.

(** When every date found its session, the session at the place of a
    class day is the pending session of that day's rank among the class
    days, dated and numbered by the walk. *)
Lemma calendar_lookup_class term_info dates : forall number pending p d,
  (calendar term_info dates number pending).2 = true ->
  filter (fun d => is_meeting term_info d = true) dates !! p = Some d ->
  is_skipped term_info d = false ->
  let j :=
    length (filter (fun d => is_skipped term_info d = false)
              (take p (filter (fun d => is_meeting term_info d = true)
                         dates))) in
  exists s0,
    pending !! j = Some s0
    /\ (calendar term_info dates number pending).1 !! p
       = Some (assign_session term_info d (number + Z.of_nat j) s0).
Proof.
  induction dates as [|d0 dates IH]; intros number pending p d;
    [intros _ Hp; rewrite filter_nil in Hp; discriminate Hp|].
  cbn [calendar]. rewrite filter_cons.
  destruct (place_cases term_info d0 number pending)
    as [[Hm Hp]|[[Hm [Hs [sd [_ [_ [_ Hp]]]]]]
       |[[Hm [Hs [s [rest [-> Hp]]]]]|[Hm [Hs [-> Hp]]]]]];
    rewrite Hp; clear Hp.
  - rewrite decide_False by congruence. apply IH.
  - rewrite decide_True by congruence. cbn [fst snd].
    intros Hok Hl Hd. destruct p as [|p].
    + injection Hl as ->. congruence.
    + cbn [take]. rewrite filter_cons_False by congruence.
      exact (IH number pending p d Hok Hl Hd).
  - rewrite decide_True by congruence. cbn [fst snd].
    intros Hok Hl Hd. destruct p as [|p].
    + injection Hl as ->. exists s. split; [reflexivity|].
      simpl. rewrite Z.add_0_r. reflexivity.
    + cbn [take]. rewrite filter_cons_True by congruence.
      destruct (IH (number + 1) rest p d Hok Hl Hd) as (s0 & H1 & H2).
      exists s0. split; [exact H1|].
      cbn [length]. rewrite lookup_cons. rewrite H2.
      do 2 f_equal. lia.
  - simpl. discriminate.
Qed.

(** X12.  Which session gets which day.  After the walk, unless the
    list ran out, the list has at the place of each meeting day of the
    term, counted among the meeting days: for a skipped day, the
    [NoClassSession] of the first entry of [dates_to_skip] with that
    date; for a class day that has [j] class days before it, the session
    that was at index [j] before the walk, now with that date and the
    number [start_session_number + j], and with its class, title and
    topics as they were. *)
Theorem walk_by_meeting_day
    (w : ScheduleMaker.World) (sessions : list Session.t) :
  ScheduleMaker.sessions (ScheduleMaker.self w) = Some sessions ->
  let term_info := ScheduleMaker.term_info (ScheduleMaker.self w) in
  TermInfo.end_date term_info <= datetime.MAXORDINAL ->
  let r := ScheduleMaker.add_dates_numbers_and_NoClassSessions w in
  r.1 <> Raise IndexError ->
  exists sessions',
    ScheduleMaker.sessions (ScheduleMaker.self r.2) = Some sessions'
    /\ forall p d,
         meeting_dates term_info !! p = Some d ->
         (is_skipped term_info d = true ->
          exists i entry,
            date_index (TermInfo.dates_to_skip term_info) d = Some i
            /\ TermInfo.dates_to_skip term_info !! i = Some entry
            /\ sessions' !! p = Some (NoClassSession.init entry))
         /\ (is_skipped term_info d = false ->
             let j :=
               length (filter (fun d => is_skipped term_info d = false)
                         (take p (meeting_dates term_info))) in
             exists s0 s,
               sessions !! j = Some s0
               /\ sessions' !! p = Some s
               /\ Session.datetime_date s = Some d
               /\ Session.session_number s
                  = Some (TermInfo.start_session_number term_info
                          + Z.of_nat j)
               /\ Session.class s = Session.class s0
               /\ Session.title s = Session.title s0
               /\ Session.topics s = Session.topics s0).
Proof.
  intros Hs ti Hmax r Hne. subst r.
  rewrite (add_dates_run w sessions Hs Hmax) in Hne |- *. fold ti in Hne |- *.
  cbn [fst snd] in Hne |- *. apply walk_outcome_placed in Hne.
  eexists. split; [reflexivity|]. intros p d Hp. split.
  - intros Hskip.
    destruct (calendar_lookup_skip ti (term_dates ti)
                (TermInfo.start_session_number ti) sessions p d
                Hne Hp Hskip) as (entry & Hf & Hat).
    unfold found_entry in Hf.
    destruct (date_index (TermInfo.dates_to_skip ti) d) as [i|] eqn:Hi;
      [|discriminate].
    exists i, entry. auto.
  - intros Hskip. cbv zeta.
    pose proof (calendar_lookup_class ti (term_dates ti)
                  (TermInfo.start_session_number ti) sessions p d
                  Hne Hp Hskip) as Hc.
    cbv zeta in Hc. fold (meeting_dates ti) in Hc.
    destruct Hc as (s0 & H1 & H2).
    eexists s0, _. split; [exact H1|]. split; [exact H2|].
    rewrite assign_datetime_date, assign_session_number, assign_class,
      assign_title, assign_topics.
    auto.
Qed.

Lemma walk_by_meeting_day_witness :
  let r := ScheduleMaker.add_dates_numbers_and_NoClassSessions clash_maker in
  exists sessions' s,
    ScheduleMaker.sessions (ScheduleMaker.self r.2) = Some sessions'
    /\ sessions' !! 1%nat = Some s
    /\ Session.datetime_date s = Some 736571
    /\ Session.session_number s = Some 2
    /\ Session.title s = Some (lit "Two").
Proof.
  assert (Hmax : 736575 <= datetime.MAXORDINAL) by (vm_compute; discriminate).
  destruct (walk_by_meeting_day clash_maker
              [ClassSession.init (lit "One") [];
               ClassSession.init (lit "Two") []]
              eq_refl Hmax)
    as (ss & H1 & H2).
  - vm_compute. discriminate.
  - destruct (H2 1%nat 736571) as [_ H3]; [vm_compute; reflexivity|].
    destruct H3 as (s0 & s & Hs0 & Hs & Hd & Hn & _ & Ht & _);
      [vm_compute; reflexivity|].
    exists ss, s. split; [exact H1|]. split; [exact Hs|].
    split; [exact Hd|]. split; [exact Hn|].
    rewrite Ht. vm_compute in Hs0. injection Hs0 as <-. reflexivity.
Defined.

(** ** Rendering, further *)

Lemma substitute_NO_CLASS title date :
  Template.substitute NoClassSession.NO_CLASS_TEMPLATE
    [(lit "SessionTitle", title); (lit "SessionDate", date)]
  = Return (no_class_block title date).
Proof. vm_compute. reflexivity. Qed.

(** [NoClassSession.make_html], case by case. *)
Lemma NoClassSession_make_html_run (s : Session.t) :
  NoClassSession.make_html s
  = match Session.datetime_date s with
    | None => (Raise AttributeError, s)
    | Some date =>
        (Return tt,
         Session.set_html
           (Some (no_class_block (str_of_optional (Session.title s))
                    (date_text date))) s)
    end.
Proof.
  unfold NoClassSession.make_html, Session.date_as_string.
  rewrite bind_return with (a := s) (s' := s) by reflexivity.
  rewrite bind_assoc.
  rewrite bind_return with (a := s) (s' := s) by reflexivity.
  destruct (Session.datetime_date s) as [date|]; [|reflexivity].
  unfold attr at 1. rewrite bind_assoc, !bind_ret.
  rewrite substitute_NO_CLASS. reflexivity.
Qed.

(** X13.  The session of a skipped day always renders:
    [make_html] on the [NoClassSession] of an entry of [dates_to_skip]
    returns and sets the HTML to the no-class block with the entry's
    message as title (the word [None] for an entry without message) and
    the month and day of the entry's date; it sets no preparation link
    and changes nothing else. *)
Theorem NoClassSession_always_renders `{Libraries}
    (schedule_date : ScheduleDate.t) :
  let s := NoClassSession.init schedule_date in
  Session_make_html s
  = (Return tt,
     Session.set_html
       (Some (no_class_block
                (match ScheduleDate.message schedule_date with
                 | Some message => message
                 | None => lit "None"
                 end)
                (date_text (ScheduleDate.datetime_date schedule_date))))
       s).
Proof.
  intros s. unfold Session_make_html.
  rewrite bind_return with (a := s) (s' := s) by reflexivity.
  change (Session.class s) with IsNoClassSession. cbv iota.
  rewrite NoClassSession_make_html_run. reflexivity.
Qed.

Lemma make_html_table_body_zero k sessions_html w :
  ScheduleMaker.make_html_table_body 0 k sessions_html w
  = (Raise ZeroDivisionError, w).
Proof. reflexivity. Qed.

Lemma make_html_table_body_unrendered days_in_week k sessions_html
    sessions s w :
  days_in_week <> 0 ->
  ScheduleMaker.sessions (ScheduleMaker.self w) = Some sessions ->
  sessions !! k = Some s ->
  Session.html s = None ->
  ScheduleMaker.make_html_table_body days_in_week k sessions_html w
  = (Raise AttributeError, w).
Proof.
  intros Hd Hs Hk Hh. unfold ScheduleMaker.make_html_table_body.
  rewrite bool_decide_false by exact Hd.
  destruct (bool_decide (Z.of_nat k mod days_in_week = 0));
    rewrite bind_ret;
    rewrite bind_return with (a := w) (s' := w) by reflexivity;
    rewrite Hs; unfold attr at 1; rewrite bind_ret;
    rewrite Hk; unfold item; rewrite bind_ret;
    rewrite Hh; reflexivity.
Qed.

Lemma make_html_table_loop_unrendered days_in_week w todo :
  forall k done sessions_html,
  days_in_week <> 0 ->
  ScheduleMaker.sessions (ScheduleMaker.self w) = Some (done ++ todo) ->
  length done = k ->
  Exists (fun s => Session.html s = None) todo ->
  for_range_acc k (length todo) sessions_html
    (ScheduleMaker.make_html_table_body days_in_week) w
  = (Raise AttributeError, w).
Proof.
  induction todo as [|s todo IH]; intros k done acc Hd Hs Hk Hex;
    [inversion Hex|].
  assert (Hl : (done ++ s :: todo) !! k = Some s)
    by (apply list_lookup_middle; symmetry; exact Hk).
  cbn [length for_range_acc].
  destruct (Session.html s) as [h|] eqn:Hh.
  - rewrite (bind_return _ _ _ _ _
               (make_html_table_body_run _ _ acc _ _ _ _ Hd Hs Hl Hh)).
    apply (IH (S k) (done ++ [s])); [exact Hd| | |].
    + rewrite <- app_assoc. exact Hs.
    + rewrite length_app. simpl. lia.
    + apply Exists_cons in Hex as [Hex|Hex]; [congruence|exact Hex].
  - apply bind_raise.
    apply (make_html_table_body_unrendered _ _ acc _ _ _ Hd Hs Hl Hh).
Qed.

(** With a weekday and every session rendered, the table of the cells. *)
Lemma make_html_table_rendered w sessions htmls :
  ScheduleMaker.sessions (ScheduleMaker.self w) = Some sessions ->
  Session.html <$> sessions = Some <$> htmls ->
  let term_info := ScheduleMaker.term_info (ScheduleMaker.self w) in
  let N := Z.of_nat (length (TermInfo.days_of_week term_info)) in
  N <> 0 ->
  ScheduleMaker.make_html_table w
  = (Return tt,
     ScheduleMaker.set_html
       (Some
          ((HEADER_before
            ++ concat (day_heading <$> TermInfo.weekdays_of_week term_info)
            ++ HEADER_after)
           ++ concat (imap (table_cell N) htmls)
           ++ ScheduleTrailer.init))
       w).
Proof.
  intros Hs Hh ti N HN.
  assert (Hlen : length sessions = length htmls).
  { rewrite <- (length_fmap Session.html sessions), Hh, length_fmap.
    reflexivity. }
  unfold ScheduleMaker.make_html_table.
  rewrite bind_return with (a := w) (s' := w) by reflexivity.
  fold ti. fold N. rewrite Hs. unfold attr. rewrite bind_ret.
  rewrite Hlen.
  assert (Hall : forall i h, htmls !! i = Some h ->
            exists s, sessions !! (0 + i)%nat = Some s
                      /\ Session.html s = Some h).
  { intros i h Hi. simpl.
    assert (Hl : (Session.html <$> sessions) !! i = Some (Some h))
      by (rewrite Hh, list_lookup_fmap, Hi; reflexivity).
    rewrite list_lookup_fmap in Hl.
    destruct (sessions !! i) as [s|]; simpl in Hl; [|discriminate].
    exists s. split; [reflexivity|congruence]. }
  rewrite (bind_return _ _ _ _ _
             (make_html_table_loop N sessions w htmls O [] HN Hs Hall)).
  rewrite (bind_return _ _ _ _ _ (ScheduleHeader_init_run _ w)).
  reflexivity.
Qed.

Lemma rendered_htmls sessions :
  Forall (fun s => is_Some (Session.html s)) sessions ->
  Session.html <$> sessions
  = Some <$> ((fun s => default [] (Session.html s)) <$> sessions).
Proof.
  induction 1 as [|s sessions [h Hh] Hall IH]; [reflexivity|].
  rewrite !fmap_cons, IH, Hh. reflexivity.
Qed.

(** X14.  How [make_html_table] ends, for any list of sessions: it
    returns exactly when the list is empty or the term has a meeting
    weekday and every session has its HTML; with sessions and no meeting
    weekday it raises [ZeroDivisionError]; with a meeting weekday and a
    session without HTML it raises [AttributeError]; and when it raises
    it leaves the maker as it was.  With no sessions the page is the
    header and the trailer. *)
Theorem make_html_table_outcome
    (w : ScheduleMaker.World) (sessions : list Session.t) :
  ScheduleMaker.sessions (ScheduleMaker.self w) = Some sessions ->
  let term_info := ScheduleMaker.term_info (ScheduleMaker.self w) in
  let r := ScheduleMaker.make_html_table w in
  (r.1 = Return tt
   <-> sessions = []
       \/ (TermInfo.days_of_week term_info <> []
           /\ Forall (fun s => is_Some (Session.html s)) sessions))
  /\ (r.1 = Raise ZeroDivisionError
      <-> sessions <> [] /\ TermInfo.days_of_week term_info = [])
  /\ (r.1 = Raise AttributeError
      <-> sessions <> []
          /\ TermInfo.days_of_week term_info <> []
          /\ Exists (fun s => Session.html s = None) sessions)
  /\ (r.1 <> Return tt -> r.2 = w)
  /\ (sessions = [] ->
      r.2 = ScheduleMaker.set_html
              (Some ((HEADER_before
                      ++ concat (day_heading
                                   <$> TermInfo.weekdays_of_week term_info)
                      ++ HEADER_after)
                     ++ ScheduleTrailer.init)) w).
Proof.
  intros Hs ti r.
  destruct sessions as [|s0 rest].
  - assert (Hr : r = (Return tt,
                      ScheduleMaker.set_html
                        (Some ((HEADER_before
                                ++ concat (day_heading
                                             <$> TermInfo.weekdays_of_week ti)
                                ++ HEADER_after)
                               ++ ScheduleTrailer.init)) w)).
    { subst r. unfold ScheduleMaker.make_html_table.
      rewrite bind_return with (a := w) (s' := w) by reflexivity.
      rewrite Hs. unfold attr. rewrite bind_ret.
      cbn [length for_range_acc]. rewrite bind_ret.
      rewrite (bind_return _ _ _ _ _ (ScheduleHeader_init_run _ w)).
      reflexivity. }
    rewrite Hr. cbn [fst snd].
    intuition (discriminate || congruence).
  - destruct (TermInfo.days_of_week ti) as [|day days] eqn:Hdays.
    + assert (Hr : r = (Raise ZeroDivisionError, w)).
      { subst r. unfold ScheduleMaker.make_html_table.
        rewrite bind_return with (a := w) (s' := w) by reflexivity.
        fold ti. rewrite Hdays, Hs. reflexivity. }
      rewrite Hr. cbn [fst snd].
      intuition (discriminate || congruence).
    + assert (HN : Z.of_nat (length (TermInfo.days_of_week ti)) <> 0)
        by (rewrite Hdays; simpl; lia).
      destruct (decide (Forall (fun s => is_Some (Session.html s))
                          (s0 :: rest))) as [Hall|Hnot].
      * pose proof (make_html_table_rendered w _ _ Hs (rendered_htmls _ Hall)
                      HN) as Hr.
        fold r in Hr. rewrite Hr. cbn [fst snd].
        assert (Hno : ~ Exists (fun s => Session.html s = None) (s0 :: rest)).
        { intros Hex. apply Exists_exists in Hex as (s & Hin & Hnone).
          rewrite Forall_forall in Hall. destruct (Hall s Hin) as [h Hh].
          congruence. }
        intuition (discriminate || congruence).
      * assert (Hex : Exists (fun s => Session.html s = None) (s0 :: rest)).
        { apply not_Forall_Exists in Hnot; [|apply _].
          eapply Exists_impl; [exact Hnot|].
          intros s Hn. simpl in Hn.
          destruct (Session.html s); [exfalso; apply Hn; eauto|reflexivity]. }
        assert (Hr : r = (Raise AttributeError, w)).
        { subst r. unfold ScheduleMaker.make_html_table.
          rewrite bind_return with (a := w) (s' := w) by reflexivity.
          fold ti. rewrite Hs. unfold attr at 1. rewrite bind_ret.
          apply bind_raise.
          apply (make_html_table_loop_unrendered _ w (s0 :: rest) O []);
            [exact HN|exact Hs|reflexivity|exact Hex]. }
        rewrite Hr. cbn [fst snd].
        intuition (discriminate || congruence).
Qed.

Lemma make_html_table_outcome_witness :
  (ScheduleMaker.make_html_table clash_maker).1 = Raise AttributeError.
Proof.
  apply (make_html_table_outcome clash_maker
           [ClassSession.init (lit "One") [];
            ClassSession.init (lit "Two") []] eq_refl).
  split; [discriminate|]. split; [discriminate|].
  apply Exists_cons_hd. reflexivity.
Defined.

(** X15.  [make_html_from_topics] never returns: for every topics text,
    whatever the Markdown converter and the prettifier give, the call
    [ExamTopic.EVENING_EXAM_TEMPLATE.substitute()], with no value for the
    placeholders of the template, raises [KeyError] for the first of
    them, [RegularClassDay], and the state is as it was. *)
Theorem make_html_from_topics_always_raises `{Libraries} {St}
    (topics_for_session : str) (st : St) :
  ScheduleMaker.make_html_from_topics topics_for_session st
  = (Raise (KeyError (lit "RegularClassDay")), st).
Proof.
  unfold ScheduleMaker.make_html_from_topics.
  apply bind_raise.
  vm_compute. reflexivity.
Qed.

(** X16.  The re-indentation of a line of [make_html_from_topics]
    doubles the spaces the line starts with and leaves the rest of the
    line as it is. *)
Theorem double_leading_spaces_doubles (n : nat) (rest : str) :
  head rest <> Some SPACE ->
  double_leading_spaces (replicate n SPACE ++ rest)
  = replicate (n + n) SPACE ++ rest.
Proof.
  intros Hrest. induction n as [|n IH].
  - simpl. destruct rest as [|c rest]; [reflexivity|].
    simpl. destruct (decide (c = SPACE)) as [->|]; [|reflexivity].
    exfalso. apply Hrest. reflexivity.
  - cbn [replicate app double_leading_spaces].
    rewrite decide_True by reflexivity. rewrite IH.
    replace (S n + S n)%nat with (S (S (n + n))) by lia. reflexivity.
Qed.

Lemma double_leading_spaces_doubles_witness :
  double_leading_spaces (lit "  <li> a b") = lit "    <li> a b".
Proof.
  apply (double_leading_spaces_doubles 2 (lit "<li> a b")).
  discriminate.
Defined.

(** ** The whole run *)

(** A method call on the session at index [k]. *)
Lemma on_session_run {A} (m : M Session.t A) k done s rest w :
  ScheduleMaker.sessions (ScheduleMaker.self w) = Some (done ++ s :: rest) ->
  length done = k ->
  ScheduleMaker.on_session k m w
  = ((m s).1,
     ScheduleMaker.set_sessions (Some (done ++ (m s).2 :: rest)) w).
Proof.
  intros Hs Hk. unfold ScheduleMaker.on_session. run_monad.
  rewrite Hs. simpl.
  rewrite list_lookup_middle by (symmetry; exact Hk). simpl.
  subst k. rewrite <- (Nat.add_0_r (length done)), insert_app_r.
  destruct (m s) as [[a|e|] s']; reflexivity.
Qed.

(** The loop over the sessions does what [render_all] says. *)
Lemma render_loop `{Libraries} todo : forall k done w,
  ScheduleMaker.sessions (ScheduleMaker.self w) = Some (done ++ todo) ->
  length done = k ->
  for_range_from k (length todo)
    (fun k => ScheduleMaker.on_session k Session_make_html) w
  = ((render_all todo).1,
     ScheduleMaker.set_sessions (Some (done ++ (render_all todo).2)) w).
Proof.
  induction todo as [|s todo IH]; intros k done w Hs Hk.
  - simpl. rewrite app_nil_r in *. rewrite set_sessions_same by exact Hs.
    reflexivity.
  - cbn [length for_range_from render_all].
    pose proof (on_session_run Session_make_html k done s todo w Hs Hk)
      as Hrun.
    destruct (Session_make_html s) as [[[]|e|] s'] eqn:E;
      cbn [fst snd] in Hrun.
    + rewrite (bind_return _ _ _ _ _ Hrun).
      rewrite (IH (S k) (done ++ [s'])).
      * cbn [fst snd]. rewrite set_sessions_twice, <- app_assoc.
        reflexivity.
      * simpl. rewrite <- app_assoc. reflexivity.
      * rewrite length_app. simpl. lia.
    + apply bind_raise. exact Hrun.
    + unfold bind. rewrite Hrun. reflexivity.
Qed.

Lemma Session_make_html_run `{Libraries} (s : Session.t) :
  Session_make_html s
  = match Session.class s with
    | IsClassSession => ClassSession.make_html_when false s
    | IsNoClassSession => NoClassSession.make_html s
    end.
Proof.
  unfold Session_make_html.
  rewrite bind_return with (a := s) (s' := s) by reflexivity.
  destruct (Session.class s); reflexivity.
Qed.

(** A session that has what [make_html] reads is rendered. *)
Lemma make_html_renderable `{Libraries} (s : Session.t) :
  renderable s ->
  exists s',
    Session_make_html s = (Return tt, s')
    /\ Session.html s' = Some (session_html s).
Proof.
  intros [[date Hdate] Hclass].
  rewrite Session_make_html_run. unfold session_html.
  destruct (Session.class s) eqn:Hc.
  - destruct (Hclass eq_refl) as ([number Hn] & [title Ht] & Hexam).
    rewrite make_html_when_off, Hn, Ht, Hdate. cbv zeta. cbn [default].
    unfold date_text.
    destruct (decide (Session.session_type s = Some EVENING_EXAM)) as [He|He].
    + destruct (Hexam He) as [message Hm]. rewrite Hm.
      eexists. split; reflexivity.
    + eexists. split; [reflexivity|].
      cbn [Session.html Session.set_html]. rewrite app_nil_r. reflexivity.
  - rewrite NoClassSession_make_html_run, Hdate.
    eexists. split; reflexivity.
Qed.

Lemma render_all_renderable `{Libraries} sessions :
  Forall renderable sessions ->
  (render_all sessions).1 = Return tt
  /\ Session.html <$> (render_all sessions).2
     = Some <$> (session_html <$> sessions).
Proof.
  induction 1 as [|s sessions Hs Hall [IH1 IH2]]; [split; reflexivity|].
  cbn [render_all].
  destruct (make_html_renderable s Hs) as (s' & E & Hh).
  rewrite E. cbn [fst snd]. split; [exact IH1|].
  rewrite !fmap_cons, IH2, Hh. reflexivity.
Qed.

(** A class session without number: [make_html] raises [TypeError]. *)
Lemma make_html_unnumbered `{Libraries} (s : Session.t) :
  Session.class s = IsClassSession ->
  Session.session_number s = None ->
  Session_make_html s = (Raise TypeError, s).
Proof.
  intros Hc Hn. rewrite Session_make_html_run, Hc, make_html_when_off, Hn.
  reflexivity.
Qed.

(** A session with a date, and with a number and a title when it is a
    class session: [make_html] returns or raises [TypeError]. *)
Lemma make_html_dated `{Libraries} (s : Session.t) :
  is_Some (Session.datetime_date s) ->
  (Session.class s = IsClassSession ->
   is_Some (Session.session_number s) /\ is_Some (Session.title s)) ->
  (Session_make_html s).1 = Return tt
  \/ (Session_make_html s).1 = Raise TypeError.
Proof.
  intros [date Hdate] Hclass. rewrite Session_make_html_run.
  destruct (Session.class s) eqn:Hc.
  - destruct (Hclass eq_refl) as ([number Hn] & [title Ht]).
    rewrite make_html_when_off, Hn, Ht, Hdate. cbv zeta.
    destruct (decide (Session.session_type s = Some EVENING_EXAM));
      [destruct (Session.message s)|]; auto.
  - rewrite NoClassSession_make_html_run, Hdate. auto.
Qed.

Lemma render_all_TypeError `{Libraries} sessions :
  Forall (fun s => (Session_make_html s).1 = Return tt
                   \/ (Session_make_html s).1 = Raise TypeError) sessions ->
  Exists (fun s => (Session_make_html s).1 = Raise TypeError) sessions ->
  (render_all sessions).1 = Raise TypeError.
Proof.
  induction 1 as [|s sessions Hs Hall IH]; intros Hex; [inversion Hex|].
  cbn [render_all].
  destruct (Session_make_html s) as [[[]|e|] s'] eqn:E; cbn [fst] in *.
  - apply IH. apply Exists_cons in Hex as [Hex|Hex]; [|exact Hex].
    rewrite E in Hex. discriminate.
  - destruct Hs as [Hs|Hs]; [discriminate|exact Hs].
  - destruct Hs; discriminate.
Qed.

(** The session of a chunk, dated by the walk. *)
Lemma assign_chunk_session term_info d n chunk :
  let s := assign_session term_info d n (chunk_session chunk) in
  is_Some (Session.datetime_date s)
  /\ is_Some (Session.session_number s)
  /\ is_Some (Session.title s)
  /\ (Forall (fun e => is_Some (ScheduleDate.message e))
        (TermInfo.evening_exams term_info) ->
      Session.session_type s = Some EVENING_EXAM ->
      is_Some (Session.message s)).
Proof.
  intros s. subst s.
  rewrite assign_datetime_date, assign_session_number, assign_title.
  split; [eauto|]. split; [eauto|]. split; [eexists; reflexivity|].
  intros Hexams. unfold assign_session.
  destruct (date_in d (TermInfo.evening_exams term_info)) eqn:Hin.
  - destruct (found_entry_found _ _ Hin) as (exam & Hf & He & _).
    rewrite Hf. intros _. simpl.
    rewrite Forall_forall in Hexams. apply Hexams. exact He.
  - simpl. discriminate.
Qed.

(** The sessions the walk has placed have a date, and the class sessions
    among them a number and a title. *)
Lemma calendar_placed_dated term_info dates : forall number chunks,
  let r := calendar term_info dates number (chunk_session <$> chunks) in
  Forall (fun s =>
            s ∈ (chunk_session <$> chunks)
            \/ (is_Some (Session.datetime_date s)
                /\ (Session.class s = IsClassSession ->
                    is_Some (Session.session_number s)
                    /\ is_Some (Session.title s)
                    /\ (Forall (fun e => is_Some (ScheduleDate.message e))
                          (TermInfo.evening_exams term_info) ->
                        Session.session_type s = Some EVENING_EXAM ->
                        is_Some (Session.message s)))))
    r.1.
Proof.
  intros number chunks r. apply Forall_forall. intros s Hin.
  destruct (calendar_members _ _ _ _ _ Hin)
    as [[sd [-> _]]|[[d [n [s0 [-> [Hs0 _]]]]]|Hp]].
  - right. split; [eexists; reflexivity|]. discriminate.
  - right. apply list_elem_of_fmap in Hs0 as (chunk & -> & _).
    destruct (assign_chunk_session term_info d n chunk) as (H1 & H2 & H3 & H4).
    split; [exact H1|]. intros _. auto.
  - left. exact Hp.
Qed.

Lemma meeting_dates_no_weekday term_info :
  TermInfo.days_of_week term_info = [] -> meeting_dates term_info = [].
Proof.
  intros Hd. unfold meeting_dates.
  induction (term_dates term_info) as [|d l IH]; [reflexivity|].
  rewrite filter_cons_False; [exact IH|].
  unfold is_meeting. rewrite Hd.
  rewrite bool_decide_eq_false_2 by apply not_elem_of_nil. discriminate.
Qed.

(** [make_html_table] on rendered sessions, also when there is none. *)
Lemma make_html_table_page `{Libraries} w sessions sessions' :
  ScheduleMaker.sessions (ScheduleMaker.self w) = Some sessions' ->
  Session.html <$> sessions' = Some <$> (session_html <$> sessions) ->
  let term_info := ScheduleMaker.term_info (ScheduleMaker.self w) in
  (sessions = [] \/ TermInfo.days_of_week term_info <> []) ->
  ScheduleMaker.make_html_table w
  = (Return tt,
     ScheduleMaker.set_html (Some (schedule_page term_info sessions)) w).
Proof.
  intros Hs Hh ti Hcase. unfold schedule_page.
  assert (Himap : imap (fun k s =>
                          table_cell
                            (Z.of_nat (length (TermInfo.days_of_week ti)))
                            k (session_html s)) sessions
                  = imap (table_cell
                            (Z.of_nat (length (TermInfo.days_of_week ti))))
                      (session_html <$> sessions))
    by (rewrite imap_fmap; reflexivity).
  rewrite Himap.
  destruct sessions as [|s0 rest].
  - destruct sessions' as [|? ?]; [|discriminate Hh].
    unfold ScheduleMaker.make_html_table.
    rewrite bind_return with (a := w) (s' := w) by reflexivity.
    rewrite Hs. unfold attr. rewrite bind_ret.
    cbn [length for_range_acc]. rewrite bind_ret.
    rewrite (bind_return _ _ _ _ _ (ScheduleHeader_init_run _ w)).
    reflexivity.
  - destruct Hcase as [Hcase|Hcase]; [discriminate|].
    apply (make_html_table_rendered w sessions' _ Hs Hh).
    fold ti. destruct (TermInfo.days_of_week ti); [congruence|].
    simpl. lia.
Qed.

(** The run after the file is read and split: the walk, the rendering
    of the sessions, and then the table and the file. *)
Lemma make_schedule_run `{Libraries} w raw_data :
  let term_info := ScheduleMaker.term_info (ScheduleMaker.self w) in
  ScheduleMaker.files w !! TermInfo.learning_objectives_filename term_info
  = Some raw_data ->
  Z.of_nat (length (session_chunks raw_data))
  = TermInfo.number_of_sessions term_info ->
  TermInfo.end_date term_info <= datetime.MAXORDINAL ->
  let c := calendar term_info (term_dates term_info)
             (TermInfo.start_session_number term_info)
             (chunk_session <$> session_chunks raw_data) in
  exists w3,
    ScheduleMaker.files w3 = ScheduleMaker.files w
    /\ ScheduleMaker.term_info (ScheduleMaker.self w3) = term_info
    /\ ScheduleMaker.sessions (ScheduleMaker.self w3) = Some c.1
    /\ ScheduleMaker.make_schedule w
       = match walk_outcome term_info c.2 with
         | Return _ =>
             let q := render_all c.1 in
             let w4 := ScheduleMaker.set_sessions (Some q.2) w3 in
             match q.1 with
             | Return _ =>
                 bind ScheduleMaker.make_html_table
                   (fun _ =>
                      bind get (fun w5 =>
                        bind (attr (ScheduleMaker.html (ScheduleMaker.self w5)))
                          ScheduleMaker.write_html)) w4
             | Raise e => (Raise e, w4)
             | Unfinished => (Unfinished, w4)
             end
         | Raise e => (Raise e, w3)
         | Unfinished => (Unfinished, w3)
         end.
Proof.
  intros ti Hfile Hcount Hmax c.
  set (w1 := ScheduleMaker.set_raw_data (Some raw_data) w).
  set (w2 := ScheduleMaker.set_sessions
               (Some (chunk_session <$> session_chunks raw_data))
               (ScheduleMaker.set_topics_by_session
                  (Some (chunk_topics <$> session_chunks raw_data)) w1)).
  set (w3 := ScheduleMaker.set_sessions (Some c.1) w2).
  exists w3. split; [reflexivity|]. split; [reflexivity|].
  split; [reflexivity|].
  assert (Hget : ScheduleMaker.get_raw_data w = (Return tt, w1)).
  { unfold ScheduleMaker.get_raw_data, bind, get. fold ti. rewrite Hfile.
    reflexivity. }
  assert (Hsplit : ScheduleMaker.split_into_sessions w1 = (Return tt, w2)).
  { rewrite (split_into_sessions_run w1 raw_data eq_refl).
    rewrite bool_decide_true by exact Hcount. reflexivity. }
  assert (Hwalk : ScheduleMaker.add_dates_numbers_and_NoClassSessions w2
                  = (walk_outcome ti c.2, w3)).
  { rewrite (add_dates_run w2 _ eq_refl) by exact Hmax. reflexivity. }
  unfold ScheduleMaker.make_schedule.
  rewrite (bind_return _ _ _ _ _ Hget).
  rewrite (bind_return _ _ _ _ _ Hsplit).
  unfold bind at 1. rewrite Hwalk.
  destruct (walk_outcome ti c.2) as [[]|e|]; [|reflexivity|reflexivity].
  cbv zeta.
  assert (Hloop :
    bind get (fun w0 : ScheduleMaker.World =>
      bind (attr (ScheduleMaker.sessions (ScheduleMaker.self w0)))
        (fun sessions =>
           for_range (length sessions)
             (fun k => ScheduleMaker.on_session k Session_make_html))) w3
    = ((render_all c.1).1,
       ScheduleMaker.set_sessions (Some (render_all c.1).2) w3)).
  { rewrite bind_return with (a := w3) (s' := w3) by reflexivity.
    change (ScheduleMaker.sessions (ScheduleMaker.self w3)) with (Some c.1).
    unfold attr. rewrite bind_ret. unfold for_range.
    apply (render_loop c.1 O [] w3); reflexivity. }
  unfold bind at 1. rewrite Hloop.
  destruct (render_all c.1).1 as [[]|e|]; reflexivity.
Qed.

Lemma walk_outcome_returns term_info :
  TermInfo.end_date term_info < datetime.MAXORDINAL ->
  walk_outcome term_info true = Return tt.
Proof.
  intros Hlt. unfold walk_outcome.
  replace (TermInfo.end_date term_info =? datetime.MAXORDINAL) with false
    by (symmetry; apply Z.eqb_neq; lia).
  rewrite andb_false_r. reflexivity.
Qed.

Lemma chunk_sessions_undated chunks :
  Forall (fun s => Session.datetime_date s = None) (chunk_session <$> chunks).
Proof.
  apply Forall_forall. intros s Hin.
  apply list_elem_of_fmap in Hin as (chunk & -> & _). reflexivity.
Qed.

(** With as many chunks as class days, every session of the list after
    the walk has what [make_html] reads. *)
Lemma scheduled_sessions_renderable term_info raw_data :
  length (session_chunks raw_data) = length (class_meeting_dates term_info) ->
  Forall (fun e => is_Some (ScheduleDate.message e))
    (TermInfo.evening_exams term_info) ->
  Forall renderable (scheduled_sessions term_info raw_data)
  /\ length (scheduled_sessions term_info raw_data)
     = length (meeting_dates term_info).
Proof.
  intros Hlen Hexams. unfold scheduled_sessions.
  set (pending := chunk_session <$> session_chunks raw_data).
  assert (Hplaced : (calendar term_info (term_dates term_info)
                       (TermInfo.start_session_number term_info) pending).2
                    = true).
  { apply calendar_all_placed. fold (meeting_dates term_info).
    fold (class_meeting_dates term_info).
    subst pending. rewrite length_fmap. lia. }
  destruct (calendar_left_over _ _ _ _ Hplaced) as (dated & E & Hd & Hall).
  fold (meeting_dates term_info) in E, Hd.
  fold (class_meeting_dates term_info) in E.
  rewrite drop_ge, app_nil_r in E
    by (subst pending; rewrite length_fmap; lia).
  split; [|rewrite E; exact Hd].
  pose proof (calendar_placed_dated term_info (term_dates term_info)
                (TermInfo.start_session_number term_info)
                (session_chunks raw_data)) as Hp.
  cbv zeta in Hp. fold pending in Hp.
  rewrite E in Hp |- *.
  rewrite Forall_forall in Hp, Hall. apply Forall_forall. intros s Hin.
  destruct (Hp s Hin) as [Hpend|[Hdate Hclass]].
  - exfalso. pose proof (chunk_sessions_undated (session_chunks raw_data))
      as Hun.
    rewrite Forall_forall in Hun. fold pending in Hun.
    destruct (Hall s Hin) as [d Hd']. rewrite (Hun s Hpend) in Hd'.
    discriminate.
  - split; [exact Hdate|]. intros Hc.
    destruct (Hclass Hc) as (H1 & H2 & H3). auto.
Qed.

(** The run that succeeds, stage by stage. *)
Lemma make_schedule_page `{Libraries}
    (w : ScheduleMaker.World) (raw_data : str) :
  let term_info := ScheduleMaker.term_info (ScheduleMaker.self w) in
  ScheduleMaker.files w !! TermInfo.learning_objectives_filename term_info
  = Some raw_data ->
  Z.of_nat (length (session_chunks raw_data))
  = TermInfo.number_of_sessions term_info ->
  length (session_chunks raw_data) = length (class_meeting_dates term_info) ->
  TermInfo.end_date term_info < datetime.MAXORDINAL ->
  Forall (fun e => is_Some (ScheduleDate.message e))
    (TermInfo.evening_exams term_info) ->
  let r := ScheduleMaker.make_schedule w in
  r.1 = Return tt
  /\ ScheduleMaker.files r.2
     = <[TermInfo.schedule_table_filename term_info
         := schedule_page term_info (scheduled_sessions term_info raw_data)]>
         (ScheduleMaker.files w)
  /\ length (scheduled_sessions term_info raw_data)
     = length (meeting_dates term_info).
Proof.
  intros ti Hfile Hcount Hlen Hmax Hexams r. subst r.
  destruct (scheduled_sessions_renderable ti raw_data Hlen Hexams)
    as [Hrend Hlength].
  destruct (make_schedule_run w raw_data Hfile Hcount ltac:(fold ti; lia))
    as (w3 & Hfiles & Hti & Hsessions & Hrun).
  fold ti in Hti, Hsessions, Hrun. fold (scheduled_sessions ti raw_data) in *.
  assert (Hplaced : (calendar ti (term_dates ti)
                       (TermInfo.start_session_number ti)
                       (chunk_session <$> session_chunks raw_data)).2 = true).
  { apply calendar_all_placed. fold (meeting_dates ti).
    fold (class_meeting_dates ti). rewrite length_fmap. lia. }
  rewrite Hplaced, (walk_outcome_returns ti Hmax) in Hrun. cbv zeta in Hrun.
  destruct (render_all_renderable _ Hrend) as [Hq1 Hq2].
  rewrite Hq1 in Hrun.
  set (w4 := ScheduleMaker.set_sessions
               (Some (render_all (scheduled_sessions ti raw_data)).2) w3)
    in *.
  assert (Htable : ScheduleMaker.make_html_table w4
                   = (Return tt,
                      ScheduleMaker.set_html
                        (Some (schedule_page ti
                                 (scheduled_sessions ti raw_data))) w4)).
  { pose proof (make_html_table_page w4 (scheduled_sessions ti raw_data)
                  (render_all (scheduled_sessions ti raw_data)).2
                  eq_refl Hq2) as Ht.
    cbv zeta in Ht.
    change (ScheduleMaker.term_info (ScheduleMaker.self w4))
      with (ScheduleMaker.term_info (ScheduleMaker.self w3)) in Ht.
    rewrite Hti in Ht. apply Ht.
    destruct (TermInfo.days_of_week ti) eqn:Hdays; [left|right; discriminate].
    apply nil_length_inv. rewrite Hlength.
    rewrite (meeting_dates_no_weekday ti Hdays). reflexivity. }
  rewrite (bind_return _ _ _ _ _ Htable) in Hrun.
  rewrite Hrun. split; [reflexivity|]. split; [|exact Hlength].
  cbn. rewrite Hfiles.
  change (ScheduleMaker.term_info (ScheduleMaker.self w3)) with
    (ScheduleMaker.term_info (ScheduleMaker.self w3)).
  rewrite Hti. reflexivity.
Qed.

(** X17.  The whole run.  When the file of the learning objectives is
    there, its text has as many session chunks as the term has sessions
    and as the term has class days, the term ends before [date.max] and
    every evening exam has a message, [make_schedule] returns and
    writes one file, the schedule table: the header with the weekday
    names, one cell per meeting day in rows of one cell per meeting
    weekday, each with the HTML of its session (the no-class block of a
    skipped day, or the session block of the next chunk followed by the
    message of an evening exam), and the trailer.  Every other file is
    as it was.  Files are a map from paths to texts here, so writing
    never fails. *)
Theorem make_schedule_writes_page `{Libraries}
    (w : ScheduleMaker.World) (raw_data : str) :
  let term_info := ScheduleMaker.term_info (ScheduleMaker.self w) in
  ScheduleMaker.files w !! TermInfo.learning_objectives_filename term_info
  = Some raw_data ->
  Z.of_nat (length (session_chunks raw_data))
  = TermInfo.number_of_sessions term_info ->
  length (session_chunks raw_data) = length (class_meeting_dates term_info) ->
  TermInfo.end_date term_info < datetime.MAXORDINAL ->
  Forall (fun e => is_Some (ScheduleDate.message e))
    (TermInfo.evening_exams term_info) ->
  let r := ScheduleMaker.make_schedule w in
  r.1 = Return tt
  /\ ScheduleMaker.files r.2 !! TermInfo.schedule_table_filename term_info
     = Some (schedule_page term_info (scheduled_sessions term_info raw_data))
  /\ (forall path,
        path <> TermInfo.schedule_table_filename term_info ->
        ScheduleMaker.files r.2 !! path = ScheduleMaker.files w !! path)
  /\ length (scheduled_sessions term_info raw_data)
     = length (meeting_dates term_info).
Proof.
  intros ti Hfile Hcount Hlen Hmax Hexams.
  destruct (make_schedule_page w raw_data Hfile Hcount Hlen Hmax Hexams)
    as (H1 & H2 & H3).
  cbv zeta. fold ti. rewrite H2.
  split; [exact H1|]. split; [apply lookup_insert_eq|].
  split; [|exact H3].
  intros path Hpath. apply lookup_insert_ne.
  intros E. apply Hpath. rewrite <- E. reflexivity.
Qed.

Lemma make_schedule_writes_page_witness :
  let r := @ScheduleMaker.make_schedule example_libraries week_maker in
  r.1 = Return tt
  /\ ScheduleMaker.files r.2 !! lit "out"
     = Some (@schedule_page example_libraries
               (ScheduleMaker.term_info (ScheduleMaker.self week_maker))
               (scheduled_sessions
                  (ScheduleMaker.term_info (ScheduleMaker.self week_maker))
                  week_text))
  /\ ScheduleMaker.files r.2 !! lit "in" = Some week_text.
Proof.
  assert (Hfile : ScheduleMaker.files week_maker !! lit "in" = Some week_text)
    by (vm_compute; reflexivity).
  assert (Hin : lit "in" <> lit "out") by discriminate.
  destruct (@make_schedule_writes_page example_libraries week_maker week_text)
    as (H1 & H2 & H3 & _).
  - exact Hfile.
  - vm_compute. reflexivity.
  - vm_compute. reflexivity.
  - vm_compute. reflexivity.
  - repeat (apply Forall_cons_2 || apply Forall_nil_2). eexists. reflexivity.
  - cbv zeta. split; [exact H1|]. split; [exact H2|].
    rewrite (H3 (lit "in") Hin). exact Hfile.
Defined.

(** X18.  The sessions of the file must be as many as the class days of
    the term.  When the file is there with as many chunks as the term
    has sessions and the term ends before [date.max]: with fewer chunks
    than class days [make_schedule] raises [IndexError] (the walk finds
    no session for a class day), with more chunks than class days it
    raises [TypeError] (a session is left without number and cannot be
    rendered); in both cases no file is written. *)
Theorem make_schedule_needs_a_session_per_class_day `{Libraries}
    (w : ScheduleMaker.World) (raw_data : str) :
  let term_info := ScheduleMaker.term_info (ScheduleMaker.self w) in
  ScheduleMaker.files w !! TermInfo.learning_objectives_filename term_info
  = Some raw_data ->
  Z.of_nat (length (session_chunks raw_data))
  = TermInfo.number_of_sessions term_info ->
  TermInfo.end_date term_info < datetime.MAXORDINAL ->
  let r := ScheduleMaker.make_schedule w in
  ((length (session_chunks raw_data)
    < length (class_meeting_dates term_info))%nat ->
   r.1 = Raise IndexError)
  /\ ((length (class_meeting_dates term_info)
       < length (session_chunks raw_data))%nat ->
      r.1 = Raise TypeError)
  /\ (length (session_chunks raw_data)
      <> length (class_meeting_dates term_info) ->
      ScheduleMaker.files r.2 = ScheduleMaker.files w).
Proof.
  intros ti Hfile Hcount Hmax r. subst r.
  destruct (make_schedule_run w raw_data Hfile Hcount ltac:(fold ti; lia))
    as (w3 & Hfiles & Hti & Hsessions & Hrun).
  fold ti in Hti, Hsessions, Hrun.
  set (pending := chunk_session <$> session_chunks raw_data) in *.
  set (c := calendar ti (term_dates ti) (TermInfo.start_session_number ti)
              pending) in *.
  pose proof (calendar_placed_iff ti (term_dates ti)
                (TermInfo.start_session_number ti) pending) as Hiff.
  fold c in Hiff. fold (meeting_dates ti) in Hiff.
  fold (class_meeting_dates ti) in Hiff.
  assert (Hpl : length pending = length (session_chunks raw_data))
    by (subst pending; apply length_fmap).
  rewrite Hpl in Hiff.
  assert (Hfew : (length (session_chunks raw_data)
                  < length (class_meeting_dates ti))%nat ->
                 ScheduleMaker.make_schedule w = (Raise IndexError, w3)).
  { intros Hlt. rewrite Hrun.
    destruct c.2 eqn:Hc2; [|reflexivity].
    assert (true = true) as Ht by reflexivity. apply Hiff in Ht. lia. }
  assert (Hmany : (length (class_meeting_dates ti)
                   < length (session_chunks raw_data))%nat ->
                  ScheduleMaker.make_schedule w
                  = (Raise TypeError,
                     ScheduleMaker.set_sessions
                       (Some (render_all c.1).2) w3)).
  { intros Hlt. rewrite Hrun.
    assert (Hc2 : c.2 = true) by (apply Hiff; lia).
    rewrite Hc2, (walk_outcome_returns ti Hmax). cbv zeta.
    assert (Hq : (render_all c.1).1 = Raise TypeError);
      [|rewrite Hq; reflexivity].
    pose proof (calendar_placed_dated ti (term_dates ti)
                  (TermInfo.start_session_number ti)
                  (session_chunks raw_data)) as Hp.
    cbv zeta in Hp. fold pending in Hp. fold c in Hp.
    assert (Hpend : forall s, s ∈ pending ->
              (Session_make_html s).1 = Raise TypeError).
    { intros s Hin. subst pending.
      apply list_elem_of_fmap in Hin as (chunk & -> & _).
      rewrite make_html_unnumbered by reflexivity. reflexivity. }
    apply render_all_TypeError.
    - eapply Forall_impl; [exact Hp|]. intros s [Hin|[Hdate Hclass]].
      + right. apply Hpend. exact Hin.
      + apply make_html_dated; [exact Hdate|].
        intros Hc. destruct (Hclass Hc) as (H1 & H2 & _). auto.
    - destruct (calendar_left_over ti (term_dates ti)
                  (TermInfo.start_session_number ti) pending Hc2)
        as (dated & E & _ & _).
      fold c in E. fold (meeting_dates ti) in E.
      fold (class_meeting_dates ti) in E.
      rewrite E. apply Exists_app. right.
      destruct (drop (length (class_meeting_dates ti)) pending)
        as [|s0 rest] eqn:Hdrop.
      + apply (f_equal length) in Hdrop. rewrite length_drop in Hdrop.
        simpl in Hdrop. lia.
      + apply Exists_cons_hd. apply Hpend.
        rewrite <- (take_drop (length (class_meeting_dates ti)) pending).
        apply elem_of_app. right. rewrite Hdrop. left. }
  split; [intros Hlt; rewrite (Hfew Hlt); reflexivity|].
  split; [intros Hlt; rewrite (Hmany Hlt); reflexivity|].
  intros Hne.
  destruct (decide (length (session_chunks raw_data)
                    < length (class_meeting_dates ti))%nat) as [Hlt|Hge].
  - rewrite (Hfew Hlt). exact Hfiles.
  - rewrite Hmany by lia. exact Hfiles.
Qed.

Lemma make_schedule_needs_a_session_per_class_day_witness :
  (@ScheduleMaker.make_schedule example_libraries crowded_week_maker).1
  = Raise TypeError.
Proof.
  destruct (@make_schedule_needs_a_session_per_class_day example_libraries
              crowded_week_maker week_text)
    as (_ & H2 & _).
  - vm_compute. reflexivity.
  - vm_compute. reflexivity.
  - vm_compute. reflexivity.
  - apply H2. vm_compute. lia.
Defined.

Lemma make_schedule_no_file `{Libraries} w :
  ScheduleMaker.files w
    !! TermInfo.learning_objectives_filename
         (ScheduleMaker.term_info (ScheduleMaker.self w))
  = None ->
  ScheduleMaker.make_schedule w = (Raise FileNotFoundError, w).
Proof.
  intros Hfile. unfold ScheduleMaker.make_schedule.
  apply bind_raise.
  unfold ScheduleMaker.get_raw_data, bind, get. rewrite Hfile. reflexivity.
Qed.

(** X19.  Without the file of the learning objectives, [get_raw_data]
    raises [FileNotFoundError] and so does [make_schedule], at once: the
    maker and the files are as they were, nothing is parsed and nothing
    is written. *)
Theorem make_schedule_missing_file `{Libraries} (w : ScheduleMaker.World) :
  ScheduleMaker.files w
    !! TermInfo.learning_objectives_filename
         (ScheduleMaker.term_info (ScheduleMaker.self w))
  = None ->
  ScheduleMaker.get_raw_data w = (Raise FileNotFoundError, w)
  /\ ScheduleMaker.make_schedule w = (Raise FileNotFoundError, w).
Proof.
  intros Hfile.
  assert (Hget : ScheduleMaker.get_raw_data w = (Raise FileNotFoundError, w)).
  { unfold ScheduleMaker.get_raw_data.
    rewrite bind_return with (a := w) (s' := w) by reflexivity.
    rewrite Hfile. reflexivity. }
  split; [exact Hget|].
  unfold ScheduleMaker.make_schedule. apply bind_raise. exact Hget.
Qed.

Lemma make_schedule_missing_file_witness :
  @ScheduleMaker.make_schedule example_libraries (maker_with [] 1)
  = (Raise FileNotFoundError, maker_with [] 1).
Proof.
  apply (@make_schedule_missing_file example_libraries (maker_with [] 1)).
  reflexivity.
Defined.

Lemma TermInfo_init_shipped :
  TermInfo.init (lit "201930") tt = (Return shipped_term_info, tt).
Proof. vm_compute. reflexivity. Qed.

Lemma shipped_class_days :
  length (class_meeting_dates shipped_term_info) = 30%nat
  /\ length (meeting_dates shipped_term_info) = 33%nat.
Proof. split; vm_compute; reflexivity. Qed.

(** X20.  [main], for every state of the files.  The term [201930] as
    shipped has 33 meeting days of which 3 are skipped, and 30 sessions.
    Without the file of its learning objectives [main] raises
    [FileNotFoundError]; with a file that has another number of session
    chunks than 30 it raises the [AssertionError] of the splitter; in
    both cases every file is as it was.  With a file of exactly 30
    chunks it returns and writes the schedule table of 33 cells to
    [index.html] in the folder of the term, and changes no other file. *)
Theorem main_outcome `{Libraries} (files : gmap str str) :
  let learning_objectives :=
    lit "/Users/david/classes/120/Public/201930/LearningObjectives/201930-LearningObjectives.md" in
  let schedule_table :=
    lit "/Users/david/classes/120/Public/201930/index.html" in
  main files
  = match files !! learning_objectives with
    | None => (Raise FileNotFoundError, files)
    | Some raw_data =>
        if decide (length (session_chunks raw_data) = 30%nat)
        then (Return tt,
              <[schedule_table
                := schedule_page shipped_term_info
                     (scheduled_sessions shipped_term_info raw_data)]> files)
        else (Raise MISMATCH, files)
    end
  /\ forall raw_data,
       length (session_chunks raw_data) = 30%nat ->
       length (scheduled_sessions shipped_term_info raw_data) = 33%nat.
Proof.
  intros le st.
  set (w := ScheduleMaker.mkWorld (ScheduleMaker.init shipped_term_info)
              files).
  assert (Hle : TermInfo.learning_objectives_filename shipped_term_info = le)
    by (vm_compute; reflexivity).
  assert (Hst : TermInfo.schedule_table_filename shipped_term_info = st)
    by (vm_compute; reflexivity).
  assert (Hn : TermInfo.number_of_sessions shipped_term_info = 30)
    by reflexivity.
  assert (Hmax : TermInfo.end_date shipped_term_info < datetime.MAXORDINAL)
    by (vm_compute; reflexivity).
  assert (Hexams : Forall (fun e => is_Some (ScheduleDate.message e))
                     (TermInfo.evening_exams shipped_term_info)).
  { repeat (apply Forall_cons_2 || apply Forall_nil_2);
      eexists; reflexivity. }
  destruct shipped_class_days as [Hclass Hmeet].
  split.
  - unfold main. rewrite TermInfo_init_shipped. fold w. cbv zeta.
    destruct (files !! le) as [raw_data|] eqn:Hfile.
    + assert (Hfile' : ScheduleMaker.files w
                         !! TermInfo.learning_objectives_filename
                              (ScheduleMaker.term_info (ScheduleMaker.self w))
                       = Some raw_data)
        by (cbn; rewrite Hle; exact Hfile).
      destruct (decide (length (session_chunks raw_data) = 30%nat))
        as [Hc|Hc].
      * destruct (make_schedule_page w raw_data Hfile') as (H1 & H2 & _).
        -- cbn. rewrite Hc. reflexivity.
        -- cbn. rewrite Hc, Hclass. reflexivity.
        -- exact Hmax.
        -- exact Hexams.
        -- rewrite H1, H2. cbn [ScheduleMaker.term_info ScheduleMaker.self
                                 ScheduleMaker.init w ScheduleMaker.files].
           rewrite Hst. reflexivity.
      * destruct (make_schedule_mismatch w raw_data Hfile') as [H1 H2].
        -- cbn. rewrite Hn. lia.
        -- rewrite H1, H2. reflexivity.
    + rewrite (make_schedule_no_file w) by (cbn; rewrite Hle; exact Hfile).
      reflexivity.
  - intros raw_data Hc.
    destruct (scheduled_sessions_renderable shipped_term_info raw_data)
      as [_ Hlen].
    + rewrite Hc, Hclass. reflexivity.
    + exact Hexams.
    + rewrite Hlen. exact Hmeet.
Qed.
